(** * ETSS-07-ImageEnhance: layers, dataset adapter and config loader

    A shallow embedding of the parts of the repository that its
    specification makes testable statements about:

    - [torchkit/datasets/cityscapes/cityscapes_lol.py]
      ([CityscapesLoL.list_files], [CityscapesLoL.load_labels]);
    - [torchkit/utils.py] ([load_config]);
    - [torchkit/core/layer/plugin.py] ([ContextBlock.__init__],
      [Concat.forward], [Focus.forward], [Sum]);
    - [src/mon/coreml/layer/custom/blueprint.py] (the blueprint separable
      convolutions and their registration);
    - [torchkit/models/enhancers/e2e_enhancer.py]
      ([End2EndEnhancer.forward_features]);
    - [torchkit/core/metric/mse.py] ([mse], [MSE.forward]).

    Python exceptions are modelled by an error monad, [self] attributes by
    records threaded through the methods, the file system and the random
    number generator by explicit oracles. Python floats are binary64 and
    layer weights float32, both through the standard library's
    [SpecFloat]; feature maps have real entries. *)

From stdpp Require Import gmap strings list.
From Stdlib Require Import ZArith List String Ascii Bool Lia.
From Stdlib Require Import DecimalString.
From Stdlib Require Import Reals Lra.
From Stdlib Require Import SpecFloat.

Import ListNotations.
#[local] Set Warnings "-register-all".
#[local] Set Warnings "-notation-overridden".
#[local] Set Warnings "-ambiguous-paths".
#[local] Set Warnings "-notation-incompatible-prefix".
Local Open Scope string_scope.
Local Open Scope Z_scope.

(** ** Python prelude: exceptions, truthiness, sequences *)

Module Py.

Inductive exn : Type :=
| AssertionError (msg : string)
| ValueError (msg : string)
| IndexError (msg : string)
| OverflowError (msg : string)
| AttributeError (msg : string)
| KeyError (msg : string)
| RuntimeError (msg : string)
| NotImplementedError (msg : string)
| TypeError (msg : string).

Inductive result (A : Type) : Type :=
| Ok (a : A)
| Raise (e : exn).
Arguments Ok {A} a.
Arguments Raise {A} e.

Definition bind {A B} (m : result A) (k : A -> result B) : result B :=
  match m with
  | Ok a => k a
  | Raise e => Raise e
  end.

Definition is_ok {A} (m : result A) : bool :=
  match m with Ok _ => true | Raise _ => false end.

(** [assert cond, msg] *)
Definition assert (cond : bool) (msg : string) : result unit :=
  if cond then Ok tt else Raise (AssertionError msg).

(** [str(n)] for an [int] *)
Definition str_of_nat (n : nat) : string :=
  NilEmpty.string_of_uint (Nat.to_uint n).

(** [seq[i]] with Python's negative indices and [IndexError]. *)
Definition getitem {A} (l : list A) (i : Z) : result A :=
  let n := Z.of_nat (List.length l) in
  let j := if i <? 0 then n + i else i in
  if (0 <=? j) && (j <? n) then
    match nth_error l (Z.to_nat j) with
    | Some a => Ok a
    | None => Raise (IndexError "list index out of range")
    end
  else Raise (IndexError "list index out of range").

(** [[f(x) for x in xs]] when [f] can raise. *)
Fixpoint mapM {A B} (f : A -> result B) (xs : list A) : result (list B) :=
  match xs with
  | [] => Ok []
  | x :: xs' =>
      bind (f x) (fun y => bind (mapM f xs') (fun ys => Ok (y :: ys)))
  end.

(** [str.replace(old, new)]: the occurrences of [old] are replaced from
    left to right, without overlap. [skip] counts the characters of a
    matched occurrence that are still to be dropped. *)
Fixpoint replace_from (skip : nat) (old new s : string) : string :=
  match s with
  | EmptyString => EmptyString
  | String c rest =>
      match skip with
      | S k => replace_from k old new rest
      | O =>
          if String.prefix old s
          then new ++ replace_from (Nat.pred (String.length old)) old new rest
          else String c (replace_from O old new rest)
      end
  end.

(** With an empty [old], Python puts [new] before every character and at
    the end. *)
Fixpoint intersperse (new s : string) : string :=
  match s with
  | EmptyString => new
  | String c rest => new ++ String c (intersperse new rest)
  end.

Definition replace (s old new : string) : string :=
  match old with
  | EmptyString => intersperse new s
  | String _ _ => replace_from O old new s
  end.

(** [os.path.join] of [posixpath]. *)
Definition ends_with_slash (s : string) : bool :=
  match String.get (Nat.pred (String.length s)) s with
  | Some c => Ascii.eqb c "/"%char
  | None => false
  end.

Definition join2 (path b : string) : string :=
  if String.prefix "/" b then b
  else if (String.length path =? 0)%nat || ends_with_slash path then path ++ b
  else path ++ "/" ++ b.

Definition os_path_join (a : string) (ps : list string) : string :=
  fold_left join2 ps a.

(** Truth value of an [Optional[str]]. *)
Definition truthy (s : option string) : bool :=
  match s with
  | None => false
  | Some EmptyString => false
  | Some (String _ _) => true
  end.

(** The state of the [random] module: the raw draws still to come. A
    draw of [randint(a, b)] is reduced into [[a, b]]. *)
Definition rng : Type := nat -> Z.

Definition rng_tail (r : rng) : rng := fun n => r (S n).

Definition randint (a b : Z) (r : rng) : result (Z * rng) :=
  if b <? a
  then Raise (ValueError "empty range for randrange()")
  else Ok (a + (r O) mod (b - a + 1), rng_tail r).

End Py.

Import Py.

Notation "'let*' x ':=' m 'in' k" := (Py.bind m (fun x => k))
  (at level 10, x pattern, m at level 100, k at level 200).

(** ** [torchkit/datasets/cityscapes/cityscapes_lol.py] *)

Module CityscapesLoL.

(** What the methods see of the file system: the paths [glob.glob]
    returns for a pattern, and [os.path.isfile]. *)
Record world : Type := {
  glob : string -> list string;
  isfile : string -> bool
}.

(** The attributes of [self] that [list_files] and [load_labels] read or
    write. The three path lists are distinct list objects. *)
Record dataset : Type := {
  root : string;
  split : string;
  fast_dev_run : bool;
  batch_size : Z;
  image_paths : list string;
  eimage_paths : list string;
  label_paths : list string;
  has_custom_labels : bool
}.

(** [os.path.join(self.root, "lol", self.split, "low", "*.png")] *)
Definition image_pattern (self : dataset) : string :=
  os_path_join (root self) ["lol"; split self; "low"; "*.png"].

(** [[random.randint(0, len(image_paths) - 1) for _ in range(n)]] *)
Fixpoint draw_indices (n : nat) (len : Z) (r : rng) : result (list Z * rng) :=
  match n with
  | O => Ok ([], r)
  | S n' =>
      let* (i, r1) := randint 0 (len - 1) r in
      let* (js, r2) := draw_indices n' len r1 in
      Ok (i :: js, r2)
  end.

(** Lines 216-222: the discovered paths, or the fast-dev-run subset. *)
Definition select_images (w : world) (r : rng) (self : dataset)
  : result (list string * rng) :=
  let image_paths := glob w (image_pattern self) in
  if fast_dev_run self then
    let* (indices, r') :=
      draw_indices (Z.to_nat (batch_size self))
                   (Z.of_nat (List.length image_paths)) r in
    let* image_paths' := mapM (getitem image_paths) indices in
    Ok (image_paths', r')
  else Ok (image_paths, r).

Definition eimage_path_of (image_path : string) : string :=
  replace image_path "low" "high".

Definition label_path_of (image_path : string) : string :=
  replace (replace image_path "low" "customs") ".png" ".json".

(** One iteration of the loop of lines 225-232. *)
Definition list_one (w : world) (self : dataset) (image_path : string)
  : dataset :=
  let eimage_path := eimage_path_of image_path in
  let label_path := label_path_of image_path in
  {| root := root self;
     split := split self;
     fast_dev_run := fast_dev_run self;
     batch_size := batch_size self;
     image_paths := image_paths self ++ [image_path];
     eimage_paths := eimage_paths self ++ [eimage_path];
     label_paths := label_paths self ++ [label_path];
     has_custom_labels := isfile w label_path |}.

Definition list_all (w : world) (self : dataset) (paths : list string)
  : dataset :=
  fold_left (list_one w) paths self.

Definition count_message (n m : nat) : string :=
  "Number of images != Number of enhanced images: "
  ++ str_of_nat n ++ " != " ++ str_of_nat m ++ ".".

(** Lines 235-237. *)
Definition check_counts (self : dataset) : result unit :=
  assert (List.length (image_paths self) =? List.length (eimage_paths self))%nat
         (count_message (List.length (image_paths self))
                        (List.length (eimage_paths self))).

Definition list_files (w : world) (r : rng) (self : dataset)
  : result (dataset * rng) :=
  let* (paths, r') := select_images w r self in
  let self' := list_all w self paths in
  let* _ := check_counts self' in
  Ok (self', r').

(** What [load_labels] hands back: which loader it called, on which
    files. [VisualDataHandler] and [ImageInfo] are not part of the
    listing code; the calls are kept symbolic. *)
Inductive vision_data : Type :=
| LoadFromFile (image_path label_path eimage_path : string)
| FromImageInfo (image_path eimage_path : string).

Definition load_labels (self : dataset) (image_path eimage_path : string)
  (label_path : option string) : vision_data :=
  if has_custom_labels self && truthy label_path then
    match label_path with
    | Some l => LoadFromFile image_path l eimage_path
    | None => FromImageInfo image_path eimage_path
    end
  else FromImageInfo image_path eimage_path.

(** The pairing the loop of [list_files] builds: the enhanced image and
    the label of sample [i] are derived from image [i]. *)
Definition aligned (self : dataset) : Prop :=
  eimage_paths self = map eimage_path_of (image_paths self)
  /\ label_paths self = map label_path_of (image_paths self).

End CityscapesLoL.

(** ** [torchkit/utils.py] *)

Module Utils.

(** Python values a config can hold. A mapping is kept as the list of its
    items in insertion order (its keys are pairwise distinct); [VMunch] is
    the attribute-accessible [Munch] subclass of [dict]. *)
Inductive value : Type :=
| VNone
| VBool (b : bool)
| VInt (z : Z)
| VFloat (f : spec_float)
| VStr (s : string)
| VList (l : list value)
| VTuple (l : list value)
| VDict (items : list (string * value))
| VMunch (items : list (string * value)).

(** [Munch.fromDict] (munchify): mappings become [Munch], lists and tuples
    are converted element by element, anything else is kept. *)
Fixpoint fromDict (v : value) : value :=
  match v with
  | VDict items => VMunch (map (fun kv => (fst kv, fromDict (snd kv))) items)
  | VMunch items => VMunch (map (fun kv => (fst kv, fromDict (snd kv))) items)
  | VList l => VList (map fromDict l)
  | VTuple l => VTuple (map fromDict l)
  | _ => v
  end.

(** [torchkit.core.fileio.load] is not part of the listing: what it
    returns for a path is an oracle. *)
Definition loader : Type := string -> result value.

Definition is_not_None (v : value) : bool :=
  match v with VNone => false | _ => true end.

Definition load_config (load : loader) (config : value) : result value :=
  let* config_dict :=
    match config with
    | VStr path => load path
    | VDict _ | VMunch _ => Ok config
    | _ => Raise (ValueError "")
    end in
  let* _ :=
    assert (is_not_None config_dict)
      ("No configuration is found at "
       ++ match config with VStr path => path | _ => "" end ++ "!") in
  Ok (fromDict config_dict).

Fixpoint lookup_item (k : string) (items : list (string * value))
  : option value :=
  match items with
  | [] => None
  | (k', v) :: rest => if String.eqb k k' then Some v else lookup_item k rest
  end.

Definition type_name (v : value) : string :=
  match v with
  | VNone => "NoneType"
  | VBool _ => "bool"
  | VInt _ => "int"
  | VFloat _ => "float"
  | VStr _ => "str"
  | VList _ => "list"
  | VTuple _ => "tuple"
  | VDict _ => "dict"
  | VMunch _ => "Munch"
  end.

(** [ns[k]] *)
Definition getitem (ns : value) (k : string) : result value :=
  match ns with
  | VMunch items | VDict items =>
      match lookup_item k items with
      | Some v => Ok v
      | None => Raise (KeyError k)
      end
  | VList _ | VTuple _ =>
      Raise (TypeError (type_name ns
                        ++ " indices must be integers or slices, not str"))
  | VStr _ => Raise (TypeError "string indices must be integers")
  | _ => Raise (TypeError ("'" ++ type_name ns
                           ++ "' object is not subscriptable"))
  end.

(** What an attribute read gives: a field of the mapping, or what normal
    attribute lookup finds on the class (a method of [dict] or [Munch],
    [__class__], ...). *)
Inductive attribute : Type :=
| Field (v : value)
| ClassAttribute (name : string).

(** [ns.k]: normal attribute lookup comes first, and a name it finds on
    the class shadows a field of that name; on a [Munch] the item [k] is
    tried next ([Munch.__getattr__]). [on_class t k] tells whether normal
    lookup finds [k] on an object of type [t]: the classes are not part
    of the listing. *)
Definition getattr (on_class : string -> string -> bool) (ns : value)
  (k : string) : result attribute :=
  if on_class (type_name ns) k then Ok (ClassAttribute k)
  else
    match ns with
    | VMunch items =>
        match lookup_item k items with
        | Some v => Ok (Field v)
        | None => Raise (AttributeError k)
        end
    | _ => Raise (AttributeError
                    ("'" ++ type_name ns ++ "' object has no attribute '"
                     ++ k ++ "'"))
    end.

(** [ns.keys()] *)
Definition keys (ns : value) : list string :=
  match ns with
  | VMunch items | VDict items => map fst items
  | _ => []
  end.

(** No plain [dict] is left anywhere in a value: every mapping in it is
    attribute-accessible. *)
Fixpoint munchified (v : value) : bool :=
  match v with
  | VDict _ => false
  | VMunch items => forallb (fun kv => munchified (snd kv)) items
  | VList l => forallb munchified l
  | VTuple l => forallb munchified l
  | _ => true
  end.

End Utils.

(** ** Tensors

    What the layers use of the tensor framework. A tensor is its shape
    and its entries, indexed by multi-indices. Entries are real numbers:
    rounding of the framework's floating-point kernels is not modelled. *)

Module Torch.

Record tensor : Type := {
  shape : list nat;
  data : list nat -> R
}.

Definition ndim (t : tensor) : nat := List.length (shape t).

(** [t.shape[1]], the channel count of a batch of feature maps. *)
Definition channels (t : tensor) : nat := nth 1 (shape t) O.

(** All multi-indices of a shape, in row-major order. *)
Fixpoint indices (s : list nat) : list (list nat) :=
  match s with
  | [] => [[]]
  | n :: s' => flat_map (fun i => map (cons i) (indices s')) (seq 0 n)
  end.

Definition sum_list (l : list R) : R := fold_right Rplus 0%R l.

(** Broadcasting, on the shapes read from the last dimension. *)
Fixpoint broadcast_rev (a b : list nat) : result (list nat) :=
  match a, b with
  | [], _ => Ok b
  | _, [] => Ok a
  | x :: a', y :: b' =>
      if (x =? y)%nat then let* r := broadcast_rev a' b' in Ok (x :: r)
      else if (x =? 1)%nat then let* r := broadcast_rev a' b' in Ok (y :: r)
      else if (y =? 1)%nat then let* r := broadcast_rev a' b' in Ok (x :: r)
      else Raise (RuntimeError "The size of tensor a must match the size of tensor b")
  end.

Definition broadcast_shapes (s1 s2 : list nat) : result (list nat) :=
  let* r := broadcast_rev (rev s1) (rev s2) in Ok (rev r).

(** The index of an operand of shape [s] for index [idx] of the result. *)
Definition expand_index (s idx : list nat) : list nat :=
  map (fun ni => if (fst ni =? 1)%nat then O else snd ni)
      (combine s (skipn (List.length idx - List.length s) idx)).

Definition pointwise (f : R -> R -> R) (a b : tensor) : result tensor :=
  let* s := broadcast_shapes (shape a) (shape b) in
  Ok {| shape := s;
        data := fun idx => f (data a (expand_index (shape a) idx))
                             (data b (expand_index (shape b) idx)) |}.

Definition add : tensor -> tensor -> result tensor := pointwise Rplus.
Definition sub : tensor -> tensor -> result tensor := pointwise Rminus.
Definition mul : tensor -> tensor -> result tensor := pointwise Rmult.

Definition map_entries (f : R -> R) (t : tensor) : tensor :=
  {| shape := shape t; data := fun idx => f (data t idx) |}.

Definition sigmoid : tensor -> tensor :=
  map_entries (fun x => (1 / (1 + exp (- x)))%R).

(** [t * c] for a Python number [c]. *)
Definition scale (t : tensor) (c : R) : tensor :=
  map_entries (fun x => (x * c)%R) t.

(** [t[i]] *)
Definition select (t : tensor) (i : Z) : result tensor :=
  match shape t with
  | [] => Raise (IndexError "invalid index of a 0-dim tensor")
  | n :: s' =>
      let j := if i <? 0 then Z.of_nat n + i else i in
      if (0 <=? j) && (j <? Z.of_nat n)
      then Ok {| shape := s'; data := fun idx => data t (Z.to_nat j :: idx) |}
      else Raise (IndexError "index out of range")
  end.

(** [torch.cat(xs, dim)] *)
Fixpoint cat_data (d : nat) (xs : list tensor) (idx : list nat) : R :=
  match xs with
  | [] => 0%R
  | x :: xs' =>
      let n := nth d (shape x) O in
      let k := nth d idx O in
      if (k <? n)%nat then data x idx
      else cat_data d xs' (<[d := (k - n)%nat]> idx)
  end.

Definition same_except (d : nat) (s1 s2 : list nat) : bool :=
  bool_decide (<[d := O]> s1 = <[d := O]> s2).

Definition cat (xs : list tensor) (dim : Z) : result tensor :=
  match xs with
  | [] => Raise (ValueError "torch.cat(): expected a non-empty list of Tensors")
  | x0 :: rest =>
      let nd := Z.of_nat (ndim x0) in
      let d := if dim <? 0 then dim + nd else dim in
      if (0 <=? d) && (d <? nd) then
        let d' := Z.to_nat d in
        if forallb (fun x => same_except d' (shape x0) (shape x)) rest then
          let total := list_sum (map (fun x => nth d' (shape x) O) xs) in
          Ok {| shape := <[d' := total]> (shape x0);
                data := cat_data d' xs |}
        else Raise (RuntimeError "Sizes of tensors must match except in dimension")
      else Raise (IndexError "Dimension out of range")
  end.

(** [torch.transpose(t, d0, d1)] exchanges two places of the shape and
    of every index. *)
Definition swap (d0 d1 : nat) (l : list nat) : list nat :=
  <[d0 := nth d1 l O]> (<[d1 := nth d0 l O]> l).


End Torch.

(** ** [torchkit/core/layer/plugin.py] *)

Module Plugin.

Import Torch.

(** A [Sequence[str]] argument as [ContextBlock] can receive it. *)
Inductive str_seq : Type :=
| PyList (l : list string)
| PyTuple (l : list string)
| PyStr (s : string).

Definition is_list_or_tuple (x : str_seq) : bool :=
  match x with PyList _ | PyTuple _ => true | PyStr _ => false end.

(** The elements an iteration over the argument yields. *)
Definition elements (x : str_seq) : list string :=
  match x with
  | PyList l | PyTuple l => l
  | PyStr s => map (fun c => String c EmptyString) (list_ascii_of_string s)
  end.

Definition str_in (s : string) (l : list string) : bool :=
  existsb (String.eqb s) l.

Definition valid_pooling_types : list string := ["avg"; "att"].
Definition valid_fusion_types : list string := ["channel_add"; "channel_mul"].

(** The assertions of [ContextBlock.__init__], lines 62-66; only the last
    one has a message. *)
Inductive context_check : Type :=
| CheckPooling | CheckSequence | CheckFusionAllowed | CheckFusionNonEmpty.

Definition run_check (c : context_check) (pooling_type : string)
  (fusion_types : str_seq) : result unit :=
  match c with
  | CheckPooling => assert (str_in pooling_type valid_pooling_types) ""
  | CheckSequence => assert (is_list_or_tuple fusion_types) ""
  | CheckFusionAllowed =>
      assert (forallb (fun f => str_in f valid_fusion_types)
                      (elements fusion_types)) ""
  | CheckFusionNonEmpty =>
      assert (0 <? List.length (elements fusion_types))%nat
             "At least one fusion should be used."
  end.

Definition ContextBlock_init_checks (pooling_type : string)
  (fusion_types : str_seq) : result unit :=
  let* _ := run_check CheckPooling pooling_type fusion_types in
  let* _ := run_check CheckSequence pooling_type fusion_types in
  let* _ := run_check CheckFusionAllowed pooling_type fusion_types in
  let* _ := run_check CheckFusionNonEmpty pooling_type fusion_types in
  Ok tt.

(** [Concat] *)
Record Concat : Type := { dim : Z }.

Definition Concat_init (dim : Z) : Concat := {| dim := dim |}.

Definition Concat_forward (self : Concat) (x : list tensor) : result tensor :=
  cat x (dim self).

(** [Sum]: [iter] is [range(n - 1)], [w] the learned weights (one per
    additional input) when [weight] is set. *)
Record Sum : Type := {
  weight : bool;
  iter : list Z;
  w : option tensor
}.

Definition range (n : Z) : list Z := map Z.of_nat (seq 0 (Z.to_nat n)).

(** [-torch.arange(1.0, n) / 2] *)
Definition initial_weights (n : Z) : tensor :=
  {| shape := [Z.to_nat (n - 1)];
     data := fun idx => (- INR (S (nth 0 idx O)) / 2)%R |}.

Definition Sum_init (n : Z) (weight : bool) : Sum :=
  {| weight := weight;
     iter := range (n - 1);
     w := if weight then Some (initial_weights n) else None |}.

Definition Sum_forward (self : Sum) (x : list tensor) : result tensor :=
  let* y0 := getitem x 0 in
  if weight self then
    let* sw :=
      match w self with
      | Some t => Ok t
      | None => Raise (AttributeError "w")
      end in
    let w' := scale (sigmoid sw) 2 in
    fold_left
      (fun acc i =>
         let* y := acc in
         let* xi := getitem x (i + 1) in
         let* wi := select w' i in
         let* t := mul xi wi in
         add y t)
      (iter self) (Ok y0)
  else
    fold_left
      (fun acc i =>
         let* y := acc in
         let* xi := getitem x (i + 1) in
         add y xi)
      (iter self) (Ok y0).

(** [Focus]: the pixels of every 2x2 block go to four groups of channels;
    [conv] is the [ConvBnMish] the constructor builds (not part of this
    file). *)
Record Focus : Type := { conv : tensor -> result tensor }.

(** Apply [f] and [g] to the last two entries of a list. *)
Fixpoint on_last2 (f g : nat -> nat) (l : list nat) : list nat :=
  match l with
  | [] => []
  | [a; b] => [f a; g b]
  | x :: l' => x :: on_last2 f g l'
  end.

(** [x[..., r0::2, c0::2]] *)
Definition slice2 (r0 c0 : nat) (x : tensor) : result tensor :=
  if (2 <=? ndim x)%nat then
    Ok {| shape := on_last2 (fun h => ((h - r0 + 1) / 2)%nat)
                            (fun w => ((w - c0 + 1) / 2)%nat) (shape x);
          data := fun idx =>
            data x (on_last2 (fun i => (r0 + 2 * i)%nat)
                             (fun j => (c0 + 2 * j)%nat) idx) |}
  else Raise (IndexError "too many indices for tensor").

(** The argument [Focus.forward] hands to [self.conv]. *)
Definition Focus_rearrange (x : tensor) : result tensor :=
  let* a := slice2 0 0 x in
  let* b := slice2 1 0 x in
  let* c := slice2 0 1 x in
  let* d := slice2 1 1 x in
  cat [a; b; c; d] 1.

Definition Focus_forward (self : Focus) (x : tensor) : result tensor :=
  let* y := Focus_rearrange x in
  conv self y.

End Plugin.

(** ** Python floats

    [float] is IEEE 754 binary64; the operations are those of the
    standard library's executable specification, so that the integer a
    constructor derives from a float product is the one Python computes. *)

Module Float64.

Definition prec : Z := 53.
Definition emax : Z := 1024.

Definition float : Type := spec_float.

Definition zero : float := S754_zero false.
Definition one : float := S754_finite false 4503599627370496 (-52).

(** [float(n)] for an [int]: correctly rounded, [OverflowError] beyond
    the finite floats. *)
Definition of_int (n : Z) : result float :=
  match binary_normalize prec emax n 0 false with
  | S754_infinity _ => Raise (OverflowError "int too large to convert to float")
  | f => Ok f
  end.

Definition mul : float -> float -> float := SFmul prec emax.

Definition leb : float -> float -> bool := SFleb.

(** [math.ceil(x)] *)
Definition ceil (x : float) : result Z :=
  match x with
  | S754_zero _ => Ok 0
  | S754_finite s m e =>
      let n := if s then Z.neg m else Z.pos m in
      if 0 <=? e then Ok (n * 2 ^ e)
      else Ok (- ((- n) / 2 ^ (- e)))
  | S754_infinity _ =>
      Raise (OverflowError "cannot convert float infinity to integer")
  | S754_nan => Raise (ValueError "cannot convert float NaN to integer")
  end.

(** [x * n] for a float [x] and an [int] [n] *)
Definition mul_int (x : float) (n : Z) : result float :=
  let* y := of_int n in Ok (mul x y).

(** Zero, a positive number, an infinity or NaN: not a negative number. *)
Definition not_negative (x : float) : Prop :=
  match x with
  | S754_finite true _ _ => False
  | _ => True
  end.

(** [int(x)]: truncation toward zero. *)
Definition trunc (x : float) : result Z :=
  match x with
  | S754_zero _ => Ok 0
  | S754_finite s m e =>
      let n := if 0 <=? e then Z.pos m * 2 ^ e else Z.pos m / 2 ^ (- e) in
      Ok (if s then - n else n)
  | S754_infinity _ =>
      Raise (OverflowError "cannot convert float infinity to integer")
  | S754_nan => Raise (ValueError "cannot convert float NaN to integer")
  end.


(** The real number a float stands for: [m * 2 ^ e] with its sign for a
    finite float, [0] for the zeros (and, by convention, for the
    infinities and NaN, which stand for no number). *)
Definition pow2 (e : Z) : R :=
  if 0 <=? e then IZR (2 ^ e) else (/ IZR (2 ^ (- e)))%R.

Definition to_R (x : float) : R :=
  match x with
  | S754_finite s m e => (IZR (if s then Z.neg m else Z.pos m) * pow2 e)%R
  | _ => 0%R
  end.

End Float64.

(** ** float32, the default dtype of a layer's parameters *)

Module Float32.

Definition prec : Z := 24.
Definition emax : Z := 128.

Definition float : Type := spec_float.

Definition zero : float := S754_zero false.
Definition one : float := S754_finite false 8388608 (-23).

Definition add : float -> float -> float := SFadd prec emax.
Definition sub : float -> float -> float := SFsub prec emax.
Definition mul : float -> float -> float := SFmul prec emax.
Definition sqrt : float -> float := SFsqrt prec emax.


Definition to_R : float -> R := Float64.to_R.

(** Zero, a positive number, [+inf] or NaN: not a negative number. *)
Definition not_negative (x : float) : Prop :=
  match x with
  | S754_finite true _ _ | S754_infinity true => False
  | _ => True
  end.



End Float32.

(** float32 tensors and the kernels [regularization_loss] runs on them.
    A sum of products is accumulated from [+0.0], one term after the
    other in index order; the framework's kernels may add the same terms
    in another order. *)
Module Tensor32.

Record tensor : Type := {
  shape : list nat;
  data : list nat -> Float32.float
}.

(** [t[:, :, 0, 0]] *)
Definition index00 (t : tensor) : result tensor :=
  match shape t with
  | [a; b; c; d] =>
      if (0 <? c)%nat && (0 <? d)%nat
      then Ok {| shape := [a; b];
                 data := fun idx => data t (idx ++ [O; O]) |}
      else Raise (IndexError "index 0 is out of bounds")
  | _ => Raise (IndexError "too many indices for tensor")
  end.

(** [torch.transpose(t, d0, d1)] *)
Definition transpose (t : tensor) (d0 d1 : nat) : result tensor :=
  if (d0 <? List.length (shape t))%nat && (d1 <? List.length (shape t))%nat
  then Ok {| shape := Torch.swap d0 d1 (shape t);
             data := fun idx => data t (Torch.swap d0 d1 idx) |}
  else Raise (IndexError "Dimension out of range").

(** The float32 sum of the terms, from [+0.0]. *)
Definition sum (terms : list Float32.float) : Float32.float :=
  fold_left Float32.add terms Float32.zero.

(** [torch.mm(a, b)] *)
Definition mm (a b : tensor) : result tensor :=
  match shape a, shape b with
  | [n; m], [m'; p] =>
      if (m =? m')%nat then
        Ok {| shape := [n; p];
              data := fun idx =>
                match idx with
                | [i; j] =>
                    sum (map (fun k => Float32.mul (data a [i; k])
                                                   (data b [k; j]))
                             (seq 0 m))
                | _ => Float32.zero
                end |}
      else Raise (RuntimeError "mat1 and mat2 shapes cannot be multiplied")
  | _, _ => Raise (RuntimeError "self must be a matrix")
  end.

(** [torch.eye(n)] *)
Definition eye (n : nat) : tensor :=
  {| shape := [n; n];
     data := fun idx =>
       match idx with
       | [i; j] => if (i =? j)%nat then Float32.one else Float32.zero
       | _ => Float32.zero
       end |}.

(** [a - b], with broadcasting *)
Definition sub (a b : tensor) : result tensor :=
  let* s := Torch.broadcast_shapes (shape a) (shape b) in
  Ok {| shape := s;
        data := fun idx =>
          Float32.sub (data a (Torch.expand_index (shape a) idx))
                      (data b (Torch.expand_index (shape b) idx)) |}.

(** The squares [torch.norm] adds up, in index order. *)
Definition squares (t : tensor) : list Float32.float :=
  map (fun idx => Float32.mul (data t idx) (data t idx))
      (Torch.indices (shape t)).

(** [torch.norm(t, p="fro")] *)
Definition norm_fro (t : tensor) : Float32.float :=
  Float32.sqrt (sum (squares t)).

End Tensor32.

(** ** [src/mon/coreml/layer/custom/blueprint.py] *)

Module Blueprint.

Import Torch.

(** A layer, as the function its [forward] computes. *)
Definition module : Type := tensor -> result tensor.

(** [_size_2_t] and the [padding] argument *)
Inductive size_2_t : Type :=
| Size1 (n : Z)
| Size2 (h w : Z).

Inductive padding_t : Type :=
| PadSize (s : size_2_t)
| PadStr (s : string).

Definition height (s : size_2_t) : Z :=
  match s with Size1 n => n | Size2 h _ => h end.
Definition width (s : size_2_t) : Z :=
  match s with Size1 n => n | Size2 _ w => w end.

(** [base.Conv2d]: the hyperparameters it is built with and its weight,
    a float32 tensor (the constructors below pass [device] and [dtype]
    on; the model leaves them at their defaults). *)
Record Conv2d : Type := {
  in_channels : Z;
  out_channels : Z;
  kernel_size : size_2_t;
  stride : size_2_t;
  padding : padding_t;
  dilation : size_2_t;
  groups : Z;
  bias : bool;
  padding_mode : string;
  weight : Tensor32.tensor
}.

(** An activation argument: called with [num_features], it gives the
    activation layer, or raises. *)
Definition act_factory : Type := Z -> result module.

(** What the file takes from [mon.coreml.layer.base] and the tensor
    framework, none of it part of the listing: the argument checks and the
    weight initialisation of [base.Conv2d], which raise on arguments they
    refuse (a channel count that [groups] does not divide, [groups = 0],
    a negative size); the convolution itself; [SimAM()]; and
    [to_act_layer]. *)
Record framework : Type := {
  new_weight : Z -> Z -> size_2_t -> size_2_t -> padding_t -> size_2_t ->
               Z -> bool -> string -> result Tensor32.tensor;
  conv2d_forward : Conv2d -> module;
  SimAM : module;
  to_act_layer : option act_factory -> Z -> result (option module)
}.

(** [base.Conv2d(...)]: when the framework accepts the arguments, the
    layer keeps them as its attributes. *)
Definition Conv2d_init (fw : framework) (in_channels out_channels : Z)
  (kernel_size stride : size_2_t) (padding : padding_t) (dilation : size_2_t)
  (groups : Z) (bias : bool) (padding_mode : string) : result Conv2d :=
  let* w := new_weight fw in_channels out_channels kernel_size stride
              padding dilation groups bias padding_mode in
  Ok {| in_channels := in_channels;
        out_channels := out_channels;
        kernel_size := kernel_size;
        stride := stride;
        padding := padding;
        dilation := dilation;
        groups := groups;
        bias := bias;
        padding_mode := padding_mode;
        weight := w |}.

(** [act(num_features=n) if act is not None else None] *)
Definition call_opt (act : option act_factory) (n : Z)
  : result (option module) :=
  match act with
  | Some f => let* m := f n in Ok (Some m)
  | None => Ok None
  end.

(** [math.ceil(p * in_channels)] *)
Definition ceil_mul (p : Float64.float) (in_channels : Z) : result Z :=
  let* x := Float64.mul_int p in_channels in
  Float64.ceil x.

(** As the spec words it: [min(C, max(min_mid_channels, ceil(p * C)))],
    [k] standing for [ceil(p * C)]. *)
Definition mid_channels_formula (C min_mid_channels k : Z) : Z :=
  Z.min C (Z.max min_mid_channels k).

(** The arguments the subspace constructors share. *)
Record conv_args : Type := {
  arg_in_channels : Z;
  arg_out_channels : Z;
  arg_kernel_size : size_2_t;
  arg_stride : size_2_t;
  arg_padding : padding_t;
  arg_dilation : size_2_t;
  arg_groups : Z;
  arg_bias : bool;
  arg_padding_mode : string;
  arg_p : Float64.float;
  arg_min_mid_channels : Z
}.

(** The pointwise and depthwise convolutions both constructors build. *)
Definition pointwise_conv (fw : framework) (cin cout : Z) : result Conv2d :=
  Conv2d_init fw cin cout (Size1 1) (Size1 1) (PadSize (Size1 0)) (Size1 1)
              1 false "zeros".

Definition depthwise_conv (fw : framework) (a : conv_args) : result Conv2d :=
  Conv2d_init fw (arg_out_channels a) (arg_out_channels a)
              (arg_kernel_size a) (arg_stride a) (arg_padding a)
              (arg_dilation a) (arg_out_channels a) (arg_bias a)
              (arg_padding_mode a).

(** [wwt - i] of [regularization_loss]: the float32 matrix
    [W * W^T - I], for [W = weight[:, :, 0, 0]]. *)
Definition gram_defect (pw_conv1 : Conv2d) : result Tensor32.tensor :=
  let* w := Tensor32.index00 (weight pw_conv1) in
  let* wt := Tensor32.transpose w 0 1 in
  let* wwt := Tensor32.mm w wt in
  let i := Tensor32.eye (nth 0 (Tensor32.shape wwt) O) in
  Tensor32.sub wwt i.

(** [regularization_loss], the same text in both classes. *)
Definition orthogonality_loss (pw_conv1 : Conv2d) : result Float32.float :=
  let* d := gram_defect pw_conv1 in
  Ok (Tensor32.norm_fro d).



(** An optional layer: [if self.act is not None: y = self.act(y)] *)
Definition apply_opt (m : option module) (y : tensor) : result tensor :=
  match m with
  | Some f => f y
  | None => Ok y
  end.

(** As the spec words it: [dw_conv(pw_conv2(pw_conv1(x)))], with no
    attention step and no activation. *)
Definition conv_chain (fw : framework) (pw_conv1 pw_conv2 dw_conv : Conv2d)
  (x : tensor) : result tensor :=
  let* a := conv2d_forward fw pw_conv1 x in
  let* b := conv2d_forward fw pw_conv2 a in
  conv2d_forward fw dw_conv b.

Module SubspaceBlueprintSeparableConv2d.

Record t : Type := {
  pw_conv1 : Conv2d;
  act1 : option module;
  pw_conv2 : Conv2d;
  act2 : option module;
  dw_conv : Conv2d
}.

Definition init (fw : framework) (a : conv_args) (act : option act_factory)
  : result t :=
  let* k := ceil_mul (arg_p a) (arg_in_channels a) in
  let mid_channels :=
    Z.min (arg_in_channels a) (Z.max (arg_min_mid_channels a) k) in
  let* c1 := pointwise_conv fw (arg_in_channels a) mid_channels in
  let* a1 := to_act_layer fw act mid_channels in
  let* c2 := pointwise_conv fw mid_channels (arg_out_channels a) in
  let* a2 := to_act_layer fw act (arg_out_channels a) in
  let* dw := depthwise_conv fw a in
  Ok {| pw_conv1 := c1; act1 := a1; pw_conv2 := c2; act2 := a2;
        dw_conv := dw |}.

Definition forward (fw : framework) (self : t) (input : tensor)
  : result tensor :=
  let x := input in
  let* y := conv2d_forward fw (pw_conv1 self) x in
  let* y := apply_opt (act1 self) y in
  let* y := conv2d_forward fw (pw_conv2 self) y in
  let* y := apply_opt (act2 self) y in
  let* y := conv2d_forward fw (dw_conv self) y in
  Ok y.

Definition regularization_loss (self : t) : result Float32.float :=
  orthogonality_loss (pw_conv1 self).

End SubspaceBlueprintSeparableConv2d.

Module AttentionSubspaceBlueprintSeparableConv2d.

Record t : Type := {
  pw_conv1 : Conv2d;
  act1 : option module;
  pw_conv2 : Conv2d;
  act2 : option module;
  dw_conv : Conv2d;
  simam : module
}.

Definition init (fw : framework) (a : conv_args)
  (act1 act2 : option act_factory) : result t :=
  let* _ := assert (Float64.leb Float64.zero (arg_p a)
                    && Float64.leb (arg_p a) Float64.one) "" in
  let* k := ceil_mul (arg_p a) (arg_in_channels a) in
  let mid_channels :=
    Z.min (arg_in_channels a) (Z.max (arg_min_mid_channels a) k) in
  let* c1 := pointwise_conv fw (arg_in_channels a) mid_channels in
  let* a1 := call_opt act1 mid_channels in
  let* c2 := pointwise_conv fw mid_channels (arg_out_channels a) in
  let* a2 := call_opt act2 (arg_out_channels a) in
  let* dw := depthwise_conv fw a in
  Ok {| pw_conv1 := c1; act1 := a1; pw_conv2 := c2; act2 := a2;
        dw_conv := dw; simam := SimAM fw |}.

Definition forward (fw : framework) (self : t) (input : tensor)
  : result tensor :=
  let x := input in
  let* y := conv2d_forward fw (pw_conv1 self) x in
  let* y := simam self y in
  let* y := apply_opt (act1 self) y in
  let* y := conv2d_forward fw (pw_conv2 self) y in
  let* y := apply_opt (act2 self) y in
  let* y := conv2d_forward fw (dw_conv self) y in
  Ok y.

Definition regularization_loss (self : t) : result Float32.float :=
  orthogonality_loss (pw_conv1 self).

End AttentionSubspaceBlueprintSeparableConv2d.

(** [AttentionSubspaceBlueprintSeparableConv2d1] inherits the constructor
    and overrides [forward]. *)
Module AttentionSubspaceBlueprintSeparableConv2d1.

Import AttentionSubspaceBlueprintSeparableConv2d.

Definition forward (fw : framework) (self : t) (input : tensor)
  : result tensor :=
  let x := input in
  let* x := conv2d_forward fw (pw_conv1 self) x in
  let* x := conv2d_forward fw (pw_conv2 self) x in
  let* x := conv2d_forward fw (dw_conv self) x in
  Ok x.

End AttentionSubspaceBlueprintSeparableConv2d1.

(** The numbered variants inherit the constructor of
    [AttentionSubspaceBlueprintSeparableConv2d] and override [forward]:
    lines 402-615. *)
Module Variants.

Import AttentionSubspaceBlueprintSeparableConv2d.



Definition forward4 (fw : framework) (self : t) (input : tensor)
  : result tensor :=
  let x := input in
  let* y := conv2d_forward fw (pw_conv1 self) x in
  let* y := apply_opt (act1 self) y in
  let* y := conv2d_forward fw (pw_conv2 self) y in
  let* y := apply_opt (act2 self) y in
  let* y := conv2d_forward fw (dw_conv self) y in
  Ok y.









Definition forward13 (fw : framework) (self : t) (input : tensor)
  : result tensor :=
  let x := input in
  let* y := conv2d_forward fw (pw_conv1 self) x in
  let* y := simam self y in
  let* y := apply_opt (act1 self) y in
  let* y := conv2d_forward fw (pw_conv2 self) y in
  let* y := apply_opt (act2 self) y in
  let* y := conv2d_forward fw (dw_conv self) y in
  Ok y.

End Variants.

(** [UnconstrainedBlueprintSeparableConv2d], lines 140-201, and
    [AttentionUnconstrainedBlueprintSeparableConv2d], lines 313-381: one
    pointwise projection, no subspace. *)
Module UnconstrainedBlueprintSeparableConv2d.

Record t : Type := {
  pw_conv : Conv2d;
  act : option module;
  dw_conv : Conv2d
}.

Definition init (fw : framework) (a : conv_args) (act : option act_factory)
  : result t :=
  let* pw := pointwise_conv fw (arg_in_channels a) (arg_out_channels a) in
  let* a1 := to_act_layer fw act (arg_out_channels a) in
  let* dw := depthwise_conv fw a in
  Ok {| pw_conv := pw; act := a1; dw_conv := dw |}.

Definition forward (fw : framework) (self : t) (input : tensor)
  : result tensor :=
  let x := input in
  let* y := conv2d_forward fw (pw_conv self) x in
  let* y := apply_opt (act self) y in
  let* y := conv2d_forward fw (dw_conv self) y in
  Ok y.

End UnconstrainedBlueprintSeparableConv2d.

Module AttentionUnconstrainedBlueprintSeparableConv2d.

Record t : Type := {
  pw_conv : Conv2d;
  act : option module;
  dw_conv : Conv2d;
  simam : module
}.

(** [p] and [min_mid_channels] are accepted and not used. *)
Definition init (fw : framework) (a : conv_args) (act : option act_factory)
  : result t :=
  let* pw := pointwise_conv fw (arg_in_channels a) (arg_out_channels a) in
  let* a1 := call_opt act (arg_out_channels a) in
  let* dw := depthwise_conv fw a in
  Ok {| pw_conv := pw; act := a1; dw_conv := dw; simam := SimAM fw |}.

Definition forward (fw : framework) (self : t) (input : tensor)
  : result tensor :=
  let x := input in
  let* y := conv2d_forward fw (pw_conv self) x in
  let* y := simam self y in
  let* y := apply_opt (act self) y in
  let* y := conv2d_forward fw (dw_conv self) y in
  Ok y.

End AttentionUnconstrainedBlueprintSeparableConv2d.

End Blueprint.

(** ** The layer registry *)

Module Registry.

(** Modelled from the spec: the registry object [LAYERS] of [mon.globals]
    and its [register] method, whose code is not part of the listing (only
    the calls in [blueprint.py] are). The spec's words: a name-to-constructor
    mapping; "accepts a string key and keyword arguments, returns a
    constructed layer instance; duplicate registration is an error". *)
Definition register {ctor : Type} (name : string) (c : ctor)
  (reg : gmap string ctor) : result (gmap string ctor) :=
  match reg !! name with
  | Some _ => Raise (KeyError name)
  | None => Ok (<[name := c]> reg)
  end.

(** Modelled from the spec: building a layer from its key and keyword
    arguments. *)
Definition build {kwargs layer : Type} (name : string) (args : kwargs)
  (reg : gmap string (kwargs -> result layer)) : result layer :=
  match reg !! name with
  | Some c => c args
  | None => Raise (KeyError name)
  end.

(** The classes [blueprint.py] defines. *)
Inductive blueprint_class : Type :=
| SubspaceBlueprintSeparableConv2d
| UnconstrainedBlueprintSeparableConv2d
| AttentionSubspaceBlueprintSeparableConv2d
| AttentionUnconstrainedBlueprintSeparableConv2d
| AttentionSubspaceBlueprintSeparableConv2dN (n : nat).

(** [cls.__name__] *)
Definition class_name (c : blueprint_class) : string :=
  match c with
  | SubspaceBlueprintSeparableConv2d => "SubspaceBlueprintSeparableConv2d"
  | UnconstrainedBlueprintSeparableConv2d =>
      "UnconstrainedBlueprintSeparableConv2d"
  | AttentionSubspaceBlueprintSeparableConv2d =>
      "AttentionSubspaceBlueprintSeparableConv2d"
  | AttentionUnconstrainedBlueprintSeparableConv2d =>
      "AttentionUnconstrainedBlueprintSeparableConv2d"
  | AttentionSubspaceBlueprintSeparableConv2dN n =>
      "AttentionSubspaceBlueprintSeparableConv2d" ++ str_of_nat n
  end.

(** The aliases of lines 204-205 and 618-632 name the same class objects. *)
Definition BSConv2dS : blueprint_class := SubspaceBlueprintSeparableConv2d.
Definition BSConv2dU : blueprint_class := UnconstrainedBlueprintSeparableConv2d.
Definition ABSConv2dS : blueprint_class :=
  AttentionSubspaceBlueprintSeparableConv2d.
Definition ABSConv2dU : blueprint_class :=
  AttentionUnconstrainedBlueprintSeparableConv2d.
Definition ABSConv2dSN (n : nat) : blueprint_class :=
  AttentionSubspaceBlueprintSeparableConv2dN n.

(** The calls to [LAYERS.register] the module makes when it is imported,
    in order: the decorators of lines 44-213, the calls of lines 206-207,
    the decorators of lines 214-600, the calls of lines 634-648. No call
    gives a name. *)
Definition import_registrations : list blueprint_class :=
  [SubspaceBlueprintSeparableConv2d; UnconstrainedBlueprintSeparableConv2d;
   BSConv2dS; BSConv2dU;
   AttentionSubspaceBlueprintSeparableConv2d;
   AttentionUnconstrainedBlueprintSeparableConv2d]
  ++ map AttentionSubspaceBlueprintSeparableConv2dN (seq 1 13)
  ++ [ABSConv2dS; ABSConv2dU]
  ++ map ABSConv2dSN (seq 1 13).

(** Registering a list of classes, each under the key the registry derives
    from the class ([key_of], which the spec leaves open). *)
Definition register_all (key_of : blueprint_class -> string)
  (cs : list blueprint_class) (reg : gmap string blueprint_class)
  : result (gmap string blueprint_class) :=
  fold_left (fun acc c => let* r := acc in register (key_of c) c r)
            cs (Ok reg).

End Registry.

(** ** [ContextBlock.__init__], whole (lines 52-109) *)

Module ContextBlockInit.

Import Torch Plugin.

(** What the constructor takes from [torch.nn]: the submodules it builds
    (their constructors may raise), the names of the attributes that
    [nn.Module] itself provides to every instance, and what calling such
    an inherited method does. *)
Record torch_nn : Type := {
  new_Conv2d : Z -> Z -> result (tensor -> result tensor);
  new_Softmax : tensor -> result tensor;
  new_AdaptiveAvgPool2d : tensor -> result tensor;
  new_fusion_conv : Z -> Z -> result (tensor -> result tensor);
  Module_attributes : list string;
  Module_call : string -> result unit
}.

(** An attribute value: a submodule or [None]. *)
Inductive attribute : Type :=
| Submodule (f : tensor -> result tensor)
| NoneValue.

(** What the class body of [ContextBlock] defines. *)
Definition class_attributes : list string :=
  ["_abbr_"; "__init__"; "forward"; "spatial_pool"].

(** [self.name]: the instance's attributes, then the class's, then those
    of [nn.Module]. *)
Definition has_attribute (nn : torch_nn)
  (instance : list (string * attribute)) (name : string) : bool :=
  str_in name (map fst instance)
  || str_in name class_attributes
  || str_in name (Module_attributes nn).

(** [nn.Sequential(Conv2d, LayerNorm, ReLU, Conv2d)] when the fusion type
    is requested, [None] otherwise. *)
Definition fusion_conv (nn : torch_nn) (name : string)
  (fusion_types : str_seq) (in_channels planes : Z) : result attribute :=
  if str_in name (elements fusion_types) then
    let* m := new_fusion_conv nn in_channels planes in Ok (Submodule m)
  else Ok NoneValue.

Definition init (nn : torch_nn) (in_channels : Z) (ratio : Float64.float)
  (pooling_type : string) (fusion_types : str_seq)
  : result (list (string * attribute)) :=
  let* _ := ContextBlock_init_checks pooling_type fusion_types in
  let* x := Float64.mul_int ratio in_channels in
  let* planes := Float64.trunc x in
  let* pool :=
    if String.eqb pooling_type "att" then
      let* conv_mask := new_Conv2d nn in_channels 1 in
      Ok [("conv_mask", Submodule conv_mask);
          ("softmax", Submodule (new_Softmax nn))]
    else Ok [("avg_pool", Submodule (new_AdaptiveAvgPool2d nn))] in
  let* add_conv := fusion_conv nn "channel_add" fusion_types in_channels planes in
  let* mul_conv := fusion_conv nn "channel_mul" fusion_types in_channels planes in
  let self := (pool ++ [("channel_add_conv", add_conv);
                        ("channel_mul_conv", mul_conv)])%list in
  if has_attribute nn self "reset_parameters"
  then let* _ := Module_call nn "reset_parameters" in Ok self
  else Raise (AttributeError
                "'ContextBlock' object has no attribute 'reset_parameters'").

End ContextBlockInit.

(** ** [torchkit/models/enhancers/e2e_enhancer.py] *)

Module End2EndEnhancer.
Import Torch.

Definition layer : Type := tensor -> result tensor.

(** An [nn.Module] used as backbone: its own [forward] and the modules
    [children()] yields, in order. *)
Record backbone_t : Type := {
  call : layer;
  children : list layer
}.

(** [Indexes]: an [int], or a [tuple] or [list] of them. *)
Inductive Indexes : Type :=
| Int (i : Z)
| Seq (l : list Z).

(** What [forward_features] hands back: the tensor bound to [y_hat] or
    [x], or the list [y_hat] started as. *)
Inductive Tensors : Type :=
| One (t : tensor)
| Many (ts : list tensor).

Record model : Type := {
  backbone : option backbone_t;
  neck : option layer;
  head : option layer;
  out_indexes : option Indexes
}.

Definition with_backbone (self : model) : bool :=
  match backbone self with Some _ => true | None => false end.

Definition with_neck (self : model) : bool :=
  match neck self with Some _ => true | None => false end.

Definition with_head (self : model) : bool :=
  match head self with Some _ => true | None => false end.

(** [idx in out_indexes] *)
Definition contains (idx : Z) (l : list Z) : bool := existsb (Z.eqb idx) l.

(** [out_indexes = self.out_indexes if out_indexes is None else out_indexes] *)
Definition effective_indexes (self : model) (out : option Indexes)
  : option Indexes :=
  match out with
  | None => out_indexes self
  | Some _ => out
  end.

(** The loop over [enumerate(self.backbone.children())], from child [idx]
    on, with the current [x] and [y_hat]. *)
Fixpoint features_loop (out : option Indexes) (ms : list layer) (idx : Z)
  (x : tensor) (y_hat : Tensors) : result Tensors :=
  match ms with
  | [] => Ok y_hat
  | m :: ms' =>
      let* x1 := m x in
      match out with
      | Some (Seq l) =>
          if contains idx l then
            match y_hat with
            | Many ys => features_loop out ms' (idx + 1) x1 (Many (ys ++ [x1]))
            | One _ =>
                Raise (AttributeError "'Tensor' object has no attribute 'append'")
            end
          else features_loop out ms' (idx + 1) x1 (One x1)
      | Some (Int k) =>
          if idx =? k then Ok (One x1)
          else features_loop out ms' (idx + 1) x1 (One x1)
      | None => features_loop out ms' (idx + 1) x1 (One x1)
      end
  end.

Definition forward_features (self : model) (x : tensor)
  (out : option Indexes) : result Tensors :=
  let out := effective_indexes self out in
  match backbone self with
  | None => Raise (AssertionError "`backbone` has not been defined.")
  | Some b => features_loop out (children b) 0 x (Many [])
  end.

(** The layers applied one after the other. *)
Fixpoint chain (ms : list layer) (x : tensor) : result tensor :=
  match ms with
  | [] => Ok x
  | m :: ms' => let* x1 := m x in chain ms' x1
  end.

(** The output of every layer of the chain, in order. *)
Fixpoint outputs (ms : list layer) (x : tensor) : result (list tensor) :=
  match ms with
  | [] => Ok []
  | m :: ms' =>
      let* x1 := m x in
      let* r := outputs ms' x1 in
      Ok (x1 :: r)
  end.

(** Child [i] is neither collected nor returned early. *)
Definition passes (out : option Indexes) (i : Z) : bool :=
  match out with
  | Some (Seq l) => negb (contains i l)
  | Some (Int k) => negb (i =? k)
  | None => true
  end.

End End2EndEnhancer.

(** ** [torchkit/core/metric/mse.py] *)

Module Metric.
Import Torch.

(** A 0-dim float64 result: a number, or the NaN the mean of no entry is. *)
Inductive score : Type :=
| Value (r : R)
| NaN.

(** [torch.mean(t)] *)
Definition mean (t : tensor) : score :=
  match map (data t) (indices (shape t)) with
  | [] => NaN
  | vs => Value (sum_list vs / INR (List.length vs))%R
  end.

(** [t ** 2.0] *)
Definition square : tensor -> tensor := map_entries Rsqr.

Definition mse (y_hat y : tensor) : result score :=
  let* d := sub y_hat y in
  Ok (mean (square d)).

(** The numpy overload: the same formula; shapes that do not broadcast
    are a [ValueError] there. *)
Definition mse_ndarray (y_hat y : tensor) : result score :=
  match broadcast_shapes (shape y_hat) (shape y) with
  | Ok _ => mse y_hat y
  | Raise _ => Raise (ValueError "operands could not be broadcast together")
  end.

(** What [mse] is called on: a numpy array or a torch tensor. *)
Inductive array : Type :=
| NdArray (t : tensor)
| Tensor (t : tensor).

Definition type_name (a : array) : string :=
  match a with NdArray _ => "ndarray" | Tensor _ => "Tensor" end.

(** [mse], the name both definitions are bound to: the dispatcher of the
    multipledispatch package (not part of the listing). It looks the
    implementation up by the types of the positional arguments alone and
    then calls it with all the arguments. *)
Definition Dispatcher_call (positional : list array)
  (keywords : list (string * array)) : result score :=
  let not_found :=
    Raise (NotImplementedError
             ("Could not find signature for mse: <"
              ++ String.concat ", " (map type_name positional) ++ ">")) in
  let too_many :=
    Raise (TypeError "mse() got an unexpected or repeated keyword argument")
  in
  match positional with
  | [NdArray a; NdArray b] =>
      match keywords with [] => mse_ndarray a b | _ => too_many end
  | [Tensor a; Tensor b] =>
      match keywords with [] => mse a b | _ => too_many end
  | _ => not_found
  end.

Record MSE : Type := { name : string }.

Definition MSE_init : MSE := {| name := "mse" |}.

(** [return mse(y_hat=y_hat, y=y)] *)
Definition MSE_forward (self : MSE) (y_hat y : array) : result score :=
  Dispatcher_call [] [("y_hat", y_hat); ("y", y)].

End Metric.

(** ** Concrete inputs used by the examples below *)

Module Fixtures.

Import CityscapesLoL.

Definition empty_world : world :=
  {| glob := fun _ => []; isfile := fun _ => false |}.

(** Two low-light images; only the second has a custom label file. *)
Definition two_images_world : world :=
  {| glob := fun _ => ["/d/lol/train/low/a.png"; "/d/lol/train/low/b.png"];
     isfile := fun p => String.eqb p "/d/lol/train/customs/b.json" |}.

Definition fresh (root split : string) (fast : bool) (batch : Z) : dataset :=
  {| root := root; split := split; fast_dev_run := fast; batch_size := batch;
     image_paths := []; eimage_paths := []; label_paths := [];
     has_custom_labels := false |}.

Definition zeros : rng := fun _ => 0.
Definition counting : rng := fun n => Z.of_nat n.

(** A framework whose convolution doubles every entry, whose attention
    step negates them and whose activations are built as given. *)
Definition zero_weight (cout cin : Z) : Tensor32.tensor :=
  {| Tensor32.shape := [Z.to_nat cout; Z.to_nat cin; 1; 1]%nat;
     Tensor32.data := fun _ => Float32.zero |}.

Definition toy_framework : Blueprint.framework :=
  {| Blueprint.new_weight := fun cin cout _ _ _ _ _ _ _ =>
       Ok (zero_weight cout cin);
     Blueprint.conv2d_forward := fun _ t => Ok (Torch.scale t 2);
     Blueprint.SimAM := fun t => Ok (Torch.scale t (-1));
     Blueprint.to_act_layer := Blueprint.call_opt |}.

(** A pointwise convolution with a zero weight, as [toy_framework]
    builds it. *)
Definition conv (cin cout : Z) : Blueprint.Conv2d :=
  {| Blueprint.in_channels := cin;
     Blueprint.out_channels := cout;
     Blueprint.kernel_size := Blueprint.Size1 1;
     Blueprint.stride := Blueprint.Size1 1;
     Blueprint.padding := Blueprint.PadSize (Blueprint.Size1 0);
     Blueprint.dilation := Blueprint.Size1 1;
     Blueprint.groups := 1;
     Blueprint.bias := false;
     Blueprint.padding_mode := "zeros";
     Blueprint.weight := zero_weight cout cin |}.

(** [p = 0.25], the default. *)
Definition quarter : Float64.float := S754_finite false 4503599627370496 (-54).

Definition toy_args : Blueprint.conv_args :=
  {| Blueprint.arg_in_channels := 32;
     Blueprint.arg_out_channels := 16;
     Blueprint.arg_kernel_size := Blueprint.Size1 3;
     Blueprint.arg_stride := Blueprint.Size1 1;
     Blueprint.arg_padding := Blueprint.PadSize (Blueprint.Size1 0);
     Blueprint.arg_dilation := Blueprint.Size1 1;
     Blueprint.arg_groups := 1;
     Blueprint.arg_bias := true;
     Blueprint.arg_padding_mode := "zeros";
     Blueprint.arg_p := quarter;
     Blueprint.arg_min_mid_channels := 4 |}.

Definition toy_attention_layer
  : Blueprint.AttentionSubspaceBlueprintSeparableConv2d.t :=
  {| Blueprint.AttentionSubspaceBlueprintSeparableConv2d.pw_conv1 :=
       conv 32 8;
     Blueprint.AttentionSubspaceBlueprintSeparableConv2d.act1 :=
       Some (fun t => Ok (Torch.scale t 3));
     Blueprint.AttentionSubspaceBlueprintSeparableConv2d.pw_conv2 :=
       conv 8 16;
     Blueprint.AttentionSubspaceBlueprintSeparableConv2d.act2 := None;
     Blueprint.AttentionSubspaceBlueprintSeparableConv2d.dw_conv :=
       conv 16 16;
     Blueprint.AttentionSubspaceBlueprintSeparableConv2d.simam :=
       Blueprint.SimAM toy_framework |}.

Definition toy_plain_layer : Blueprint.SubspaceBlueprintSeparableConv2d.t :=
  {| Blueprint.SubspaceBlueprintSeparableConv2d.pw_conv1 :=
       conv 32 8;
     Blueprint.SubspaceBlueprintSeparableConv2d.act1 := None;
     Blueprint.SubspaceBlueprintSeparableConv2d.pw_conv2 :=
       conv 8 16;
     Blueprint.SubspaceBlueprintSeparableConv2d.act2 := None;
     Blueprint.SubspaceBlueprintSeparableConv2d.dw_conv :=
       conv 16 16 |}.



(** A batch of two 4x4 feature maps with [c] channels. *)
Definition feature_map (c : nat) : Torch.tensor :=
  {| Torch.shape := [2; c; 4; 4]%nat; Torch.data := fun _ => 0%R |}.


(** A layer on RGB images, with the default [p] and [min_mid_channels]. *)
Definition rgb_args : Blueprint.conv_args :=
  {| Blueprint.arg_in_channels := 3;
     Blueprint.arg_out_channels := 16;
     Blueprint.arg_kernel_size := Blueprint.Size1 3;
     Blueprint.arg_stride := Blueprint.Size1 1;
     Blueprint.arg_padding := Blueprint.PadSize (Blueprint.Size1 0);
     Blueprint.arg_dilation := Blueprint.Size1 1;
     Blueprint.arg_groups := 1;
     Blueprint.arg_bias := true;
     Blueprint.arg_padding_mode := "zeros";
     Blueprint.arg_p := quarter;
     Blueprint.arg_min_mid_channels := 4 |}.


Definition bare_toy_layer
  : Blueprint.AttentionSubspaceBlueprintSeparableConv2d.t :=
  {| Blueprint.AttentionSubspaceBlueprintSeparableConv2d.pw_conv1 :=
       conv 32 8;
     Blueprint.AttentionSubspaceBlueprintSeparableConv2d.act1 := None;
     Blueprint.AttentionSubspaceBlueprintSeparableConv2d.pw_conv2 :=
       conv 8 16;
     Blueprint.AttentionSubspaceBlueprintSeparableConv2d.act2 := None;
     Blueprint.AttentionSubspaceBlueprintSeparableConv2d.dw_conv :=
       conv 16 16;
     Blueprint.AttentionSubspaceBlueprintSeparableConv2d.simam :=
       Blueprint.SimAM toy_framework |}.


(** A [torch.nn] whose constructors succeed and whose [Module] has its
    usual public methods. *)
Definition plain_nn : ContextBlockInit.torch_nn :=
  {| ContextBlockInit.new_Conv2d := fun _ _ => Ok (fun t => Ok t);
     ContextBlockInit.new_Softmax := fun t => Ok t;
     ContextBlockInit.new_AdaptiveAvgPool2d := fun t => Ok t;
     ContextBlockInit.new_fusion_conv := fun _ _ => Ok (fun t => Ok t);
     ContextBlockInit.Module_attributes :=
       ["forward"; "parameters"; "children"; "register_buffer"; "train";
        "eval"; "to"; "state_dict"; "apply"; "training"];
     ContextBlockInit.Module_call := fun _ => Ok tt |}.


(** A backbone of three children: doubling, a layer that fails, doubling. *)
Definition doubling : End2EndEnhancer.layer :=
  fun t => Ok (Torch.scale t 2).

Definition failing : End2EndEnhancer.layer :=
  fun _ => Raise (RuntimeError "size mismatch").

Definition enhancer (ms : list End2EndEnhancer.layer)
  (out : option End2EndEnhancer.Indexes) : End2EndEnhancer.model :=
  {| End2EndEnhancer.backbone :=
       Some {| End2EndEnhancer.call := End2EndEnhancer.chain ms;
               End2EndEnhancer.children := ms |};
     End2EndEnhancer.neck := None;
     End2EndEnhancer.head := None;
     End2EndEnhancer.out_indexes := out |}.

Definition ones (s : list nat) : Torch.tensor :=
  {| Torch.shape := s; Torch.data := fun _ => 1%R |}.


(** The doubles of the literals [0.1] and [0.55]. *)
Definition tenth : Float64.float := S754_finite false 7205759403792794 (-56).
Definition p55 : Float64.float := S754_finite false 4953959590107546 (-53).

(** Ten input channels at ratio [0.1], and a hundred at ratio [0.55]. *)
Definition tenth_args : Blueprint.conv_args :=
  {| Blueprint.arg_in_channels := 10;
     Blueprint.arg_out_channels := 16;
     Blueprint.arg_kernel_size := Blueprint.Size1 3;
     Blueprint.arg_stride := Blueprint.Size1 1;
     Blueprint.arg_padding := Blueprint.PadSize (Blueprint.Size1 0);
     Blueprint.arg_dilation := Blueprint.Size1 1;
     Blueprint.arg_groups := 1;
     Blueprint.arg_bias := true;
     Blueprint.arg_padding_mode := "zeros";
     Blueprint.arg_p := tenth;
     Blueprint.arg_min_mid_channels := 1 |}.

Definition p55_args : Blueprint.conv_args :=
  {| Blueprint.arg_in_channels := 100;
     Blueprint.arg_out_channels := 16;
     Blueprint.arg_kernel_size := Blueprint.Size1 3;
     Blueprint.arg_stride := Blueprint.Size1 1;
     Blueprint.arg_padding := Blueprint.PadSize (Blueprint.Size1 0);
     Blueprint.arg_dilation := Blueprint.Size1 1;
     Blueprint.arg_groups := 1;
     Blueprint.arg_bias := true;
     Blueprint.arg_padding_mode := "zeros";
     Blueprint.arg_p := p55;
     Blueprint.arg_min_mid_channels := 4 |}.





End Fixtures.

(** * Properties *)

(** ** The error monad *)

Lemma bind_ok {A B} (m : result A) (k : A -> result B) (b : B) :
  Py.bind m k = Ok b -> exists a, m = Ok a /\ k a = Ok b.
Proof.
  destruct m as [a|e]; simpl; intros H; [eauto | discriminate].
Qed.

Lemma getitem_in_range {A} (l : list A) (i : Z) :
  0 <= i < Z.of_nat (List.length l) ->
  exists a, getitem l i = Ok a /\ In a l.
Proof.
  intros Hi. unfold getitem.
  destruct (Z.ltb_spec i 0) as [Hneg|_]; [lia|].
  destruct (Z.leb_spec 0 i) as [_|Hneg]; [|lia].
  destruct (Z.ltb_spec i (Z.of_nat (List.length l))) as [_|Hge]; [|lia].
  simpl.
  destruct (nth_error l (Z.to_nat i)) as [a|] eqn:Hnth.
  - exists a. split; [reflexivity|]. eapply nth_error_In; eassumption.
  - apply nth_error_None in Hnth. lia.
Qed.

Lemma mapM_getitem {A} (l : list A) (js : list Z) :
  Forall (fun i => 0 <= i < Z.of_nat (List.length l)) js ->
  exists ps, mapM (getitem l) js = Ok ps
             /\ List.length ps = List.length js
             /\ Forall (fun p => In p l) ps.
Proof.
  induction 1 as [|i js Hi _ IH].
  - exists []. simpl. auto.
  - destruct (getitem_in_range l i Hi) as [a [Ha Hin]].
    destruct IH as [ps [Hps [Hlen Hall]]].
    exists (a :: ps). simpl. rewrite Ha. simpl. rewrite Hps. simpl.
    repeat split; auto.
Qed.

Lemma randint_in_range (a b : Z) (r : rng) :
  a <= b ->
  exists i, randint a b r = Ok (i, rng_tail r) /\ a <= i <= b.
Proof.
  intros Hab. unfold randint.
  destruct (Z.ltb_spec b a) as [Hlt|_]; [lia|].
  eexists. split; [reflexivity|].
  pose proof (Z.mod_pos_bound (r O) (b - a + 1)). lia.
Qed.

Lemma randint_empty_range (a b : Z) (r : rng) :
  b < a -> randint a b r = Raise (ValueError "empty range for randrange()").
Proof.
  intros Hlt. unfold randint.
  destruct (Z.ltb_spec b a); [reflexivity | lia].
Qed.

(** ** [CityscapesLoL] *)

Section ListFiles.

Import CityscapesLoL.

Variable w : world.

Lemma draw_indices_in_range (n : nat) (len : Z) (r : rng) :
  0 < len ->
  exists js r', draw_indices n len r = Ok (js, r')
                /\ List.length js = n
                /\ Forall (fun i => 0 <= i < len) js.
Proof.
  intros Hlen. revert r. induction n as [|n IH]; intros r.
  - exists [], r. simpl. auto.
  - destruct (randint_in_range 0 (len - 1) r) as [i [Hi Hr]]; [lia|].
    destruct (IH (rng_tail r)) as [js [r' [Hjs [Hl Hall]]]].
    exists (i :: js), r'. simpl. rewrite Hi. simpl. rewrite Hjs. simpl.
    repeat split; [congruence|]. constructor; [lia | assumption].
Qed.

Lemma draw_indices_empty (n : nat) (r : rng) :
  draw_indices (S n) 0 r = Raise (ValueError "empty range for randrange()").
Proof. reflexivity. Qed.

Lemma select_images_all (r : rng) (self : dataset) :
  fast_dev_run self = false ->
  select_images w r self = Ok (glob w (image_pattern self), r).
Proof. intros H. unfold select_images. rewrite H. reflexivity. Qed.

Lemma select_images_sample (r : rng) (self : dataset) :
  fast_dev_run self = true ->
  glob w (image_pattern self) <> [] ->
  exists ps r', select_images w r self = Ok (ps, r')
    /\ List.length ps = Z.to_nat (batch_size self)
    /\ Forall (fun p => In p (glob w (image_pattern self))) ps.
Proof.
  intros Hfast Hne. unfold select_images. rewrite Hfast.
  set (found := glob w (image_pattern self)) in *.
  assert (Hlen : 0 < Z.of_nat (List.length found)).
  { destruct found; [congruence | simpl; lia]. }
  destruct (draw_indices_in_range (Z.to_nat (batch_size self)) _ r Hlen)
    as [js [r' [Hjs [Hl Hall]]]].
  destruct (mapM_getitem found js Hall) as [ps [Hps [Hlps Hin]]].
  exists ps, r'. rewrite Hjs. simpl. rewrite Hps. simpl.
  repeat split; [congruence | assumption].
Qed.

Lemma select_images_subset (r r' : rng) (self : dataset) (ps : list string) :
  select_images w r self = Ok (ps, r') ->
  Forall (fun p => In p (glob w (image_pattern self))) ps.
Proof.
  intros Hsel. destruct (fast_dev_run self) eqn:Hfast.
  - destruct (glob w (image_pattern self)) as [|p0 found] eqn:Hglob.
    + unfold select_images in Hsel. rewrite Hfast, Hglob in Hsel.
      destruct (Z.to_nat (batch_size self)) as [|n].
      * simpl in Hsel. injection Hsel as <- _. constructor.
      * rewrite draw_indices_empty in Hsel. discriminate.
    + destruct (select_images_sample r self Hfast) as [ps' [r'' [H [_ Hin]]]].
      { rewrite Hglob. discriminate. }
      rewrite Hsel in H. injection H as <- _.
      rewrite <- Hglob. exact Hin.
  - rewrite select_images_all in Hsel by assumption.
    injection Hsel as <- _. apply Forall_forall. auto.
Qed.

(** The loop appends to the three lists in step. *)
Lemma list_all_paths (self : dataset) (ps : list string) :
  image_paths (list_all w self ps) = (image_paths self ++ ps)%list
  /\ eimage_paths (list_all w self ps)
     = (eimage_paths self ++ map eimage_path_of ps)%list
  /\ label_paths (list_all w self ps)
     = (label_paths self ++ map label_path_of ps)%list.
Proof.
  revert self. induction ps as [|p ps IH]; intros self; simpl.
  - rewrite !app_nil_r. auto.
  - unfold list_all in IH. destruct (IH (list_one w self p)) as [H1 [H2 H3]].
    unfold list_all. simpl. rewrite H1, H2, H3. simpl.
    rewrite <- !app_assoc. auto.
Qed.

(** The flag is written at every iteration: only the last one counts. *)
Lemma list_all_flag (self : dataset) (ps : list string) :
  has_custom_labels (list_all w self ps)
  = match ps with
    | [] => has_custom_labels self
    | _ => isfile w (label_path_of (List.last ps ""))
    end.
Proof.
  revert self. induction ps as [|p ps IH]; intros self; [reflexivity|].
  unfold list_all in *. simpl fold_left. rewrite IH.
  destruct ps; reflexivity.
Qed.

Lemma check_counts_spec (self : dataset) :
  let n := List.length (image_paths self) in
  let m := List.length (eimage_paths self) in
  (n = m -> check_counts self = Ok tt)
  /\ (n <> m -> check_counts self = Raise (AssertionError (count_message n m))).
Proof.
  simpl. unfold check_counts, assert.
  destruct (Nat.eqb_spec (List.length (image_paths self))
                         (List.length (eimage_paths self))); split; tauto.
Qed.

Lemma list_files_after_select (r r' : rng) (self : dataset) (ps : list string) :
  select_images w r self = Ok (ps, r') ->
  list_files w r self
  = (let* _ := check_counts (list_all w self ps) in Ok (list_all w self ps, r')).
Proof. intros H. unfold list_files. rewrite H. reflexivity. Qed.

End ListFiles.

Lemma replace_nonempty (s old new : string) :
  s <> "" -> new <> "" -> replace s old new <> "".
Proof.
  intros Hs Hnew. destruct s as [|c rest]; [congruence|].
  unfold replace. destruct old as [|o old'].
  - simpl. destruct new; [congruence | discriminate].
  - cbn [replace_from].
    destruct (String.prefix (String o old') (String c rest)).
    + destruct new; [congruence | discriminate].
    + discriminate.
Qed.

Lemma label_path_of_nonempty (p : string) :
  p <> "" -> CityscapesLoL.label_path_of p <> "".
Proof.
  intros Hp. unfold CityscapesLoL.label_path_of.
  apply replace_nonempty; [apply replace_nonempty|]; try assumption;
    discriminate.
Qed.

Lemma truthy_nonempty (s : string) : s <> "" -> truthy (Some s) = true.
Proof. destruct s; [congruence | reflexivity]. Qed.

(** C2 (as stated, refuted): with fast-dev-run on, a batch size of 4 and a
    split directory without images, [list_files] selects nothing: the
    index draw [random.randint(0, -1)] raises [ValueError]. *)
Lemma fast_dev_run_empty_listing_raises :
  let self := Fixtures.fresh "/d" "train" true 4 in
  CityscapesLoL.fast_dev_run self = true
  /\ CityscapesLoL.glob Fixtures.empty_world
       (CityscapesLoL.image_pattern self) = []
  /\ CityscapesLoL.list_files Fixtures.empty_world Fixtures.zeros self
     = Raise (ValueError "empty range for randrange()").
Proof. repeat split. Qed.

(** C2 (amended): with fast-dev-run on, at least one discovered image and
    a batch size that is not negative, the selection has exactly
    [batch_size] paths, each of them a discovered one (drawn with
    replacement); when the two path lists of [self] start with equal
    lengths, [list_files] returns and has appended exactly these paths to
    [self.image_paths]. *)
Theorem fast_dev_run_selects_batch_size
  (w : CityscapesLoL.world) (r : rng) (self : CityscapesLoL.dataset) :
  CityscapesLoL.fast_dev_run self = true ->
  CityscapesLoL.glob w (CityscapesLoL.image_pattern self) <> [] ->
  0 <= CityscapesLoL.batch_size self ->
  exists ps r',
    CityscapesLoL.select_images w r self = Ok (ps, r')
    /\ Z.of_nat (List.length ps) = CityscapesLoL.batch_size self
    /\ Forall (fun p => In p (CityscapesLoL.glob w
                                (CityscapesLoL.image_pattern self))) ps
    /\ (List.length (CityscapesLoL.image_paths self)
        = List.length (CityscapesLoL.eimage_paths self) ->
        exists self',
          CityscapesLoL.list_files w r self = Ok (self', r')
          /\ CityscapesLoL.image_paths self'
             = (CityscapesLoL.image_paths self ++ ps)%list).
Proof.
  intros Hfast Hne Hbatch.
  destruct (select_images_sample w r self Hfast Hne) as [ps [r' [Hsel [Hlen Hin]]]].
  exists ps, r'. repeat split; [assumption | lia | assumption |].
  intros Heq. exists (CityscapesLoL.list_all w self ps).
  destruct (list_all_paths w self ps) as [H1 [H2 _]].
  split; [|exact H1].
  rewrite (list_files_after_select w r r' self ps Hsel).
  destruct (check_counts_spec (CityscapesLoL.list_all w self ps)) as [Hok _].
  rewrite Hok; [reflexivity|].
  rewrite H1, H2, !length_app, length_map. lia.
Qed.

Lemma fast_dev_run_selects_batch_size_witness :
  exists ps r',
    CityscapesLoL.select_images Fixtures.two_images_world Fixtures.counting
      (Fixtures.fresh "/d" "train" true 4) = Ok (ps, r')
    /\ Z.of_nat (List.length ps) = 4.
Proof.
  destruct (fast_dev_run_selects_batch_size Fixtures.two_images_world
              Fixtures.counting (Fixtures.fresh "/d" "train" true 4))
    as [ps [r' [Hsel [Hlen _]]]].
  - reflexivity.
  - simpl. discriminate.
  - simpl. lia.
  - exists ps, r'. split; [exact Hsel | exact Hlen].
Defined.

Lemma list_files_returns
  (w : CityscapesLoL.world) (r r' : rng) (self : CityscapesLoL.dataset)
  (ps : list string) :
  CityscapesLoL.select_images w r self = Ok (ps, r') ->
  (List.length (CityscapesLoL.image_paths self)
   = List.length (CityscapesLoL.eimage_paths self) ->
   CityscapesLoL.list_files w r self
   = Ok (CityscapesLoL.list_all w self ps, r'))
  /\ (ps <> [] ->
      CityscapesLoL.has_custom_labels (CityscapesLoL.list_all w self ps)
      = CityscapesLoL.isfile w
          (CityscapesLoL.label_path_of (List.last ps ""))).
Proof.
  intros Hsel. split.
  - intros Hlen. rewrite (list_files_after_select w r r' self ps Hsel).
    destruct (check_counts_spec (CityscapesLoL.list_all w self ps)) as [Hok _].
    rewrite Hok; [reflexivity|].
    destruct (list_all_paths w self ps) as [H1 [H2 _]].
    rewrite H1, H2, !length_app, length_map. lia.
  - intros Hne. rewrite list_all_flag. destruct ps; [congruence | reflexivity].
Qed.




(** C10: when [list_files] has enumerated at least one image, the flag
    [has_custom_labels] it leaves is the existence of the custom label
    file of the last enumerated image alone; and for every enumerated
    sample, [load_labels] loads the sample's custom label file when that
    one flag is set and falls back to the image headers when it is not,
    whatever exists for the sample itself. *)
Theorem has_custom_labels_of_last_image
  (w : CityscapesLoL.world) (r r' : rng) (self : CityscapesLoL.dataset)
  (ps : list string) :
  CityscapesLoL.select_images w r self = Ok (ps, r') ->
  ps <> [] ->
  Forall (fun p => p <> "")
         (CityscapesLoL.glob w (CityscapesLoL.image_pattern self)) ->
  List.length (CityscapesLoL.image_paths self)
  = List.length (CityscapesLoL.eimage_paths self) ->
  exists self',
    CityscapesLoL.list_files w r self = Ok (self', r')
    /\ CityscapesLoL.has_custom_labels self'
       = CityscapesLoL.isfile w (CityscapesLoL.label_path_of (List.last ps ""))
    /\ forall p, In p ps ->
         CityscapesLoL.load_labels self' p (CityscapesLoL.eimage_path_of p)
           (Some (CityscapesLoL.label_path_of p))
         = if CityscapesLoL.isfile w
                (CityscapesLoL.label_path_of (List.last ps ""))
           then CityscapesLoL.LoadFromFile p (CityscapesLoL.label_path_of p)
                  (CityscapesLoL.eimage_path_of p)
           else CityscapesLoL.FromImageInfo p (CityscapesLoL.eimage_path_of p).
Proof.
  intros Hsel Hne Hglob Hlen.
  destruct (list_files_returns w r r' self ps Hsel) as [Hok Hflag].
  exists (CityscapesLoL.list_all w self ps).
  split; [apply Hok; exact Hlen|]. split; [apply Hflag; exact Hne|].
  intros p Hp. unfold CityscapesLoL.load_labels.
  rewrite (Hflag Hne).
  assert (Hp' : p <> "").
  { pose proof (select_images_subset w r r' self ps Hsel) as Hsub.
    rewrite Forall_forall in Hsub, Hglob. auto. }
  rewrite (truthy_nonempty _ (label_path_of_nonempty p Hp')).
  destruct (CityscapesLoL.isfile w _); reflexivity.
Qed.

Lemma has_custom_labels_of_last_image_witness :
  exists self',
    CityscapesLoL.list_files Fixtures.two_images_world Fixtures.zeros
      (Fixtures.fresh "/d" "train" false 4) = Ok (self', Fixtures.zeros)
    /\ CityscapesLoL.has_custom_labels self' = true
    /\ CityscapesLoL.isfile Fixtures.two_images_world
         (CityscapesLoL.label_path_of "/d/lol/train/low/a.png") = false
    /\ CityscapesLoL.load_labels self' "/d/lol/train/low/a.png"
         "/d/lol/train/high/a.png" (Some "/d/lol/train/customs/a.json")
       = CityscapesLoL.LoadFromFile "/d/lol/train/low/a.png"
           "/d/lol/train/customs/a.json" "/d/lol/train/high/a.png".
Proof.
  destruct (has_custom_labels_of_last_image Fixtures.two_images_world
              Fixtures.zeros Fixtures.zeros
              (Fixtures.fresh "/d" "train" false 4)
              ["/d/lol/train/low/a.png"; "/d/lol/train/low/b.png"])
    as [self' [Hfiles [Hflag Hload]]].
  - reflexivity.
  - discriminate.
  - simpl. repeat constructor; discriminate.
  - reflexivity.
  - exists self'. split; [exact Hfiles|]. split; [exact Hflag|].
    split; [reflexivity|].
    apply (Hload "/d/lol/train/low/a.png"). simpl. auto.
Defined.

(** ** [load_config] *)

Lemma lookup_item_fromDict (k : string) (items : list (string * Utils.value)) :
  Utils.lookup_item k
    (map (fun kv => (fst kv, Utils.fromDict (snd kv))) items)
  = option_map Utils.fromDict (Utils.lookup_item k items).
Proof.
  induction items as [|[k' v] items IH]; [reflexivity|].
  simpl. destruct (String.eqb k k'); [reflexivity | exact IH].
Qed.

(** A dict given in memory is converted as it stands. *)
Lemma load_config_dict (load : Utils.loader) (m : list (string * Utils.value)) :
  Utils.load_config load (Utils.VDict m)
  = Ok (Utils.fromDict (Utils.VDict m)).
Proof. reflexivity. Qed.

(** C5: when the file at [path] loads as the mapping [m], [load_config]
    of the path and [load_config] of the dict [m] return the same
    namespace. It has the keys of [m], in order; [ns[k]] is the converted
    value of [m] at [k] ([KeyError] when [m] has no such key); and [ns.k]
    is that same field ([AttributeError] when [m] has no such key), unless
    [k] names an attribute of the [Munch] class, which the read then
    gives, for both namespaces alike. *)
Theorem load_config_path_and_dict_agree
  (load : Utils.loader) (path : string) (m : list (string * Utils.value)) :
  load path = Ok (Utils.VDict m) ->
  exists ns,
    Utils.load_config load (Utils.VStr path) = Ok ns
    /\ Utils.load_config load (Utils.VDict m) = Ok ns
    /\ Utils.keys ns = map fst m
    /\ (forall k,
          Utils.getitem ns k
          = match Utils.lookup_item k m with
            | Some v => Ok (Utils.fromDict v)
            | None => Raise (KeyError k)
            end)
    /\ (forall on_class k,
          Utils.getattr on_class ns k
          = if on_class "Munch" k then Ok (Utils.ClassAttribute k)
            else match Utils.lookup_item k m with
                 | Some v => Ok (Utils.Field (Utils.fromDict v))
                 | None => Raise (AttributeError k)
                 end).
Proof.
  intros Hload. exists (Utils.fromDict (Utils.VDict m)).
  split; [|split; [apply load_config_dict | split; [|split]]].
  - unfold Utils.load_config. rewrite Hload. reflexivity.
  - simpl. rewrite map_map. reflexivity.
  - intros k. simpl. rewrite lookup_item_fromDict.
    destruct (Utils.lookup_item k m); reflexivity.
  - intros on_class k. unfold Utils.getattr. simpl.
    rewrite lookup_item_fromDict.
    destruct (on_class "Munch" k); [reflexivity|].
    destruct (Utils.lookup_item k m); reflexivity.
Qed.

Lemma load_config_path_and_dict_agree_witness :
  let m := [("name", Utils.VStr "cityscapes_lol");
            ("augment", Utils.VDict [("stride", Utils.VInt 32)])] in
  let load := fun path : string =>
    if String.eqb path "cfg.yaml" then Ok (Utils.VDict m)
    else Raise (ValueError path) in
  exists ns,
    Utils.load_config load (Utils.VStr "cfg.yaml") = Ok ns
    /\ Utils.load_config load (Utils.VDict m) = Ok ns
    /\ Utils.getattr (fun _ k => String.eqb k "keys") ns "augment"
       = Ok (Utils.Field (Utils.VMunch [("stride", Utils.VInt 32)])).
Proof.
  intros m load.
  destruct (load_config_path_and_dict_agree load "cfg.yaml" m)
    as [ns [Hpath [Hdict [_ [_ Hget]]]]].
  - reflexivity.
  - exists ns. split; [exact Hpath|]. split; [exact Hdict|].
    rewrite (Hget (fun _ k => String.eqb k "keys") "augment"). reflexivity.
Defined.

(** ** [ContextBlock] *)

Lemma str_in_In (s : string) (l : list string) :
  Plugin.str_in s l = true <-> In s l.
Proof.
  unfold Plugin.str_in. rewrite existsb_exists. split.
  - intros [x [Hin Heq]]. apply String.eqb_eq in Heq. subst. exact Hin.
  - intros Hin. exists s. split; [exact Hin | apply String.eqb_refl].
Qed.

Lemma str_in_not_In (s : string) (l : list string) :
  Plugin.str_in s l = false <-> ~ In s l.
Proof.
  rewrite <- str_in_In. destruct (Plugin.str_in s l); split;
    intros H; congruence.
Qed.

Lemma fusion_allowed_true (fusion_types : Plugin.str_seq) :
  Forall (fun f => In f Plugin.valid_fusion_types)
         (Plugin.elements fusion_types) ->
  forallb (fun f => Plugin.str_in f Plugin.valid_fusion_types)
          (Plugin.elements fusion_types) = true.
Proof.
  intros Hall. rewrite Forall_forall in Hall.
  apply forallb_forall. intros f Hf. apply str_in_In, Hall, Hf.
Qed.

Lemma fusion_allowed_false (fusion_types : Plugin.str_seq) (f : string) :
  In f (Plugin.elements fusion_types) ->
  ~ In f Plugin.valid_fusion_types ->
  forallb (fun f => Plugin.str_in f Plugin.valid_fusion_types)
          (Plugin.elements fusion_types) = false.
Proof.
  intros Hin Hbad. apply not_true_is_false. intros Hall.
  rewrite forallb_forall in Hall. apply Hbad, str_in_In, Hall, Hin.
Qed.

Lemma checks_pooling_invalid pooling_type fusion_types :
  ~ In pooling_type Plugin.valid_pooling_types ->
  Plugin.ContextBlock_init_checks pooling_type fusion_types
  = Raise (AssertionError "").
Proof.
  intros Hp. apply str_in_not_In in Hp.
  unfold Plugin.ContextBlock_init_checks, Plugin.run_check, assert.
  rewrite Hp. reflexivity.
Qed.

Lemma checks_fusion_invalid pooling_type fusion_types f :
  In f (Plugin.elements fusion_types) ->
  ~ In f Plugin.valid_fusion_types ->
  Plugin.ContextBlock_init_checks pooling_type fusion_types
  = Raise (AssertionError "").
Proof.
  intros Hin Hbad.
  unfold Plugin.ContextBlock_init_checks, Plugin.run_check, assert.
  rewrite (fusion_allowed_false fusion_types f Hin Hbad).
  destruct (Plugin.str_in pooling_type _); [|reflexivity].
  destruct (Plugin.is_list_or_tuple fusion_types); reflexivity.
Qed.

Lemma checks_fusion_empty pooling_type fusion_types :
  Plugin.elements fusion_types = [] ->
  exists msg,
    Plugin.ContextBlock_init_checks pooling_type fusion_types
    = Raise (AssertionError msg).
Proof.
  intros Hempty.
  unfold Plugin.ContextBlock_init_checks, Plugin.run_check, assert.
  rewrite Hempty.
  destruct (Plugin.str_in pooling_type _); [|eexists; reflexivity].
  destruct (Plugin.is_list_or_tuple fusion_types); eexists; reflexivity.
Qed.

Lemma checks_valid pooling_type fusion_types :
  In pooling_type Plugin.valid_pooling_types ->
  Forall (fun f => In f Plugin.valid_fusion_types)
         (Plugin.elements fusion_types) ->
  Plugin.elements fusion_types <> [] ->
  Plugin.run_check Plugin.CheckPooling pooling_type fusion_types = Ok tt
  /\ Plugin.run_check Plugin.CheckFusionAllowed pooling_type fusion_types
     = Ok tt
  /\ Plugin.run_check Plugin.CheckFusionNonEmpty pooling_type fusion_types
     = Ok tt
  /\ (Plugin.is_list_or_tuple fusion_types = true ->
      Plugin.ContextBlock_init_checks pooling_type fusion_types = Ok tt).
Proof.
  intros Hp Hall Hne. apply str_in_In in Hp.
  apply fusion_allowed_true in Hall.
  unfold Plugin.ContextBlock_init_checks, Plugin.run_check, assert.
  rewrite Hp, Hall.
  destruct (Plugin.elements fusion_types) as [|f fs]; [congruence|].
  repeat split. intros Hseq. rewrite Hseq. reflexivity.
Qed.

(** C7: the construction checks of [ContextBlock] raise when
    [pooling_type] is neither "avg" nor "att", raise when some element of
    [fusion_types] is neither "channel_add" nor "channel_mul", and raise
    when [fusion_types] has no element; when [pooling_type] is one of the
    two, every fusion type is allowed and there is at least one, none of
    these three checks raises (and for a list or tuple the whole sequence
    of checks passes). *)
Theorem ContextBlock_checks_raise_iff_invalid
  (pooling_type : string) (fusion_types : Plugin.str_seq) :
  (~ In pooling_type ["avg"; "att"] ->
   Plugin.ContextBlock_init_checks pooling_type fusion_types
   = Raise (AssertionError ""))
  /\ ((exists f, In f (Plugin.elements fusion_types)
                 /\ ~ In f ["channel_add"; "channel_mul"]) ->
      Plugin.ContextBlock_init_checks pooling_type fusion_types
      = Raise (AssertionError ""))
  /\ (Plugin.elements fusion_types = [] ->
      exists msg,
        Plugin.ContextBlock_init_checks pooling_type fusion_types
        = Raise (AssertionError msg))
  /\ (In pooling_type ["avg"; "att"] ->
      Forall (fun f => In f ["channel_add"; "channel_mul"])
             (Plugin.elements fusion_types) ->
      Plugin.elements fusion_types <> [] ->
      Plugin.run_check Plugin.CheckPooling pooling_type fusion_types = Ok tt
      /\ Plugin.run_check Plugin.CheckFusionAllowed pooling_type fusion_types
         = Ok tt
      /\ Plugin.run_check Plugin.CheckFusionNonEmpty pooling_type fusion_types
         = Ok tt
      /\ (Plugin.is_list_or_tuple fusion_types = true ->
          Plugin.ContextBlock_init_checks pooling_type fusion_types = Ok tt)).
Proof.
  split; [apply checks_pooling_invalid|].
  split; [intros [f [Hin Hbad]]; eapply checks_fusion_invalid; eassumption|].
  split; [apply checks_fusion_empty | apply checks_valid].
Qed.

Lemma ContextBlock_checks_raise_iff_invalid_witness :
  Plugin.ContextBlock_init_checks "att" (Plugin.PyTuple ["channel_add"])
  = Ok tt
  /\ Plugin.ContextBlock_init_checks "max" (Plugin.PyList ["channel_add"])
     = Raise (AssertionError "")
  /\ Plugin.ContextBlock_init_checks "avg" (Plugin.PyList ["channel_sub"])
     = Raise (AssertionError "").
Proof.
  split; [|split].
  - destruct (ContextBlock_checks_raise_iff_invalid "att"
                (Plugin.PyTuple ["channel_add"])) as [_ [_ [_ Hvalid]]].
    apply Hvalid.
    + simpl. auto.
    + simpl. repeat constructor.
    + discriminate.
    + reflexivity.
  - destruct (ContextBlock_checks_raise_iff_invalid "max"
                (Plugin.PyList ["channel_add"])) as [Hpool _].
    apply Hpool.
    intros H. simpl in H. destruct H as [H|[H|[]]]; discriminate.
  - destruct (ContextBlock_checks_raise_iff_invalid "avg"
                (Plugin.PyList ["channel_sub"])) as [_ [Hfusion _]].
    apply Hfusion.
    exists "channel_sub". split; [simpl; auto|].
    intros H. simpl in H. destruct H as [H|[H|[]]]; discriminate.
Defined.

(** ** Shapes of [Concat] and [Sum] *)

Lemma fold_left_invariant {A B} (P : A -> Prop) (f : A -> B -> A)
  (l : list B) (a : A) :
  P a -> (forall a x, In x l -> P a -> P (f a x)) -> P (fold_left f l a).
Proof.
  revert a. induction l as [|x l IH]; intros a Ha Hstep; simpl; [exact Ha|].
  apply IH.
  - apply Hstep; [left; reflexivity | exact Ha].
  - intros a' x' Hin. apply Hstep. right. exact Hin.
Qed.

Lemma broadcast_rev_same (s : list nat) : Torch.broadcast_rev s s = Ok s.
Proof.
  induction s as [|x s IH]; [reflexivity|].
  simpl. rewrite Nat.eqb_refl, IH. reflexivity.
Qed.

Lemma broadcast_shapes_same (s : list nat) : Torch.broadcast_shapes s s = Ok s.
Proof.
  unfold Torch.broadcast_shapes. rewrite broadcast_rev_same. simpl.
  rewrite rev_involutive. reflexivity.
Qed.

Lemma broadcast_shapes_scalar (s : list nat) :
  Torch.broadcast_shapes s [] = Ok s.
Proof.
  unfold Torch.broadcast_shapes.
  assert (H : Torch.broadcast_rev (rev s) (rev []) = Ok (rev s))
    by (destruct (rev s); reflexivity).
  rewrite H. simpl. rewrite rev_involutive. reflexivity.
Qed.

Lemma add_same_shape (a b : Torch.tensor) :
  Torch.shape a = Torch.shape b ->
  exists y, Torch.add a b = Ok y /\ Torch.shape y = Torch.shape a.
Proof.
  intros Heq. unfold Torch.add, Torch.pointwise.
  rewrite <- Heq, broadcast_shapes_same. simpl. eexists. split; reflexivity.
Qed.

Lemma mul_by_scalar (a b : Torch.tensor) :
  Torch.shape b = [] ->
  exists y, Torch.mul a b = Ok y /\ Torch.shape y = Torch.shape a.
Proof.
  intros Hb. unfold Torch.mul, Torch.pointwise.
  rewrite Hb, broadcast_shapes_scalar. simpl. eexists. split; reflexivity.
Qed.

Lemma select_vector (t : Torch.tensor) (n : nat) (i : Z) :
  Torch.shape t = [n] -> 0 <= i < Z.of_nat n ->
  exists y, Torch.select t i = Ok y /\ Torch.shape y = [].
Proof.
  intros Hs Hi. unfold Torch.select. rewrite Hs.
  destruct (Z.ltb_spec i 0); [lia|].
  destruct (Z.leb_spec 0 i); [|lia].
  destruct (Z.ltb_spec i (Z.of_nat n)); [|lia].
  simpl. eexists. split; reflexivity.
Qed.

Lemma In_range (n i : Z) : In i (Plugin.range n) -> 0 <= i < n.
Proof.
  unfold Plugin.range. rewrite in_map_iff. intros [k [Hk Hin]].
  apply in_seq in Hin. lia.
Qed.

Lemma getitem_shape (xs : list Torch.tensor) (s : list nat) (i : Z) :
  Forall (fun x => Torch.shape x = s) xs ->
  0 <= i < Z.of_nat (List.length xs) ->
  exists x, getitem xs i = Ok x /\ Torch.shape x = s.
Proof.
  intros Hall Hi. destruct (getitem_in_range xs i Hi) as [x [Hx Hin]].
  exists x. split; [exact Hx|]. rewrite Forall_forall in Hall. auto.
Qed.

Lemma cat_channels_shape (n h w : nat) (x0 : Torch.tensor)
  (rest : list Torch.tensor) :
  Forall (fun x => exists c, Torch.shape x = [n; c; h; w]) (x0 :: rest) ->
  exists y,
    Torch.cat (x0 :: rest) 1 = Ok y
    /\ Torch.shape y = [n; list_sum (map Torch.channels (x0 :: rest)); h; w].
Proof.
  intros Hall. inversion Hall as [|? ? [c0 Hx0] Hrest]; subst.
  unfold Torch.cat, Torch.ndim. rewrite Hx0. simpl.
  assert (Hsame : forallb (fun x => Torch.same_except 1 [n; c0; h; w]
                                      (Torch.shape x)) rest = true).
  { apply forallb_forall. intros x Hx. rewrite Forall_forall in Hrest.
    destruct (Hrest x Hx) as [c Hc]. rewrite Hc.
    unfold Torch.same_except. apply bool_decide_eq_true. reflexivity. }
  change (Z.to_nat 1) with 1%nat. rewrite Hsame.
  eexists. split; reflexivity.
Qed.

Lemma Sum_forward_shape (self : Plugin.Sum) (xs : list Torch.tensor)
  (s : list nat) (n : Z) :
  n = Z.of_nat (List.length xs) -> 1 <= n ->
  Forall (fun x => Torch.shape x = s) xs ->
  Plugin.iter self = Plugin.range (n - 1) ->
  (Plugin.weight self = true ->
   exists wt, Plugin.w self = Some wt
              /\ Torch.shape wt = [Z.to_nat (n - 1)]) ->
  exists y, Plugin.Sum_forward self xs = Ok y /\ Torch.shape y = s.
Proof.
  intros Hn Hpos Hall Hiter Hw. unfold Plugin.Sum_forward.
  destruct (getitem_shape xs s 0 Hall) as [x0 [Hx0 Hs0]]; [lia|].
  rewrite Hx0. simpl. rewrite Hiter.
  destruct (Plugin.weight self) eqn:Hweight.
  - destruct (Hw eq_refl) as [wt [Hwt Hshape]]. rewrite Hwt. simpl.
    apply (fold_left_invariant
             (fun acc => exists y, acc = Ok y /\ Torch.shape y = s)).
    + eauto.
    + intros acc i Hi [y [-> Hy]]. apply In_range in Hi. simpl.
      destruct (getitem_shape xs s (i + 1) Hall) as [xi [Hxi Hsi]]; [lia|].
      rewrite Hxi. simpl.
      destruct (select_vector (Torch.scale (Torch.sigmoid wt) 2)
                  (Z.to_nat (n - 1)) i) as [wi [Hwi Hswi]];
        [exact Hshape | lia |].
      rewrite Hwi. simpl.
      destruct (mul_by_scalar xi wi Hswi) as [t [Ht Hst]].
      rewrite Ht. simpl.
      destruct (add_same_shape y t) as [y' [Hy' Hsy']]; [congruence|].
      exists y'. split; [exact Hy' | congruence].
  - apply (fold_left_invariant
             (fun acc => exists y, acc = Ok y /\ Torch.shape y = s)).
    + eauto.
    + intros acc i Hi [y [-> Hy]]. apply In_range in Hi. simpl.
      destruct (getitem_shape xs s (i + 1) Hall) as [xi [Hxi Hsi]]; [lia|].
      rewrite Hxi. simpl.
      destruct (add_same_shape y xi) as [y' [Hy' Hsy']]; [congruence|].
      exists y'. split; [exact Hy' | congruence].
Qed.

(** [Sum(n, weight)] as constructed, with whatever values training has
    given to the weights. *)
Lemma Sum_init_fields (n : Z) (weight : bool) :
  Plugin.iter (Plugin.Sum_init n weight) = Plugin.range (n - 1)
  /\ Plugin.weight (Plugin.Sum_init n weight) = weight
  /\ (weight = true ->
      exists wt, Plugin.w (Plugin.Sum_init n weight) = Some wt
                 /\ Torch.shape wt = [Z.to_nat (n - 1)]).
Proof.
  repeat split. intros ->. eexists. split; reflexivity.
Qed.

(** C9: [Concat] with [dim=1], given a non-empty list of 4-D tensors of
    shapes [(N, C_i, H, W)], returns a tensor of shape [(N, sum C_i, H, W)]:
    its channel count is the sum of the inputs' channel counts. [Sum] over
    [n] inputs, given a list of [n >= 1] tensors of one shape, returns a
    tensor of that shape, with learned weights (of any values) and
    without. *)
Theorem Concat_and_Sum_shapes :
  (forall (n h w : nat) (x0 : Torch.tensor) (rest : list Torch.tensor),
     Forall (fun x => exists c, Torch.shape x = [n; c; h; w]) (x0 :: rest) ->
     exists y,
       Plugin.Concat_forward (Plugin.Concat_init 1) (x0 :: rest) = Ok y
       /\ Torch.shape y = [n; list_sum (map Torch.channels (x0 :: rest)); h; w]
       /\ Torch.channels y = list_sum (map Torch.channels (x0 :: rest)))
  /\ (forall (self : Plugin.Sum) (xs : list Torch.tensor) (s : list nat),
        xs <> [] ->
        Forall (fun x => Torch.shape x = s) xs ->
        Plugin.iter self = Plugin.range (Z.of_nat (List.length xs) - 1) ->
        (Plugin.weight self = true ->
         exists wt, Plugin.w self = Some wt
                    /\ Torch.shape wt = [Z.to_nat (Z.of_nat (List.length xs) - 1)]) ->
        exists y,
          Plugin.Sum_forward self xs = Ok y
          /\ Torch.shape y = s
          /\ forall x, In x xs -> Torch.channels y = Torch.channels x)
  /\ (forall (weight : bool) (xs : list Torch.tensor) (s : list nat),
        xs <> [] ->
        Forall (fun x => Torch.shape x = s) xs ->
        exists y,
          Plugin.Sum_forward
            (Plugin.Sum_init (Z.of_nat (List.length xs)) weight) xs = Ok y
          /\ Torch.shape y = s).
Proof.
  split; [|split].
  - intros n h w x0 rest Hall.
    destruct (cat_channels_shape n h w x0 rest Hall) as [y [Hy Hs]].
    exists y. split; [exact Hy|]. split; [exact Hs|].
    unfold Torch.channels at 1. rewrite Hs. reflexivity.
  - intros self xs s Hne Hall Hiter Hw.
    destruct (Sum_forward_shape self xs s (Z.of_nat (List.length xs)))
      as [y [Hy Hs]]; try assumption; try reflexivity.
    { destruct xs; [congruence | simpl; lia]. }
    exists y. split; [exact Hy|]. split; [exact Hs|].
    intros x Hx. rewrite Forall_forall in Hall.
    unfold Torch.channels. rewrite Hs, (Hall x Hx). reflexivity.
  - intros weight xs s Hne Hall.
    destruct (Sum_init_fields (Z.of_nat (List.length xs)) weight)
      as [Hiter [Hweight Hw]].
    apply (Sum_forward_shape _ xs s (Z.of_nat (List.length xs)));
      [reflexivity | | exact Hall | exact Hiter | rewrite Hweight; exact Hw].
    destruct xs; [congruence | simpl; lia].
Qed.

Lemma Concat_and_Sum_shapes_witness :
  (exists y,
     Plugin.Concat_forward (Plugin.Concat_init 1)
       [Fixtures.feature_map 3; Fixtures.feature_map 5] = Ok y
     /\ Torch.channels y = 8%nat)
  /\ (exists y,
        Plugin.Sum_forward (Plugin.Sum_init 2 true)
          [Fixtures.feature_map 3; Fixtures.feature_map 3] = Ok y
        /\ Torch.shape y = [2; 3; 4; 4]%nat).
Proof.
  destruct Concat_and_Sum_shapes as [Hcat [_ Hsum]]. split.
  - destruct (Hcat 2%nat 4%nat 4%nat (Fixtures.feature_map 3)
                [Fixtures.feature_map 5]) as [y [Hy [_ Hc]]].
    + repeat constructor; eexists; reflexivity.
    + exists y. split; [exact Hy | exact Hc].
  - destruct (Hsum true [Fixtures.feature_map 3; Fixtures.feature_map 3]
                [2; 3; 4; 4]%nat) as [y [Hy Hs]].
    + discriminate.
    + repeat constructor.
    + exists y. split; [exact Hy | exact Hs].
Defined.

(** ** The blueprint convolutions: forward passes *)

Lemma bind_ret {A} (m : result A) : Py.bind m Ok = m.
Proof. destruct m; reflexivity. Qed.

Lemma apply_opt_None (y : Torch.tensor) : Blueprint.apply_opt None y = Ok y.
Proof. reflexivity. Qed.

Lemma ABS1_forward_chain (fw : Blueprint.framework)
  (self : Blueprint.AttentionSubspaceBlueprintSeparableConv2d.t)
  (x : Torch.tensor) :
  Blueprint.AttentionSubspaceBlueprintSeparableConv2d1.forward fw self x
  = Blueprint.conv_chain fw
      (Blueprint.AttentionSubspaceBlueprintSeparableConv2d.pw_conv1 self)
      (Blueprint.AttentionSubspaceBlueprintSeparableConv2d.pw_conv2 self)
      (Blueprint.AttentionSubspaceBlueprintSeparableConv2d.dw_conv self) x.
Proof.
  unfold Blueprint.AttentionSubspaceBlueprintSeparableConv2d1.forward,
    Blueprint.conv_chain.
  destruct (Blueprint.conv2d_forward fw _ x) as [a|e]; [simpl|reflexivity].
  destruct (Blueprint.conv2d_forward fw _ a) as [b|e]; [simpl|reflexivity].
  apply bind_ret.
Qed.

Lemma BS_forward_chain (fw : Blueprint.framework)
  (self : Blueprint.SubspaceBlueprintSeparableConv2d.t) (x : Torch.tensor) :
  Blueprint.SubspaceBlueprintSeparableConv2d.act1 self = None ->
  Blueprint.SubspaceBlueprintSeparableConv2d.act2 self = None ->
  Blueprint.SubspaceBlueprintSeparableConv2d.forward fw self x
  = Blueprint.conv_chain fw
      (Blueprint.SubspaceBlueprintSeparableConv2d.pw_conv1 self)
      (Blueprint.SubspaceBlueprintSeparableConv2d.pw_conv2 self)
      (Blueprint.SubspaceBlueprintSeparableConv2d.dw_conv self) x.
Proof.
  intros H1 H2.
  unfold Blueprint.SubspaceBlueprintSeparableConv2d.forward,
    Blueprint.conv_chain.
  rewrite H1, H2.
  destruct (Blueprint.conv2d_forward fw _ x) as [a|e]; [simpl|reflexivity].
  destruct (Blueprint.conv2d_forward fw _ a) as [b|e]; [simpl|reflexivity].
  apply bind_ret.
Qed.

(** C8: for every input and every weights, the forward pass of
    [AttentionSubspaceBlueprintSeparableConv2d1] is
    [dw_conv(pw_conv2(pw_conv1(x)))], whatever the layer's attention step
    and activations are; hence it agrees, on every input, with the forward
    pass of a [SubspaceBlueprintSeparableConv2d] that has no activation
    and the same three convolutions. *)
Theorem ABS1_forward_is_plain_subspace_forward
  (fw : Blueprint.framework)
  (self : Blueprint.AttentionSubspaceBlueprintSeparableConv2d.t)
  (x : Torch.tensor) :
  Blueprint.AttentionSubspaceBlueprintSeparableConv2d1.forward fw self x
  = Blueprint.conv_chain fw
      (Blueprint.AttentionSubspaceBlueprintSeparableConv2d.pw_conv1 self)
      (Blueprint.AttentionSubspaceBlueprintSeparableConv2d.pw_conv2 self)
      (Blueprint.AttentionSubspaceBlueprintSeparableConv2d.dw_conv self) x
  /\ forall plain : Blueprint.SubspaceBlueprintSeparableConv2d.t,
       Blueprint.SubspaceBlueprintSeparableConv2d.act1 plain = None ->
       Blueprint.SubspaceBlueprintSeparableConv2d.act2 plain = None ->
       Blueprint.SubspaceBlueprintSeparableConv2d.pw_conv1 plain
       = Blueprint.AttentionSubspaceBlueprintSeparableConv2d.pw_conv1 self ->
       Blueprint.SubspaceBlueprintSeparableConv2d.pw_conv2 plain
       = Blueprint.AttentionSubspaceBlueprintSeparableConv2d.pw_conv2 self ->
       Blueprint.SubspaceBlueprintSeparableConv2d.dw_conv plain
       = Blueprint.AttentionSubspaceBlueprintSeparableConv2d.dw_conv self ->
       Blueprint.SubspaceBlueprintSeparableConv2d.forward fw plain x
       = Blueprint.AttentionSubspaceBlueprintSeparableConv2d1.forward
           fw self x.
Proof.
  split; [apply ABS1_forward_chain|].
  intros plain H1 H2 Hc1 Hc2 Hc3.
  rewrite ABS1_forward_chain, (BS_forward_chain fw plain x H1 H2).
  rewrite Hc1, Hc2, Hc3. reflexivity.
Qed.

Lemma ABS1_forward_is_plain_subspace_forward_witness :
  Blueprint.SubspaceBlueprintSeparableConv2d.forward Fixtures.toy_framework
    Fixtures.toy_plain_layer (Fixtures.feature_map 32)
  = Blueprint.AttentionSubspaceBlueprintSeparableConv2d1.forward
      Fixtures.toy_framework Fixtures.toy_attention_layer
      (Fixtures.feature_map 32).
Proof.
  apply (ABS1_forward_is_plain_subspace_forward Fixtures.toy_framework
           Fixtures.toy_attention_layer (Fixtures.feature_map 32));
    reflexivity.
Defined.

(** ** The layer registry *)

Lemma register_all_raise (key_of : Registry.blueprint_class -> string)
  (cs : list Registry.blueprint_class) (e : exn) :
  fold_left (fun acc c =>
               let* r := acc in Registry.register (key_of c) c r)
            cs (Raise e) = Raise e.
Proof. induction cs as [|c cs IH]; [reflexivity | exact IH]. Qed.

Lemma register_all_cons (key_of : Registry.blueprint_class -> string)
  (c : Registry.blueprint_class) (cs : list Registry.blueprint_class)
  (reg : gmap string Registry.blueprint_class) :
  Registry.register_all key_of (c :: cs) reg
  = (let* r := Registry.register (key_of c) c reg in
     Registry.register_all key_of cs r).
Proof.
  unfold Registry.register_all. simpl.
  destruct (Registry.register (key_of c) c reg); simpl;
    [reflexivity | apply register_all_raise].
Qed.

Lemma register_twice_raises (key_of : Registry.blueprint_class -> string)
  (c1 c2 : Registry.blueprint_class) (rest : list Registry.blueprint_class) :
  exists name,
    Registry.register_all key_of (c1 :: c2 :: c1 :: rest) ∅
    = Raise (KeyError name).
Proof.
  rewrite register_all_cons. unfold Registry.register.
  rewrite lookup_empty. cbn [Py.bind].
  rewrite register_all_cons. unfold Registry.register.
  destruct (decide (key_of c1 = key_of c2)) as [Heq|Hne].
  - rewrite <- Heq, lookup_insert_eq. eexists. reflexivity.
  - rewrite lookup_insert_ne by exact Hne. rewrite lookup_empty.
    cbn [Py.bind]. rewrite register_all_cons. unfold Registry.register.
    rewrite lookup_insert_ne by congruence. rewrite lookup_insert_eq.
    eexists. reflexivity.
Qed.

(** Under the registry of the spec, importing [blueprint.py] cannot
    succeed: line 206 registers, through the alias [BSConv2dS], the class
    that the decorator of line 44 has registered, under the same derived
    key, whatever the derivation is. *)
Lemma import_registrations_collide
  (key_of : Registry.blueprint_class -> string) :
  exists name,
    Registry.register_all key_of Registry.import_registrations ∅
    = Raise (KeyError name).
Proof. apply register_twice_raises. Qed.

(** C6: when a name is already present in the layer registry, registering
    a constructor under that name raises and leaves no new registry; in
    particular a second registration under a name just registered is an
    error. *)
Theorem register_duplicate_is_error {ctor : Type}
  (name : string) (c c' : ctor) (reg : gmap string ctor) :
  (is_Some (reg !! name) ->
   Registry.register name c' reg = Raise (KeyError name))
  /\ (forall reg', Registry.register name c reg = Ok reg' ->
         reg' !! name = Some c
         /\ Registry.register name c' reg' = Raise (KeyError name)).
Proof.
  split.
  - intros [old Hold]. unfold Registry.register. rewrite Hold. reflexivity.
  - intros reg' Hreg. unfold Registry.register in Hreg.
    destruct (reg !! name) eqn:Hlook; [discriminate|].
    injection Hreg as <-.
    split; [apply lookup_insert_eq|].
    unfold Registry.register. rewrite lookup_insert_eq. reflexivity.
Qed.

Lemma register_duplicate_is_error_witness :
  Registry.register "bsconv2ds" Registry.UnconstrainedBlueprintSeparableConv2d
    (<["bsconv2ds" := Registry.SubspaceBlueprintSeparableConv2d]> ∅)
  = Raise (KeyError "bsconv2ds").
Proof.
  apply (register_duplicate_is_error "bsconv2ds"
           Registry.SubspaceBlueprintSeparableConv2d
           Registry.UnconstrainedBlueprintSeparableConv2d).
  rewrite lookup_insert_eq. eexists. reflexivity.
Defined.

(** ** Python floats: products that stay finite

    Rounding a non-negative mantissa shifts it right and adds at most one,
    so a value below [2 ^ D] with [D <= 1023] rounds to a finite float. *)

Lemma digits2_pos_size (p : positive) : digits2_pos p = Pos.size p.
Proof. induction p; simpl; congruence. Qed.

Lemma Zdigits2_nonneg (m : Z) : 0 <= Zdigits2 m.
Proof. destruct m; simpl; lia. Qed.

Lemma Zdigits2_gt (m : Z) : 0 <= m -> m < 2 ^ Zdigits2 m.
Proof.
  intros Hm. destruct m as [|p|p]; [simpl; lia | | lia].
  simpl. rewrite digits2_pos_size.
  pose proof (Pos.size_gt p) as H.
  apply Pos2Z.pos_lt_pos in H. rewrite Pos2Z.inj_pow in H. exact H.
Qed.

Lemma Zdigits2_le (m d : Z) : 0 <= m -> 0 <= d -> m < 2 ^ d -> Zdigits2 m <= d.
Proof.
  intros Hm Hd Hlt. destruct m as [|p|p]; [simpl; lia | | lia].
  simpl. rewrite digits2_pos_size.
  pose proof (Pos.size_le p) as H.
  apply Pos2Z.pos_le_pos in H. rewrite Pos2Z.inj_pow in H.
  change (Z.pos p~0) with (2 * Z.pos p) in H.
  destruct (Z.le_gt_cases (Z.pos (Pos.size p)) d) as [Hle|Hgt]; [exact Hle|].
  exfalso.
  assert (2 ^ (d + 1) <= 2 ^ Z.pos (Pos.size p))
    by (apply Z.pow_le_mono_r; lia).
  rewrite Z.pow_add_r in H0 by lia. change (2 ^ 1) with 2 in H0. lia.
Qed.

Lemma shr_m_shr_1 (r : shr_record) :
  0 <= shr_m r -> shr_m (shr_1 r) = shr_m r / 2.
Proof.
  intros Hm. rewrite <- Z.div2_div.
  destruct r as [m rb sb]. simpl in Hm.
  destruct m as [|p|p]; [reflexivity | | lia].
  destruct p; reflexivity.
Qed.

Lemma shr_m_iter (p : positive) (r : shr_record) :
  0 <= shr_m r ->
  shr_m (iter_pos shr_1 p r) = shr_m r / 2 ^ Z.pos p.
Proof.
  revert r. induction p as [p IH|p IH|]; intros r Hr; simpl iter_pos.
  - assert (H1 : 0 <= shr_m (shr_1 r))
      by (rewrite shr_m_shr_1 by exact Hr; apply Z.div_pos; lia).
    assert (H2 : 0 <= shr_m (iter_pos shr_1 p (shr_1 r)))
      by (rewrite IH by exact H1; apply Z.div_pos; lia).
    rewrite IH by exact H2. rewrite IH by exact H1.
    rewrite shr_m_shr_1 by exact Hr.
    rewrite !Z.div_div by lia. f_equal.
    replace (Z.pos p~1) with (1 + Z.pos p + Z.pos p) by lia.
    rewrite !Z.pow_add_r by lia. change (2 ^ 1) with 2. lia.
  - assert (H1 : 0 <= shr_m (iter_pos shr_1 p r))
      by (rewrite IH by exact Hr; apply Z.div_pos; lia).
    rewrite IH by exact H1. rewrite IH by exact Hr.
    rewrite Z.div_div by lia. f_equal.
    replace (Z.pos p~0) with (Z.pos p + Z.pos p) by lia.
    rewrite Z.pow_add_r by lia. reflexivity.
  - rewrite shr_m_shr_1 by exact Hr. reflexivity.
Qed.

Lemma fexp64_eq (z : Z) :
  fexp Float64.prec Float64.emax z = Z.max (z - 53) (-1074).
Proof. reflexivity. Qed.

Lemma shr_fexp_exact (m e : Z) :
  0 <= m ->
  exists mrs e',
    shr_fexp Float64.prec Float64.emax m e loc_Exact = (mrs, e')
    /\ e' = Z.max e (fexp Float64.prec Float64.emax (Zdigits2 m + e))
    /\ shr_m mrs = m / 2 ^ (e' - e).
Proof.
  intros Hm. unfold shr_fexp, shr. cbn [shr_record_of_loc].
  destruct (fexp Float64.prec Float64.emax (Zdigits2 m + e) - e) as [|p|p] eqn:Hn.
  - eexists _, _. split; [reflexivity|]. split; [lia|].
    simpl shr_m. replace (e - e) with 0 by lia.
    rewrite Z.pow_0_r, Z.div_1_r. reflexivity.
  - eexists _, _. split; [reflexivity|]. split; [lia|].
    rewrite shr_m_iter by exact Hm. simpl shr_m. f_equal. f_equal. lia.
  - eexists _, _. split; [reflexivity|]. split; [lia|].
    simpl shr_m. replace (e - e) with 0 by lia.
    rewrite Z.pow_0_r, Z.div_1_r. reflexivity.
Qed.

Lemma round_nearest_even_bounds (m : Z) (l : location) :
  m <= round_nearest_even m l <= m + 1.
Proof.
  unfold round_nearest_even. destruct l as [|[| |]]; try lia.
  destruct (Z.even m); lia.
Qed.

Lemma div_pow2_lt (m D e e' : Z) :
  0 <= m -> e <= e' -> m < 2 ^ (D - e) ->
  m / 2 ^ (e' - e) < 2 ^ Z.max (D - e') 0.
Proof.
  intros Hm He Hlt.
  assert (Hpos : 0 < 2 ^ (e' - e)) by (apply Z.pow_pos_nonneg; lia).
  destruct (Z.le_gt_cases e' D) as [Hle|Hgt].
  - rewrite Z.max_l by lia. apply Z.div_lt_upper_bound; [exact Hpos|].
    rewrite <- Z.pow_add_r by lia.
    replace (e' - e + (D - e')) with (D - e) by lia. exact Hlt.
  - rewrite Z.max_r by lia. rewrite Z.div_small; [reflexivity|].
    split; [exact Hm|].
    assert (2 ^ (D - e) <= 2 ^ (e' - e)) by (apply Z.pow_le_mono_r; lia).
    lia.
Qed.

Lemma binary_round_aux_finite (s : bool) (m e D : Z) :
  0 <= m -> m < 2 ^ (D - e) -> e <= 971 -> D <= 1023 ->
  binary_round_aux Float64.prec Float64.emax s m e loc_Exact = S754_zero s
  \/ exists m'' e'',
       binary_round_aux Float64.prec Float64.emax s m e loc_Exact
       = S754_finite s m'' e''
       /\ e'' <= 971
       /\ (-1074 <= D -> Z.pos m'' < 2 ^ (D + 1 - e'')).
Proof.
  intros Hm Hlt He HD.
  assert (HeD : e <= D).
  { destruct (Z.le_gt_cases e D) as [H|H]; [exact H|].
    rewrite Z.pow_neg_r in Hlt by lia. lia. }
  assert (Hdig : Zdigits2 m + e <= D).
  { pose proof (Zdigits2_le m (D - e) Hm). lia. }
  unfold binary_round_aux.
  destruct (shr_fexp_exact m e Hm) as [mrs' [e' [H1 [He' Hm']]]].
  rewrite H1. rewrite fexp64_eq in He'.
  assert (Hm'lt : shr_m mrs' < 2 ^ Z.max (D - e') 0)
    by (rewrite Hm'; apply div_pow2_lt; lia).
  assert (Hm'0 : 0 <= shr_m mrs')
    by (rewrite Hm'; apply Z.div_pos; [lia | apply Z.pow_pos_nonneg; lia]).
  pose proof (round_nearest_even_bounds (shr_m mrs') (loc_of_shr_record mrs'))
    as Hround.
  set (m1 := round_nearest_even (shr_m mrs') (loc_of_shr_record mrs')) in *.
  assert (Hm1 : 0 <= m1) by lia.
  assert (Hm1lt : m1 < 2 ^ (Z.max (D - e') 0 + 1)).
  { rewrite Z.pow_add_r by lia. change (2 ^ 1) with 2.
    assert (0 < 2 ^ Z.max (D - e') 0) by (apply Z.pow_pos_nonneg; lia). lia. }
  assert (Hdig1 : Zdigits2 m1 <= Z.max (D - e') 0 + 1)
    by (apply Zdigits2_le; lia).
  destruct (shr_fexp_exact m1 e' Hm1) as [mrs'' [e'' [H2 [He'' Hm'']]]].
  rewrite H2. rewrite fexp64_eq in He''.
  assert (Hm''0 : 0 <= shr_m mrs'')
    by (rewrite Hm''; apply Z.div_pos; [lia | apply Z.pow_pos_nonneg; lia]).
  destruct (shr_m mrs'') as [|q|q] eqn:Hq; [left; reflexivity | | lia].
  right. exists q, e''.
  assert (Hle : e'' <= 971) by lia.
  change (Float64.emax - Float64.prec) with 971.
  destruct (Z.leb_spec e'' 971) as [_|Hbad]; [|lia].
  split; [reflexivity|]. split; [exact Hle|].
  intros Hmin. rewrite Z.max_l in Hm'lt by lia.
  assert (Hm1D : m1 < 2 ^ (D + 1 - e')).
  { replace (D + 1 - e') with (D - e' + 1) by lia.
    rewrite Z.pow_add_r by lia. change (2 ^ 1) with 2.
    assert (0 < 2 ^ (D - e')) by (apply Z.pow_pos_nonneg; lia). lia. }
  pose proof (div_pow2_lt m1 (D + 1) e' e'' Hm1 ltac:(lia) Hm1D) as Hfin.
  rewrite <- Hm'' in Hfin.
  destruct (Z.le_gt_cases e'' (D + 1)) as [Hc|Hc].
  - rewrite Z.max_l in Hfin by lia. exact Hfin.
  - rewrite Z.max_r in Hfin by lia. change (2 ^ 0) with 1 in Hfin. lia.
Qed.

Lemma iter_xO_pow2 (d mx : positive) :
  Z.pos (Pos.iter xO mx d) = Z.pos mx * 2 ^ Z.pos d.
Proof.
  induction d as [|d IH] using Pos.peano_ind.
  - change (Pos.iter xO mx 1) with (mx~0)%positive.
    change (2 ^ 1) with 2. lia.
  - rewrite Pos.iter_succ, Pos2Z.inj_succ, Z.pow_succ_r by lia.
    change (Z.pos (Pos.iter xO mx d)~0) with (2 * Z.pos (Pos.iter xO mx d)).
    rewrite IH. lia.
Qed.

Lemma shl_align_spec (c : positive) (ex ex' : Z) :
  exists mz ez,
    shl_align c ex ex' = (mz, ez)
    /\ ez <= ex
    /\ Z.pos mz = Z.pos c * 2 ^ (ex - ez).
Proof.
  unfold shl_align. destruct (ex' - ex) as [|d|d] eqn:Hd.
  - exists c, ex. replace (ex - ex) with 0 by lia.
    rewrite Z.pow_0_r. repeat split; lia.
  - exists c, ex. replace (ex - ex) with 0 by lia.
    rewrite Z.pow_0_r. repeat split; lia.
  - eexists _, _. split; [reflexivity|]. split; [lia|].
    rewrite iter_xO_pow2. f_equal. f_equal. lia.
Qed.

(** [float(C)] exists for a positive [C] below [2 ^ 1000]. *)
Lemma of_int_finite (C : Z) :
  0 < C < 2 ^ 1000 ->
  exists my ey,
    Float64.of_int C = Ok (S754_finite false my ey)
    /\ ey <= 971 /\ Z.pos my < 2 ^ (1001 - ey)
  \/ Float64.of_int C = Ok (S754_zero false).
Proof.
  intros [Hpos Hlt]. destruct C as [|c|c]; try lia.
  unfold Float64.of_int, binary_normalize, binary_round.
  destruct (shl_align_spec c 0 (fexp Float64.prec Float64.emax
                                   (Z.pos (digits2_pos c) + 0)))
    as [mz [ez [Halign [Hez Hmz]]]].
  rewrite Halign.
  destruct (binary_round_aux_finite false (Z.pos mz) ez 1000)
    as [Hzero|[my [ey [Hfin [Hey Hmy]]]]]; try lia.
  - rewrite Hmz. replace (1000 - ez) with (1000 + (0 - ez)) by lia.
    rewrite Z.pow_add_r by lia.
    apply Z.mul_lt_mono_pos_r; [apply Z.pow_pos_nonneg; lia | exact Hlt].
  - exists 1%positive, 0. right. rewrite Hzero. reflexivity.
  - exists my, ey. left. rewrite Hfin.
    split; [reflexivity|]. split; [exact Hey|]. apply Hmy. lia.
Qed.

Lemma ratio_cases (p : Float64.float) :
  valid_binary Float64.prec Float64.emax p = true ->
  Float64.leb Float64.zero p = true ->
  Float64.leb p Float64.one = true ->
  (exists s, p = S754_zero s)
  \/ exists mp ep, p = S754_finite false mp ep
                   /\ ep <= -52 /\ Z.pos mp < 2 ^ (1 - ep).
Proof.
  intros Hvalid H0 H1. destruct p as [s|s| |s mp ep].
  - left. eauto.
  - destruct s; discriminate.
  - discriminate.
  - right. destruct s; [discriminate|]. exists mp, ep.
    split; [reflexivity|].
    simpl in Hvalid. apply andb_prop in Hvalid. destruct Hvalid as [Hcan _].
    unfold canonical_mantissa in Hcan. apply Z.eqb_eq in Hcan.
    change (fexp Float64.prec Float64.emax (Z.pos (digits2_pos mp) + ep))
      with (Z.max (Z.pos (digits2_pos mp) + ep - 53) (-1074)) in Hcan.
    assert (Hep : ep <= -52).
    { unfold Float64.leb, SFleb, Float64.one, SFcompare in H1.
      destruct (Z.compare_spec ep (-52)); [lia | lia | discriminate]. }
    split; [exact Hep|].
    pose proof (Zdigits2_gt (Z.pos mp) ltac:(lia)) as Hdig. simpl in Hdig.
    assert (2 ^ Z.pos (digits2_pos mp) <= 2 ^ (1 - ep))
      by (apply Z.pow_le_mono_r; lia).
    lia.
Qed.

(** For the ratios and channel counts of the claim, [math.ceil(p * C)]
    does not raise. *)
Lemma ceil_mul_total (p : Float64.float) (C : Z) :
  valid_binary Float64.prec Float64.emax p = true ->
  Float64.leb Float64.zero p = true ->
  Float64.leb p Float64.one = true ->
  0 < C < 2 ^ 1000 ->
  exists k, Blueprint.ceil_mul p C = Ok k.
Proof.
  intros Hvalid H0 H1 HC. unfold Blueprint.ceil_mul, Float64.mul_int.
  destruct (of_int_finite C HC) as [my [ey [[Hy [Hey Hmy]]|Hy]]];
    rewrite Hy; cbn [Py.bind];
    destruct (ratio_cases p Hvalid H0 H1)
      as [[s ->]|[mp [ep [-> [Hep Hmp]]]]];
    try (eexists; reflexivity).
  unfold Float64.mul, SFmul.
  destruct (binary_round_aux_finite (xorb false false)
              (Z.pos (mp * my)) (ep + ey) 1002)
    as [Hzero|[m'' [e'' [Hfin _]]]]; try lia.
  - rewrite Pos2Z.inj_mul.
    replace (1002 - (ep + ey)) with ((1 - ep) + (1001 - ey)) by lia.
    rewrite Z.pow_add_r by lia.
    apply Z.mul_lt_mono_nonneg; lia.
  - rewrite Hzero. eexists. reflexivity.
  - rewrite Hfin. unfold Float64.ceil.
    destruct (0 <=? e''); eexists; reflexivity.
Qed.

(** ** Python floats: the number a float stands for *)

Lemma pow2_pos (e : Z) : (0 < Float64.pow2 e)%R.
Proof.
  unfold Float64.pow2. destruct (Z.leb_spec 0 e).
  - apply IZR_lt. apply Z.pow_pos_nonneg; lia.
  - apply Rinv_0_lt_compat. apply IZR_lt. apply Z.pow_pos_nonneg; lia.
Qed.

Lemma pow2_nonneg_exp (e : Z) : 0 <= e -> Float64.pow2 e = IZR (2 ^ e).
Proof.
  intros H. unfold Float64.pow2.
  destruct (Z.leb_spec 0 e); [reflexivity | lia].
Qed.

Lemma pow2_neg_exp (e : Z) : e < 0 -> Float64.pow2 e = (/ IZR (2 ^ (- e)))%R.
Proof.
  intros H. unfold Float64.pow2.
  destruct (Z.leb_spec 0 e); [lia | reflexivity].
Qed.

Lemma pow2_opp (e : Z) : (Float64.pow2 e * Float64.pow2 (- e) = 1)%R.
Proof.
  assert (Hnz : forall k, 0 <= k -> IZR (2 ^ k) <> 0%R).
  { intros k Hk. apply not_0_IZR.
    pose proof (Z.pow_pos_nonneg 2 k ltac:(lia) Hk). lia. }
  destruct (Z.lt_trichotomy e 0) as [H|[->|H]].
  - rewrite (pow2_neg_exp e H), (pow2_nonneg_exp (- e)) by lia.
    apply Rinv_l. apply Hnz. lia.
  - change (- 0) with 0. rewrite pow2_nonneg_exp by lia.
    rewrite Z.pow_0_r. lra.
  - rewrite (pow2_nonneg_exp e) by lia. rewrite (pow2_neg_exp (- e)) by lia.
    replace (- - e) with e by lia. apply Rinv_r. apply Hnz. lia.
Qed.

(** [math.ceil] is the ceiling: the result [k] is the integer with
    [k - 1 < x <= k]. *)
Lemma ceil_is_ceiling (x : Float64.float) (k : Z) :
  Float64.ceil x = Ok k ->
  (IZR k - 1 < Float64.to_R x <= IZR k)%R.
Proof.
  destruct x as [s|s| |s m e]; simpl; intros H; try discriminate.
  - injection H as <-. lra.
  - set (n := if s then Z.neg m else Z.pos m) in *.
    destruct (Z.leb_spec 0 e) as [He|He].
    + injection H as <-. rewrite pow2_nonneg_exp by exact He.
      rewrite mult_IZR. lra.
    + injection H as <-. rewrite pow2_neg_exp by exact He.
      set (D := 2 ^ (- e)).
      assert (HD : 0 < D) by (apply Z.pow_pos_nonneg; lia).
      pose proof (Z.div_mod (- n) D ltac:(lia)) as Hdiv.
      pose proof (Z.mod_pos_bound (- n) D HD) as Hmod.
      set (q := (- n) / D) in *.
      assert (Hlo : D * (- q - 1) < n) by lia.
      assert (Hhi : n <= D * (- q)) by lia.
      assert (HDR : (0 < IZR D)%R) by (apply IZR_lt; exact HD).
      apply IZR_lt in Hlo. apply IZR_le in Hhi.
      rewrite mult_IZR in Hlo, Hhi. rewrite minus_IZR in Hlo.
      split.
      * apply Rmult_lt_reg_r with (r := IZR D); [exact HDR|].
        rewrite Rmult_assoc, Rinv_l by lra. lra.
      * apply Rmult_le_reg_r with (r := IZR D); [exact HDR|].
        rewrite Rmult_assoc, Rinv_l by lra. lra.
Qed.

Lemma digits2_pos_iter_xO (c k : positive) :
  Z.pos (digits2_pos (Pos.iter xO c k)) = Z.pos (digits2_pos c) + Z.pos k.
Proof.
  induction k as [|k IH] using Pos.peano_ind.
  - change (Pos.iter xO c 1) with (c~0)%positive. simpl. lia.
  - rewrite Pos.iter_succ. simpl digits2_pos. lia.
Qed.

(** A mantissa that already has the exponent the format gives its
    magnitude is not rounded. *)
Lemma binary_round_aux_canonical (prec emax : Z) (s : bool) (mz : positive)
  (ez : Z) :
  fexp prec emax (Z.pos (digits2_pos mz) + ez) = ez ->
  binary_round_aux prec emax s (Z.pos mz) ez loc_Exact
  = if ez <=? emax - prec then S754_finite s mz ez else S754_infinity s.
Proof.
  intros Hcan. unfold binary_round_aux, shr_fexp.
  cbn [Zdigits2 shr_record_of_loc]. rewrite Hcan, Z.sub_diag.
  cbn [shr shr_m loc_of_shr_record round_nearest_even Zdigits2
       shr_record_of_loc].
  rewrite Hcan, Z.sub_diag. reflexivity.
Qed.

(** [float(C)] is exact for an [int] below [2 ^ 53]. *)
Lemma of_int_exact (C : Z) :
  0 < C < 2 ^ 53 ->
  exists c, Float64.of_int C = Ok c /\ Float64.to_R c = IZR C.
Proof.
  intros [Hpos Hlt]. destruct C as [|c|c]; try lia.
  assert (Hd : 1 <= Z.pos (digits2_pos c) <= 53).
  { split; [lia|]. apply (Zdigits2_le (Z.pos c) 53); lia. }
  unfold Float64.of_int, binary_normalize, binary_round.
  rewrite Z.add_0_r.
  assert (Hf : fexp Float64.prec Float64.emax (Z.pos (digits2_pos c))
               = Z.pos (digits2_pos c) - 53).
  { rewrite fexp64_eq. lia. }
  rewrite Hf. unfold shl_align.
  destruct (Z.pos (digits2_pos c) - 53 - 0) as [|k|k] eqn:Hk; try lia.
  - rewrite binary_round_aux_canonical by (rewrite Z.add_0_r, Hf; lia).
    change (0 <=? Float64.emax - Float64.prec) with true.
    cbn [andb]. eexists. split; [reflexivity|].
    simpl. rewrite pow2_nonneg_exp by lia. rewrite Z.pow_0_r. lra.
  - assert (Hez : Z.pos (digits2_pos c) - 53 = - Z.pos k) by lia.
    rewrite binary_round_aux_canonical.
    + destruct (Z.leb_spec (Z.pos (digits2_pos c) - 53)
                  (Float64.emax - Float64.prec)) as [_|Hbad].
      * eexists. split; [reflexivity|].
        cbn [Float64.to_R]. rewrite iter_xO_pow2, Hez.
        rewrite pow2_neg_exp by lia. rewrite mult_IZR.
        replace (- - Z.pos k) with (Z.pos k) by lia.
        field. apply not_0_IZR.
        pose proof (Z.pow_pos_nonneg 2 (Z.pos k) ltac:(lia) ltac:(lia)). lia.
      * change (Float64.emax - Float64.prec) with 971 in Hbad. lia.
    + rewrite digits2_pos_iter_xO, fexp64_eq. lia.
Qed.

(** ** Python floats: how far a float product is from the exact one *)

Lemma Zdigits2_lower (m : Z) : 0 < m -> 2 ^ (Zdigits2 m - 1) <= m.
Proof.
  intros Hm. destruct m as [|p|p]; try lia.
  simpl Zdigits2. rewrite digits2_pos_size.
  pose proof (Pos.size_le p) as H.
  apply Pos2Z.pos_le_pos in H. rewrite Pos2Z.inj_pow in H.
  change (Z.pos p~0) with (2 * Z.pos p) in H.
  replace (Z.pos (Pos.size p)) with (1 + (Z.pos (Pos.size p) - 1)) in H
    by lia.
  rewrite Z.pow_add_r in H by lia. change (2 ^ 1) with 2 in H. lia.
Qed.

Lemma shr_m_of_loc (m : Z) (l : location) :
  shr_m (shr_record_of_loc m l) = m.
Proof. destruct l as [|[| |]]; reflexivity. Qed.

Lemma pow2_powerRZ (e : Z) : Float64.pow2 e = powerRZ 2 e.
Proof.
  unfold Float64.pow2, powerRZ. destruct e as [|q|q].
  - reflexivity.
  - change (0 <=? Z.pos q) with true. cbv iota.
    rewrite <- (positive_nat_Z q) at 1. rewrite <- pow_IZR. reflexivity.
  - change (0 <=? Z.neg q) with false. cbv iota.
    change (- Z.neg q) with (Z.pos q).
    rewrite <- (positive_nat_Z q) at 1. rewrite <- pow_IZR. reflexivity.
Qed.

Lemma pow2_add (a b : Z) :
  Float64.pow2 (a + b) = (Float64.pow2 a * Float64.pow2 b)%R.
Proof. rewrite !pow2_powerRZ. apply powerRZ_add. lra. Qed.

Lemma shr_nonpos (mrs : shr_record) (e n : Z) :
  n <= 0 -> shr mrs e n = (mrs, e).
Proof. intros Hn. destruct n; [reflexivity | lia | reflexivity]. Qed.

(** A mantissa with no more digits than the format holds at its exponent
    is kept as it is. *)
Lemma binary_round_aux_noshift (M : positive) (e : Z) :
  Z.max (Zdigits2 (Z.pos M) + e - 53) (-1074) <= e ->
  binary_round_aux Float64.prec Float64.emax false (Z.pos M) e loc_Exact
  = if e <=? Float64.emax - Float64.prec
    then S754_finite false M e else S754_infinity false.
Proof.
  intros H. unfold binary_round_aux, shr_fexp.
  rewrite fexp64_eq, shr_nonpos by lia.
  cbn [shr_record_of_loc shr_m loc_of_shr_record round_nearest_even].
  rewrite fexp64_eq, shr_nonpos by lia.
  reflexivity.
Qed.

(** Rounding the mantissa [M] at exponent [e]: unless it overflows, the
    result stands for [r1 * 2 ^ e'], where [e'] is the exponent the
    format gives the magnitude and [r1] is [M] shifted to it, or that
    plus one. *)
Lemma binary_round_aux_value (M : positive) (e : Z) :
  exists r1 e',
    e <= e' /\ -1074 <= e'
    /\ Z.pos M / 2 ^ (e' - e) <= r1 <= Z.pos M / 2 ^ (e' - e) + 1
    /\ (e' = e -> r1 = Z.pos M)
    /\ (e < e' -> e' = -1074 \/ 2 ^ 52 <= Z.pos M / 2 ^ (e' - e))
    /\ (binary_round_aux Float64.prec Float64.emax false (Z.pos M) e
          loc_Exact = S754_infinity false
        \/ Float64.to_R
             (binary_round_aux Float64.prec Float64.emax false (Z.pos M) e
                loc_Exact)
           = (IZR r1 * Float64.pow2 e')%R).
Proof.
  set (d := Zdigits2 (Z.pos M)).
  pose proof (Zdigits2_gt (Z.pos M) ltac:(lia)) as Hd_hi. fold d in Hd_hi.
  pose proof (Zdigits2_lower (Z.pos M) ltac:(lia)) as Hd_lo. fold d in Hd_lo.
  assert (Hd1 : 1 <= d) by (subst d; simpl; lia).
  destruct (Z.le_gt_cases (Z.max (d + e - 53) (-1074)) e) as [Hexact|Hshift].
  - (* no shift: the mantissa is kept *)
    rewrite binary_round_aux_noshift by exact Hexact.
    exists (Z.pos M), e.
    split; [lia|]. split; [lia|].
    split; [rewrite Z.sub_diag, Z.pow_0_r, Z.div_1_r; lia|].
    split; [reflexivity|]. split; [lia|].
    destruct (e <=? Float64.emax - Float64.prec);
      [right; reflexivity | left; reflexivity].
  - (* the mantissa is shifted right *)
    unfold binary_round_aux.
    destruct (shr_fexp_exact (Z.pos M) e ltac:(lia))
      as [mrs' [e' [H1 [He' Hm']]]].
    rewrite H1. rewrite fexp64_eq in He'. fold d in He'.
    assert (He'e : e' = Z.max (d + e - 53) (-1074)) by lia.
    assert (HD : 0 < 2 ^ (e' - e)) by (apply Z.pow_pos_nonneg; lia).
    set (m1 := Z.pos M / 2 ^ (e' - e)) in *.
    assert (Hm1_0 : 0 <= m1) by (apply Z.div_pos; lia).
    assert (Hm1_hi : m1 < 2 ^ 53).
    { pose proof (div_pow2_lt (Z.pos M) (d + e) e e' ltac:(lia) ltac:(lia)) as H.
      replace (d + e - e) with d in H by lia. specialize (H Hd_hi).
      fold m1 in H.
      apply Z.lt_le_trans with (2 ^ Z.max (d + e - e') 0); [exact H|].
      apply Z.pow_le_mono_r; lia. }
    pose proof (round_nearest_even_bounds (shr_m mrs')
                  (loc_of_shr_record mrs')) as Hround.
    set (r1 := round_nearest_even (shr_m mrs') (loc_of_shr_record mrs')) in *.
    rewrite Hm' in Hround.
    exists r1, e'.
    split; [lia|]. split; [lia|]. split; [exact Hround|].
    split; [lia|]. split.
    { intros _. destruct (Z.le_gt_cases (d + e - 53) (-1074)) as [Hs|Hn];
        [left; lia | right].
      assert (He'd : e' - e = d - 53) by lia.
      unfold m1. rewrite He'd.
      apply Z.div_le_lower_bound; [apply Z.pow_pos_nonneg; lia|].
      rewrite <- Z.pow_add_r by lia.
      replace (d - 53 + 52) with (d - 1) by lia. exact Hd_lo. }
    assert (Hr1 : 0 <= r1 <= 2 ^ 53) by lia.
    destruct (Z.eq_dec r1 (2 ^ 53)) as [Hcarry|Hnocarry].
    + (* the rounding carried into a further digit *)
      rewrite Hcarry. unfold shr_fexp. rewrite fexp64_eq.
      change (Zdigits2 (2 ^ 53)) with 54.
      unfold shr.
      destruct (Z.max (54 + e' - 53) (-1074) - e') as [|q|q] eqn:Hn;
        try lia.
      assert (Hq : q = 1%positive) by lia. subst q.
      cbn [shr_record_of_loc iter_pos].
      change (shr_1 {| shr_m := 2 ^ 53; shr_r := false; shr_s := false |})
        with {| shr_m := 2 ^ 52; shr_r := false; shr_s := false |}.
      cbn [shr_m]. change (2 ^ 52) with 4503599627370496.
      destruct (e' + 1 <=? Float64.emax - Float64.prec);
        [right | left; reflexivity].
      cbn [Float64.to_R]. rewrite pow2_add.
      change (Float64.pow2 1) with (IZR (2 ^ 1)).
      change (2 ^ 1) with 2. change (2 ^ 53) with 9007199254740992. lra.
    + assert (Hr1lt : r1 < 2 ^ 53) by lia.
      assert (Hdig : Zdigits2 r1 <= 53) by (apply Zdigits2_le; lia).
      unfold shr_fexp. rewrite fexp64_eq. unfold shr.
      destruct (Z.max (Zdigits2 r1 + e' - 53) (-1074) - e') as [|q|q] eqn:Hn;
        try lia;
        rewrite shr_m_of_loc;
        (destruct r1 as [|q1|q1];
         [right; simpl; lra | | lia]);
        (destruct (e' <=? Float64.emax - Float64.prec);
         [right; reflexivity | left; reflexivity]).
Qed.

(** The float product of two positive floats is within one unit in the
    last place of their exact product: a relative error of at most
    [2 ^ -52], or an absolute error of at most [2 ^ -1074] where the
    product is subnormal. *)
Lemma mul_error (mp mc : positive) (ep ec : Z) :
  let p := S754_finite false mp ep in
  let c := S754_finite false mc ec in
  Float64.mul p c = S754_infinity false
  \/ (Rabs (Float64.to_R (Float64.mul p c)
            - Float64.to_R p * Float64.to_R c)
      <= Rmax (Float64.pow2 (-52) * (Float64.to_R p * Float64.to_R c))
              (Float64.pow2 (-1074)))%R.
Proof.
  intros p c. unfold Float64.mul, SFmul, p, c. cbn [xorb].
  destruct (binary_round_aux_value (mp * mc) (ep + ec))
    as [r1 [e' [Hee' [He'min [Hr1 [Hsame [Hnorm [Hinf|Hval]]]]]]]];
    [left; exact Hinf | right].
  rewrite Hval. cbn [Float64.to_R].
  set (e := ep + ec) in *. set (M := Z.pos (mp * mc)) in *.
  set (D := 2 ^ (e' - e)) in *.
  assert (HD : 0 < D) by (apply Z.pow_pos_nonneg; lia).
  assert (HP : (0 < Float64.pow2 e)%R) by apply pow2_pos.
  assert (Hx : (IZR (Z.pos mp) * Float64.pow2 ep
                * (IZR (Z.pos mc) * Float64.pow2 ec)
                = IZR M * Float64.pow2 e)%R).
  { unfold M, e. rewrite Pos2Z.inj_mul, mult_IZR, pow2_add. ring. }
  rewrite Hx.
  assert (Hr : (IZR r1 * Float64.pow2 e'
                = IZR r1 * IZR D * Float64.pow2 e)%R).
  { replace e' with ((e' - e) + e) at 1 by lia.
    rewrite pow2_add, pow2_nonneg_exp by lia. fold D. ring. }
  rewrite Hr.
  assert (HM : 0 < M) by (unfold M; lia).
  pose proof (Z.mul_div_le M D HD) as Hlo.
  pose proof (Z.mul_succ_div_gt M D HD) as Hhi.
  assert (Hdelta : - D <= r1 * D - M <= D) by nia.
  assert (HdeltaR : (- IZR D <= IZR r1 * IZR D - IZR M <= IZR D)%R).
  { rewrite <- mult_IZR, <- minus_IZR, <- opp_IZR.
    split; apply IZR_le; lia. }
  assert (HDR : (0 < IZR D)%R) by (apply IZR_lt; exact HD).
  destruct (Z.eq_dec e' e) as [Heq|Hne].
  - (* exact *)
    assert (HD1 : D = 1) by (unfold D; rewrite Heq, Z.sub_diag; reflexivity).
    rewrite (Hsame Heq), HD1. fold M.
    replace (IZR M * 1 * Float64.pow2 e - IZR M * Float64.pow2 e)%R
      with 0%R by ring.
    rewrite Rabs_R0.
    apply Rle_trans with (Float64.pow2 (-1074));
      [left; apply pow2_pos | apply Rmax_r].
  - assert (Hbound : (Rabs (IZR r1 * IZR D * Float64.pow2 e
                            - IZR M * Float64.pow2 e)
                      <= IZR D * Float64.pow2 e)%R).
    { apply Rabs_le. split; nra. }
    apply Rle_trans with (IZR D * Float64.pow2 e)%R; [exact Hbound|].
    destruct (Hnorm ltac:(lia)) as [Hsub|Hbig].
    + (* subnormal *)
      apply Rle_trans with (Float64.pow2 (-1074)); [|apply Rmax_r].
      right. unfold D. rewrite <- pow2_nonneg_exp by lia.
      rewrite <- pow2_add. f_equal. lia.
    + (* normal *)
      apply Rle_trans with (Float64.pow2 (-52) * (IZR M * Float64.pow2 e))%R;
        [|apply Rmax_l].
      fold D in Hbig.
      assert (HMD : 2 ^ 52 * D <= M) by nia.
      apply IZR_le in HMD. rewrite mult_IZR in HMD.
      assert (H52 : (Float64.pow2 (-52) * IZR (2 ^ 52) = 1)%R).
      { rewrite <- (pow2_nonneg_exp 52) by lia.
        rewrite Rmult_comm. apply (pow2_opp 52). }
      assert (Hp52 : (0 < Float64.pow2 (-52))%R) by apply pow2_pos.
      assert (HD' : (IZR D = Float64.pow2 (-52) * (IZR (2 ^ 52) * IZR D))%R).
      { rewrite <- Rmult_assoc, H52. ring. }
      rewrite HD' at 1. rewrite !Rmult_assoc.
      apply Rmult_le_compat_l; [lra|].
      rewrite <- Rmult_assoc.
      apply Rmult_le_compat_r; [lra | exact HMD].
Qed.

Lemma product_error (p : Float64.float) (C k : Z) (c : Float64.float) :
  valid_binary Float64.prec Float64.emax p = true ->
  Float64.leb Float64.zero p = true ->
  Float64.leb p Float64.one = true ->
  0 < C < 2 ^ 1000 ->
  Float64.of_int C = Ok c ->
  Blueprint.ceil_mul p C = Ok k ->
  (Rabs (Float64.to_R (Float64.mul p c) - Float64.to_R p * Float64.to_R c)
   <= Rmax (Float64.pow2 (-52) * (Float64.to_R p * Float64.to_R c))
           (Float64.pow2 (-1074)))%R.
Proof.
  intros Hvalid H0 H1 HC Hc Hk.
  assert (Hsmall : forall x : R, x = 0%R ->
            (Rabs (x - 0) <= Rmax (Float64.pow2 (-52) * 0)
                                  (Float64.pow2 (-1074)))%R).
  { intros x ->. rewrite Rminus_0_r, Rabs_R0.
    apply Rle_trans with (Float64.pow2 (-1074));
      [left; apply pow2_pos | apply Rmax_r]. }
  unfold Blueprint.ceil_mul, Float64.mul_int in Hk.
  rewrite Hc in Hk. cbn [Py.bind] in Hk.
  destruct (of_int_finite C HC) as [my [ey [[Hy _]|Hy]]];
    rewrite Hc in Hy; injection Hy as ->;
    destruct (ratio_cases p Hvalid H0 H1)
      as [[s ->]|[mp [ep [-> _]]]].
  - cbn [Float64.to_R]. rewrite Rmult_0_l. apply Hsmall. reflexivity.
  - destruct (mul_error mp my ep ey) as [Hinf|Hb]; [|exact Hb].
    cbv zeta in Hinf. rewrite Hinf in Hk. discriminate.
  - cbn [Float64.to_R]. rewrite Rmult_0_l. apply Hsmall. reflexivity.
  - cbn [Float64.to_R]. rewrite Rmult_0_r. apply Hsmall. reflexivity.
Qed.

(** ** The blueprint convolutions: mid-channel count *)

Lemma Ok_inj {A} (x y : A) : Ok x = Ok y -> x = y.
Proof. intros H. injection H as ->. reflexivity. Qed.

Ltac step_binds :=
  repeat match goal with
         | H : Py.bind ?m _ = Ok _ |- _ =>
             let E := fresh "E" in
             destruct m eqn:E; cbn [Py.bind] in H; [|discriminate H]
         | H : Ok _ = Ok _ |- _ => apply Ok_inj in H; subst
         end.

Lemma Subspace_init_inv (fw : Blueprint.framework) (a : Blueprint.conv_args)
  (act : option Blueprint.act_factory)
  (l : Blueprint.SubspaceBlueprintSeparableConv2d.t) :
  Blueprint.SubspaceBlueprintSeparableConv2d.init fw a act = Ok l ->
  exists k,
    Blueprint.ceil_mul (Blueprint.arg_p a) (Blueprint.arg_in_channels a) = Ok k
    /\ Blueprint.out_channels
         (Blueprint.SubspaceBlueprintSeparableConv2d.pw_conv1 l)
       = Blueprint.mid_channels_formula (Blueprint.arg_in_channels a)
           (Blueprint.arg_min_mid_channels a) k
    /\ Blueprint.in_channels
         (Blueprint.SubspaceBlueprintSeparableConv2d.pw_conv2 l)
       = Blueprint.mid_channels_formula (Blueprint.arg_in_channels a)
           (Blueprint.arg_min_mid_channels a) k.
Proof.
  unfold Blueprint.SubspaceBlueprintSeparableConv2d.init,
    Blueprint.pointwise_conv, Blueprint.depthwise_conv, Blueprint.Conv2d_init.
  intros H. step_binds.
  eexists. split; [reflexivity|]. split; reflexivity.
Qed.

Lemma AttentionSubspace_init_inv (fw : Blueprint.framework)
  (a : Blueprint.conv_args) (act1 act2 : option Blueprint.act_factory)
  (l : Blueprint.AttentionSubspaceBlueprintSeparableConv2d.t) :
  Blueprint.AttentionSubspaceBlueprintSeparableConv2d.init fw a act1 act2
  = Ok l ->
  Float64.leb Float64.zero (Blueprint.arg_p a)
  && Float64.leb (Blueprint.arg_p a) Float64.one = true
  /\ exists k,
       Blueprint.ceil_mul (Blueprint.arg_p a) (Blueprint.arg_in_channels a)
       = Ok k
       /\ Blueprint.out_channels
            (Blueprint.AttentionSubspaceBlueprintSeparableConv2d.pw_conv1 l)
          = Blueprint.mid_channels_formula (Blueprint.arg_in_channels a)
              (Blueprint.arg_min_mid_channels a) k
       /\ Blueprint.in_channels
            (Blueprint.AttentionSubspaceBlueprintSeparableConv2d.pw_conv2 l)
          = Blueprint.mid_channels_formula (Blueprint.arg_in_channels a)
              (Blueprint.arg_min_mid_channels a) k.
Proof.
  unfold Blueprint.AttentionSubspaceBlueprintSeparableConv2d.init,
    Blueprint.pointwise_conv, Blueprint.depthwise_conv, Blueprint.Conv2d_init,
    Py.assert.
  destruct (Float64.leb Float64.zero (Blueprint.arg_p a)
            && Float64.leb (Blueprint.arg_p a) Float64.one);
    cbn [Py.bind]; [|discriminate].
  intros H. step_binds. split; [reflexivity|].
  eexists. split; [reflexivity|]. split; reflexivity.
Qed.

(** The framework refuses no [base.Conv2d]. *)
Lemma pointwise_conv_ok (fw : Blueprint.framework) (cin cout : Z) :
  (forall i o ks st pad dil g b pm,
     Py.is_ok (Blueprint.new_weight fw i o ks st pad dil g b pm) = true) ->
  exists c, Blueprint.pointwise_conv fw cin cout = Ok c
            /\ Blueprint.in_channels c = cin
            /\ Blueprint.out_channels c = cout.
Proof.
  intros Hw. unfold Blueprint.pointwise_conv, Blueprint.Conv2d_init.
  specialize (Hw cin cout (Blueprint.Size1 1) (Blueprint.Size1 1)
                (Blueprint.PadSize (Blueprint.Size1 0)) (Blueprint.Size1 1)
                1 false "zeros").
  destruct (Blueprint.new_weight fw _ _ _ _ _ _ _ _ _); [|discriminate].
  eexists. split; [reflexivity|]. split; reflexivity.
Qed.

Lemma depthwise_conv_ok (fw : Blueprint.framework) (a : Blueprint.conv_args) :
  (forall i o ks st pad dil g b pm,
     Py.is_ok (Blueprint.new_weight fw i o ks st pad dil g b pm) = true) ->
  exists c, Blueprint.depthwise_conv fw a = Ok c.
Proof.
  intros Hw. unfold Blueprint.depthwise_conv, Blueprint.Conv2d_init.
  match goal with
  | |- context [Blueprint.new_weight fw ?i ?o ?ks ?st ?pad ?dil ?g ?b ?pm] =>
      specialize (Hw i o ks st pad dil g b pm)
  end.
  destruct (Blueprint.new_weight fw _ _ _ _ _ _ _ _ _); [|discriminate].
  eexists. reflexivity.
Qed.

Lemma is_ok_inv {A} (m : result A) : Py.is_ok m = true -> exists x, m = Ok x.
Proof. destruct m; [eauto | discriminate]. Qed.

Lemma Subspace_init_builds (fw : Blueprint.framework)
  (a : Blueprint.conv_args) (act : option Blueprint.act_factory) (k : Z) :
  Blueprint.ceil_mul (Blueprint.arg_p a) (Blueprint.arg_in_channels a) = Ok k ->
  (forall i o ks st pad dil g b pm,
     Py.is_ok (Blueprint.new_weight fw i o ks st pad dil g b pm) = true) ->
  (forall n, Py.is_ok (Blueprint.to_act_layer fw act n) = true) ->
  exists l, Blueprint.SubspaceBlueprintSeparableConv2d.init fw a act = Ok l.
Proof.
  intros Hk Hw Hact.
  unfold Blueprint.SubspaceBlueprintSeparableConv2d.init. rewrite Hk.
  cbn [Py.bind].
  destruct (pointwise_conv_ok fw (Blueprint.arg_in_channels a)
              (Z.min (Blueprint.arg_in_channels a)
                 (Z.max (Blueprint.arg_min_mid_channels a) k)) Hw)
    as [c1 [-> _]]. cbn [Py.bind].
  destruct (is_ok_inv _ (Hact (Z.min (Blueprint.arg_in_channels a)
                                 (Z.max (Blueprint.arg_min_mid_channels a) k))))
    as [a1 ->]. cbn [Py.bind].
  destruct (pointwise_conv_ok fw
              (Z.min (Blueprint.arg_in_channels a)
                 (Z.max (Blueprint.arg_min_mid_channels a) k))
              (Blueprint.arg_out_channels a) Hw) as [c2 [-> _]].
  cbn [Py.bind].
  destruct (is_ok_inv _ (Hact (Blueprint.arg_out_channels a))) as [a2 ->].
  cbn [Py.bind].
  destruct (depthwise_conv_ok fw a Hw) as [dw ->]. cbn [Py.bind].
  eexists. reflexivity.
Qed.

Lemma AttentionSubspace_init_builds (fw : Blueprint.framework)
  (a : Blueprint.conv_args) (act1 act2 : option Blueprint.act_factory)
  (k : Z) :
  Float64.leb Float64.zero (Blueprint.arg_p a) = true ->
  Float64.leb (Blueprint.arg_p a) Float64.one = true ->
  Blueprint.ceil_mul (Blueprint.arg_p a) (Blueprint.arg_in_channels a) = Ok k ->
  (forall i o ks st pad dil g b pm,
     Py.is_ok (Blueprint.new_weight fw i o ks st pad dil g b pm) = true) ->
  (forall n, Py.is_ok (Blueprint.call_opt act1 n) = true) ->
  (forall n, Py.is_ok (Blueprint.call_opt act2 n) = true) ->
  exists l,
    Blueprint.AttentionSubspaceBlueprintSeparableConv2d.init fw a act1 act2
    = Ok l.
Proof.
  intros H0 H1 Hk Hw Hact1 Hact2.
  unfold Blueprint.AttentionSubspaceBlueprintSeparableConv2d.init.
  rewrite H0, H1, Hk. cbn [andb Py.assert Py.bind].
  destruct (pointwise_conv_ok fw (Blueprint.arg_in_channels a)
              (Z.min (Blueprint.arg_in_channels a)
                 (Z.max (Blueprint.arg_min_mid_channels a) k)) Hw)
    as [c1 [-> _]]. cbn [Py.bind].
  destruct (is_ok_inv _ (Hact1 (Z.min (Blueprint.arg_in_channels a)
                                  (Z.max (Blueprint.arg_min_mid_channels a) k))))
    as [a1 ->]. cbn [Py.bind].
  destruct (pointwise_conv_ok fw
              (Z.min (Blueprint.arg_in_channels a)
                 (Z.max (Blueprint.arg_min_mid_channels a) k))
              (Blueprint.arg_out_channels a) Hw) as [c2 [-> _]].
  cbn [Py.bind].
  destruct (is_ok_inv _ (Hact2 (Blueprint.arg_out_channels a))) as [a2 ->].
  cbn [Py.bind].
  destruct (depthwise_conv_ok fw a Hw) as [dw ->]. cbn [Py.bind].
  eexists. reflexivity.
Qed.

(** The ceiling [math.ceil(p * C)] takes is that of the float product. *)
Lemma ceil_mul_is_ceiling (p : Float64.float) (C k : Z) (c : Float64.float) :
  Float64.of_int C = Ok c ->
  Blueprint.ceil_mul p C = Ok k ->
  (IZR k - 1 < Float64.to_R (Float64.mul p c) <= IZR k)%R.
Proof.
  intros Hc Hk. unfold Blueprint.ceil_mul, Float64.mul_int in Hk.
  rewrite Hc in Hk. cbn [Py.bind] in Hk.
  apply ceil_is_ceiling. exact Hk.
Qed.

(** C1 (as stated, refuted): with ten input channels, the ratio [0.1]
    and [min_mid_channels = 1] both constructors build a first projection
    of one channel, where the formula gives two: the double [0.1] is
    above one tenth, so the ceiling of [p * C] is 2, but the float product
    [0.1 * 10] rounds to [1.0]. Read on the decimal literal the formula
    fails as well: with a hundred channels at [0.55] it gives 55, and the
    constructors build 56 channels, the float product being above 55. *)
Lemma mid_channels_is_not_exact_ceil :
  (exists l l',
     Blueprint.SubspaceBlueprintSeparableConv2d.init Fixtures.toy_framework
       Fixtures.tenth_args None = Ok l
     /\ Blueprint.out_channels
          (Blueprint.SubspaceBlueprintSeparableConv2d.pw_conv1 l) = 1
     /\ Blueprint.AttentionSubspaceBlueprintSeparableConv2d.init
          Fixtures.toy_framework Fixtures.tenth_args None None = Ok l'
     /\ Blueprint.out_channels
          (Blueprint.AttentionSubspaceBlueprintSeparableConv2d.pw_conv1 l')
        = 1)
  /\ (forall k,
        (IZR k - 1 < Float64.to_R Fixtures.tenth * IZR 10 <= IZR k)%R ->
        Blueprint.mid_channels_formula 10 1 k = 2)
  /\ (exists l,
        Blueprint.SubspaceBlueprintSeparableConv2d.init Fixtures.toy_framework
          Fixtures.p55_args None = Ok l
        /\ Blueprint.out_channels
             (Blueprint.SubspaceBlueprintSeparableConv2d.pw_conv1 l) = 56)
  /\ (Rabs (Float64.to_R Fixtures.p55 - 55 / 100) < / IZR (2 ^ 54))%R
  /\ (forall k,
        (IZR k - 1 < 55 / 100 * IZR 100 <= IZR k)%R ->
        Blueprint.mid_channels_formula 100 4 k = 55).
Proof.
  split; [|split; [|split; [|split]]].
  - eexists _, _. split; [vm_compute; reflexivity|].
    split; [reflexivity|]. split; [vm_compute; reflexivity | reflexivity].
  - intros k [Hlo Hhi].
    assert (Hx : (1 < Float64.to_R Fixtures.tenth * IZR 10 <= 2)%R).
    { unfold Float64.to_R, Fixtures.tenth.
      rewrite pow2_neg_exp by lia.
      change (2 ^ (- -56)) with 72057594037927936. lra. }
    assert (Hk1 : 1 < k) by (apply lt_IZR; lra).
    assert (Hk2 : k < 3) by (apply lt_IZR; lra).
    replace k with 2 by lia. reflexivity.
  - eexists. split; [vm_compute; reflexivity | reflexivity].
  - unfold Float64.to_R, Fixtures.p55. rewrite pow2_neg_exp by lia.
    change (2 ^ (- -53)) with 9007199254740992.
    change (2 ^ 54) with 18014398509481984.
    apply Rabs_def1; lra.
  - intros k [Hlo Hhi].
    assert (Hk1 : 54 < k) by (apply lt_IZR; lra).
    assert (Hk2 : k < 56) by (apply lt_IZR; lra).
    replace k with 55 by lia. reflexivity.
Qed.

(** C1 (amended): with [0 < C < 2 ^ 1000] input channels and a ratio
    [0 <= p <= 1], [math.ceil(p * C)] is computed and is the ceiling [k]
    of the float product of [p] and [float(C)]: [k - 1 < p (x) float(C)
    <= k], where [float(C)] is [C] exactly for [C < 2 ^ 53] and the
    float product is the exact one up to a relative error of [2 ^ -52]
    (an absolute one of [2 ^ -1074] for a subnormal product). Every layer
    either constructor returns has [min(C, max(min_mid_channels, k))]
    output channels in its first pointwise projection, and both
    constructors return a layer when the framework builds the
    convolutions and activations they ask for. *)
Theorem mid_channels_is_min_max_float_ceil
  (fw : Blueprint.framework) (a : Blueprint.conv_args)
  (act act1 act2 : option Blueprint.act_factory) :
  let C := Blueprint.arg_in_channels a in
  let p := Blueprint.arg_p a in
  let mm := Blueprint.arg_min_mid_channels a in
  valid_binary Float64.prec Float64.emax p = true ->
  Float64.leb Float64.zero p = true ->
  Float64.leb p Float64.one = true ->
  0 < C < 2 ^ 1000 ->
  exists c k,
    Float64.of_int C = Ok c
    /\ (C < 2 ^ 53 -> Float64.to_R c = IZR C)
    /\ Blueprint.ceil_mul p C = Ok k
    /\ (IZR k - 1 < Float64.to_R (Float64.mul p c) <= IZR k)%R
    /\ (Rabs (Float64.to_R (Float64.mul p c)
              - Float64.to_R p * Float64.to_R c)
        <= Rmax (Float64.pow2 (-52) * (Float64.to_R p * Float64.to_R c))
                (Float64.pow2 (-1074)))%R
    /\ (forall l,
          Blueprint.SubspaceBlueprintSeparableConv2d.init fw a act = Ok l ->
          Blueprint.out_channels
            (Blueprint.SubspaceBlueprintSeparableConv2d.pw_conv1 l)
          = Blueprint.mid_channels_formula C mm k)
    /\ (forall l,
          Blueprint.AttentionSubspaceBlueprintSeparableConv2d.init
            fw a act1 act2 = Ok l ->
          Blueprint.out_channels
            (Blueprint.AttentionSubspaceBlueprintSeparableConv2d.pw_conv1 l)
          = Blueprint.mid_channels_formula C mm k)
    /\ ((forall i o ks st pad dil g b pm,
           Py.is_ok (Blueprint.new_weight fw i o ks st pad dil g b pm)
           = true) ->
        (forall n, Py.is_ok (Blueprint.to_act_layer fw act n) = true) ->
        (forall n, Py.is_ok (Blueprint.call_opt act1 n) = true) ->
        (forall n, Py.is_ok (Blueprint.call_opt act2 n) = true) ->
        exists l l',
          Blueprint.SubspaceBlueprintSeparableConv2d.init fw a act = Ok l
          /\ Blueprint.AttentionSubspaceBlueprintSeparableConv2d.init
               fw a act1 act2 = Ok l').
Proof.
  intros C p mm Hvalid H0 H1 HC.
  destruct (ceil_mul_total p C Hvalid H0 H1 HC) as [k Hk].
  assert (Hc : exists c, Float64.of_int C = Ok c).
  { unfold Blueprint.ceil_mul, Float64.mul_int in Hk.
    destruct (Float64.of_int C) as [c|e]; [eauto | discriminate]. }
  destruct Hc as [c Hc].
  exists c, k.
  split; [exact Hc|]. split.
  { intros Hsmall.
    destruct (of_int_exact C ltac:(lia)) as [c' [Hc' HcR]].
    rewrite Hc in Hc'. injection Hc' as <-. exact HcR. }
  split; [exact Hk|].
  split; [exact (ceil_mul_is_ceiling p C k c Hc Hk)|].
  split; [exact (product_error p C k c Hvalid H0 H1 HC Hc Hk)|].
  split; [|split].
  - intros l Hl.
    destruct (Subspace_init_inv fw a act l Hl) as [k' [Hk' [Hout _]]].
    fold C p in Hk'. rewrite Hk in Hk'. injection Hk' as <-. exact Hout.
  - intros l Hl.
    destruct (AttentionSubspace_init_inv fw a act1 act2 l Hl)
      as [_ [k' [Hk' [Hout _]]]].
    fold C p in Hk'. rewrite Hk in Hk'. injection Hk' as <-. exact Hout.
  - intros Hw Hact Hact1 Hact2.
    destruct (Subspace_init_builds fw a act k Hk Hw Hact) as [l Hl].
    destruct (AttentionSubspace_init_builds fw a act1 act2 k H0 H1 Hk Hw
                Hact1 Hact2) as [l' Hl'].
    exists l, l'. split; assumption.
Qed.

Lemma mid_channels_is_min_max_float_ceil_witness :
  exists l,
    Blueprint.SubspaceBlueprintSeparableConv2d.init Fixtures.toy_framework
      Fixtures.toy_args None = Ok l
    /\ Blueprint.out_channels
         (Blueprint.SubspaceBlueprintSeparableConv2d.pw_conv1 l)
       = Blueprint.mid_channels_formula 32 4 8.
Proof.
  destruct (mid_channels_is_min_max_float_ceil Fixtures.toy_framework
              Fixtures.toy_args None None None)
    as [c [k [Hc [HcR [Hk [Hceil [Herr [Hplain [Hattn Hbuild]]]]]]]]].
  - reflexivity.
  - reflexivity.
  - reflexivity.
  - simpl. lia.
  - destruct Hbuild as [l [l' [Hl Hl']]]; try (intros; reflexivity).
    exists l. split; [exact Hl|].
    rewrite (Hplain l Hl).
    assert (Hk8 : k = 8).
    { change (Blueprint.ceil_mul Fixtures.quarter 32 = Ok k) in Hk.
      vm_compute in Hk. injection Hk as <-. reflexivity. }
    rewrite Hk8. reflexivity.
Defined.

(** ** float32: sums of squares and their square root *)












(** ** The blueprint convolutions: regularization loss *)










(** * Further properties of the code *)

(** ** The forward variants of [blueprint.py] *)

Lemma bind_ret_fun {A B} (m : result A) (f : A -> result B) :
  (let* y := m in let* z := f y in Ok z) = (let* y := m in f y).
Proof. destruct m as [a|e]; simpl; [apply bind_ret | reflexivity]. Qed.



(** Variant 13 is the base class's forward pass under another name, and
    variant 4 (no attention step) is the forward pass of the plain subspace
    layer with the same convolutions and activations. *)
Theorem forward_variants_4_and_13
  (fw : Blueprint.framework)
  (self : Blueprint.AttentionSubspaceBlueprintSeparableConv2d.t)
  (x : Torch.tensor) :
  Blueprint.Variants.forward13 fw self x
  = Blueprint.AttentionSubspaceBlueprintSeparableConv2d.forward fw self x
  /\ forall plain : Blueprint.SubspaceBlueprintSeparableConv2d.t,
       Blueprint.SubspaceBlueprintSeparableConv2d.pw_conv1 plain
       = Blueprint.AttentionSubspaceBlueprintSeparableConv2d.pw_conv1 self ->
       Blueprint.SubspaceBlueprintSeparableConv2d.act1 plain
       = Blueprint.AttentionSubspaceBlueprintSeparableConv2d.act1 self ->
       Blueprint.SubspaceBlueprintSeparableConv2d.pw_conv2 plain
       = Blueprint.AttentionSubspaceBlueprintSeparableConv2d.pw_conv2 self ->
       Blueprint.SubspaceBlueprintSeparableConv2d.act2 plain
       = Blueprint.AttentionSubspaceBlueprintSeparableConv2d.act2 self ->
       Blueprint.SubspaceBlueprintSeparableConv2d.dw_conv plain
       = Blueprint.AttentionSubspaceBlueprintSeparableConv2d.dw_conv self ->
       Blueprint.SubspaceBlueprintSeparableConv2d.forward fw plain x
       = Blueprint.Variants.forward4 fw self x.
Proof.
  split; [reflexivity|].
  intros plain H1 H2 H3 H4 H5.
  unfold Blueprint.SubspaceBlueprintSeparableConv2d.forward,
    Blueprint.Variants.forward4.
  rewrite H1, H2, H3, H4, H5. reflexivity.
Qed.

Lemma forward_variants_4_and_13_witness :
  Blueprint.SubspaceBlueprintSeparableConv2d.forward Fixtures.toy_framework
    Fixtures.toy_plain_layer (Fixtures.feature_map 32)
  = Blueprint.Variants.forward4 Fixtures.toy_framework
      Fixtures.bare_toy_layer (Fixtures.feature_map 32).
Proof.
  apply (forward_variants_4_and_13 Fixtures.toy_framework
           Fixtures.bare_toy_layer (Fixtures.feature_map 32));
    reflexivity.
Defined.


(** ** The subspace constructors: range of the mid-channel count *)

Lemma binary_round_aux_not_negative (m e : Z) (l : location) :
  Float64.not_negative (binary_round_aux Float64.prec Float64.emax false m e l).
Proof.
  unfold binary_round_aux.
  destruct (shr_fexp Float64.prec Float64.emax m e l) as [mrs' e'].
  destruct (shr_fexp Float64.prec Float64.emax _ e' loc_Exact) as [mrs'' e''].
  destruct (shr_m mrs''); simpl; auto.
  destruct (e'' <=? Float64.emax - Float64.prec); simpl; auto.
Qed.

Lemma of_int_not_negative (C : Z) (y : Float64.float) :
  0 < C -> Float64.of_int C = Ok y -> Float64.not_negative y.
Proof.
  intros HC Hy. destruct C as [|c|c]; try lia.
  unfold Float64.of_int, binary_normalize, binary_round in Hy.
  destruct (shl_align c 0 _) as [mz ez].
  pose proof (binary_round_aux_not_negative (Z.pos mz) ez loc_Exact) as Hn.
  destruct (binary_round_aux Float64.prec Float64.emax false (Z.pos mz) ez
              loc_Exact); try discriminate; injection Hy as <-; exact Hn.
Qed.

Lemma ceil_not_negative (x : Float64.float) (k : Z) :
  Float64.not_negative x -> Float64.ceil x = Ok k -> 0 <= k.
Proof.
  intros Hx Hk. destruct x as [s|s| |s m e]; simpl in Hk; try discriminate.
  - injection Hk as <-. lia.
  - destruct s; [destruct Hx|].
    destruct (0 <=? e) eqn:He; injection Hk as <-.
    + apply Z.leb_le in He.
      assert (0 < 2 ^ e) by (apply Z.pow_pos_nonneg; lia). lia.
    + apply Z.leb_gt in He.
      assert (0 < 2 ^ (- e)) by (apply Z.pow_pos_nonneg; lia).
      assert (- Z.pos m / 2 ^ (- e) < 0)
        by (apply Z.div_lt_upper_bound; lia).
      lia.
Qed.

Lemma mul_not_negative (p y : Float64.float) :
  Float64.leb Float64.zero p = true -> Float64.not_negative y ->
  Float64.not_negative (Float64.mul p y).
Proof.
  intros Hp Hy.
  destruct p as [sp|sp| |sp mp ep]; try discriminate;
    destruct y as [sy|sy| |sy my ey]; simpl; auto.
  - destruct sp; [discriminate|]. destruct sy; [destruct Hy|].
    apply binary_round_aux_not_negative.
Qed.

Lemma ceil_mul_not_negative (p : Float64.float) (C k : Z) :
  0 < C -> Float64.leb Float64.zero p = true ->
  Blueprint.ceil_mul p C = Ok k -> 0 <= k.
Proof.
  intros HC Hp Hk. unfold Blueprint.ceil_mul, Float64.mul_int in Hk.
  destruct (Float64.of_int C) as [y|e] eqn:Hy; [|discriminate].
  simpl in Hk.
  apply (ceil_not_negative (Float64.mul p y)); [|exact Hk].
  apply mul_not_negative; [exact Hp|].
  apply (of_int_not_negative C); assumption.
Qed.

Lemma AttentionSubspace_init_checked (fw : Blueprint.framework)
  (a : Blueprint.conv_args) (act1 act2 : option Blueprint.act_factory)
  (l : Blueprint.AttentionSubspaceBlueprintSeparableConv2d.t) :
  Blueprint.AttentionSubspaceBlueprintSeparableConv2d.init fw a act1 act2
  = Ok l ->
  Float64.leb Float64.zero (Blueprint.arg_p a) = true
  /\ Float64.leb (Blueprint.arg_p a) Float64.one = true.
Proof.
  intros H.
  destruct (AttentionSubspace_init_inv fw a act1 act2 l H) as [Hp _].
  apply andb_prop in Hp. exact Hp.
Qed.

(** Whatever [min_mid_channels] is, the first projection of a constructed
    subspace layer has between 0 and [in_channels] output channels, at
    least [min(in_channels, min_mid_channels)] of them, and exactly
    [in_channels] (no reduction at all) as soon as
    [min_mid_channels >= in_channels]; the second projection takes as many
    input channels. The plain class needs [p >= 0] for this, the attention
    class has asserted it. *)
Theorem mid_channels_range
  (fw : Blueprint.framework) (a : Blueprint.conv_args)
  (act act1 act2 : option Blueprint.act_factory) :
  0 < Blueprint.arg_in_channels a ->
  let C := Blueprint.arg_in_channels a in
  let mm := Blueprint.arg_min_mid_channels a in
  (forall l,
     Float64.leb Float64.zero (Blueprint.arg_p a) = true ->
     Blueprint.SubspaceBlueprintSeparableConv2d.init fw a act = Ok l ->
     let mid := Blueprint.out_channels
                  (Blueprint.SubspaceBlueprintSeparableConv2d.pw_conv1 l) in
     0 <= mid <= C /\ Z.min C mm <= mid /\ (C <= mm -> mid = C)
     /\ Blueprint.in_channels
          (Blueprint.SubspaceBlueprintSeparableConv2d.pw_conv2 l) = mid)
  /\ (forall l,
        Blueprint.AttentionSubspaceBlueprintSeparableConv2d.init
          fw a act1 act2 = Ok l ->
        let mid :=
          Blueprint.out_channels
            (Blueprint.AttentionSubspaceBlueprintSeparableConv2d.pw_conv1 l) in
        0 <= mid <= C /\ Z.min C mm <= mid /\ (C <= mm -> mid = C)
        /\ Blueprint.in_channels
             (Blueprint.AttentionSubspaceBlueprintSeparableConv2d.pw_conv2 l)
           = mid).
Proof.
  intros HC C mm. split.
  - intros l Hp Hl mid.
    destruct (Subspace_init_inv fw a act l Hl) as [k [Hk [Hout Hin]]].
    pose proof (ceil_mul_not_negative _ _ _ HC Hp Hk) as Hk0.
    subst mid. rewrite Hin, Hout.
    unfold Blueprint.mid_channels_formula. fold C mm. lia.
  - intros l Hl mid.
    destruct (AttentionSubspace_init_checked fw a act1 act2 l Hl) as [H0 H1].
    destruct (AttentionSubspace_init_inv fw a act1 act2 l Hl)
      as [_ [k [Hk [Hout Hin]]]].
    pose proof (ceil_mul_not_negative _ _ _ HC H0 Hk) as Hk0.
    subst mid. rewrite Hin, Hout.
    unfold Blueprint.mid_channels_formula. fold C mm. lia.
Qed.

Lemma mid_channels_range_witness :
  exists l,
    Blueprint.SubspaceBlueprintSeparableConv2d.init Fixtures.toy_framework
      Fixtures.rgb_args None = Ok l
    /\ Blueprint.out_channels
         (Blueprint.SubspaceBlueprintSeparableConv2d.pw_conv1 l) = 3.
Proof.
  destruct (Subspace_init_builds Fixtures.toy_framework Fixtures.rgb_args
              None 1) as [l Hl];
    [vm_compute; reflexivity | intros; reflexivity | intros; reflexivity |].
  exists l. split; [exact Hl|].
  destruct (mid_channels_range Fixtures.toy_framework Fixtures.rgb_args
              None None None) as [Hplain _]; [simpl; lia|].
  destruct (Hplain l) as [_ [_ [Hfull _]]];
    [vm_compute; reflexivity | exact Hl |].
  apply Hfull. simpl. lia.
Defined.


(** ** The subspace constructors: the ratio check *)






(** ** [Sum]: which inputs are read, and the values computed *)

Lemma fold_left_ext_in {A B} (f g : A -> B -> A) (l : list B) (a : A) :
  (forall a x, In x l -> f a x = g a x) ->
  fold_left f l a = fold_left g l a.
Proof.
  revert a. induction l as [|x l IH]; intros a Hfg; simpl; [reflexivity|].
  rewrite Hfg by (left; reflexivity).
  apply IH. intros a' x' Hin. apply Hfg. right. exact Hin.
Qed.

Lemma fold_left_raise {A B} (f : A -> B -> result A) (l : list B) (e : exn) :
  fold_left (fun acc i => let* y := acc in f y i) l (Raise e) = Raise e.
Proof. induction l as [|x l IH]; [reflexivity | exact IH]. Qed.

Lemma getitem_app_l {A} (xs extra : list A) (i : Z) :
  0 <= i < Z.of_nat (List.length xs) ->
  getitem (xs ++ extra) i = getitem xs i.
Proof.
  intros Hi. unfold getitem. rewrite length_app, Nat2Z.inj_add.
  destruct (Z.ltb_spec i 0) as [Hneg|_]; [lia|].
  destruct (Z.leb_spec 0 i) as [_|Hneg]; [|lia].
  destruct (Z.ltb_spec i (Z.of_nat (List.length xs))) as [_|Hge]; [|lia].
  destruct (Z.ltb_spec i (Z.of_nat (List.length xs)
                          + Z.of_nat (List.length extra))) as [_|Hge]; [|lia].
  simpl. rewrite nth_error_app1 by lia. reflexivity.
Qed.

Lemma getitem_out_of_range {A} (xs : list A) (i : Z) :
  Z.of_nat (List.length xs) <= i ->
  getitem xs i = Raise (IndexError "list index out of range").
Proof.
  intros Hi. unfold getitem.
  destruct (Z.ltb_spec i 0) as [Hneg|_]; [lia|].
  destruct (Z.ltb_spec i (Z.of_nat (List.length xs))) as [Hlt|_]; [lia|].
  rewrite andb_false_r. reflexivity.
Qed.

Lemma range_split (n k : Z) :
  0 <= k < n ->
  Plugin.range n
  = (Plugin.range k ++ k :: map Z.of_nat (seq (S (Z.to_nat k))
                                              (Z.to_nat n - S (Z.to_nat k))))%list.
Proof.
  intros Hk. unfold Plugin.range.
  replace (Z.to_nat n)
    with (Z.to_nat k + S (Z.to_nat n - S (Z.to_nat k)))%nat by lia.
  rewrite seq_app, map_app. simpl.
  rewrite Z2Nat.id by lia.
  replace (Z.to_nat k + S (Z.to_nat n - S (Z.to_nat k))
           - S (Z.to_nat k))%nat
    with (Z.to_nat n - S (Z.to_nat k))%nat by lia.
  reflexivity.
Qed.

(** Inputs beyond the [n] that [Sum] was built for are never read: the
    result is the one of the first inputs alone. *)
Theorem Sum_forward_ignores_extra_inputs
  (self : Plugin.Sum) (xs extra : list Torch.tensor) :
  xs <> [] ->
  Forall (fun i => 0 <= i /\ i + 1 < Z.of_nat (List.length xs))
         (Plugin.iter self) ->
  Plugin.Sum_forward self (xs ++ extra) = Plugin.Sum_forward self xs.
Proof.
  intros Hne Hiter. rewrite Forall_forall in Hiter.
  unfold Plugin.Sum_forward.
  rewrite (getitem_app_l xs extra 0)
    by (destruct xs; [congruence | simpl; lia]).
  destruct (getitem xs 0) as [y0|e]; [|reflexivity].
  cbn [Py.bind].
  destruct (Plugin.weight self).
  - destruct (Plugin.w self) as [wt|]; [|reflexivity]. cbn [Py.bind].
    apply fold_left_ext_in. intros acc i Hi.
    destruct acc as [y|e]; [|reflexivity]. cbn [Py.bind].
    rewrite getitem_app_l by (specialize (Hiter i Hi); lia).
    reflexivity.
  - apply fold_left_ext_in. intros acc i Hi.
    destruct acc as [y|e]; [|reflexivity]. cbn [Py.bind].
    rewrite getitem_app_l by (specialize (Hiter i Hi); lia).
    reflexivity.
Qed.

Lemma Sum_forward_ignores_extra_inputs_witness :
  Plugin.Sum_forward (Plugin.Sum_init 2 false)
    ([Fixtures.feature_map 3; Fixtures.feature_map 3]
     ++ [Fixtures.feature_map 5])
  = Plugin.Sum_forward (Plugin.Sum_init 2 false)
      [Fixtures.feature_map 3; Fixtures.feature_map 3].
Proof.
  apply Sum_forward_ignores_extra_inputs.
  - discriminate.
  - simpl. repeat constructor; simpl; lia.
Defined.


Lemma In_indices_bounds (s idx : list nat) :
  In idx (Torch.indices s) -> Forall2 (fun i n => (i < n)%nat) idx s.
Proof.
  revert idx. induction s as [|n s IH]; intros idx Hin; simpl in Hin.
  - destruct Hin as [<-|[]]. constructor.
  - apply in_flat_map in Hin. destruct Hin as [i [Hi Hin]].
    apply in_seq in Hi. apply in_map_iff in Hin.
    destruct Hin as [rest [<- Hrest]].
    constructor; [lia | apply IH; exact Hrest].
Qed.

Lemma expand_index_in_range (s idx : list nat) :
  In idx (Torch.indices s) -> Torch.expand_index s idx = idx.
Proof.
  intros Hin. apply In_indices_bounds in Hin.
  unfold Torch.expand_index.
  replace (List.length idx - List.length s)%nat with O
    by (apply Forall2_length in Hin; lia).
  rewrite skipn_O.
  induction Hin as [|i n idx s Hlt _ IH]; [reflexivity|].
  simpl. rewrite IH.
  destruct (Nat.eqb_spec n 1) as [->|_]; [|reflexivity].
  replace i with O by lia. reflexivity.
Qed.

Lemma expand_index_scalar (idx : list nat) : Torch.expand_index [] idx = [].
Proof. reflexivity. Qed.

Lemma sum_list_snoc (l : list R) (x : R) :
  Torch.sum_list (l ++ [x]) = (Torch.sum_list l + x)%R.
Proof. induction l as [|y l IH]; simpl; [lra | rewrite IH; lra]. Qed.

Lemma firstn_snoc {A} (l : list A) (m : nat) (x : A) :
  nth_error l m = Some x -> firstn (S m) l = (firstn m l ++ [x])%list.
Proof.
  revert m. induction l as [|y l IH]; intros m Hm.
  - destruct m; discriminate.
  - destruct m as [|m]; simpl in *.
    + injection Hm as ->. reflexivity.
    + f_equal. apply IH. exact Hm.
Qed.

Lemma range_succ (m : nat) :
  Plugin.range (Z.of_nat (S m))
  = (Plugin.range (Z.of_nat m) ++ [Z.of_nat m])%list.
Proof.
  unfold Plugin.range. rewrite !Nat2Z.id, seq_S, map_app. reflexivity.
Qed.

Lemma getitem_tail {A} (x0 : A) (rest : list A) (m : nat) (x : A) :
  nth_error rest m = Some x ->
  getitem (x0 :: rest) (Z.of_nat m + 1) = Ok x.
Proof.
  intros Hm. unfold getitem.
  assert (m < List.length rest)%nat by (apply nth_error_Some; congruence).
  destruct (Z.ltb_spec (Z.of_nat m + 1) 0) as [Hneg|_]; [lia|].
  destruct (Z.leb_spec 0 (Z.of_nat m + 1)) as [_|Hneg]; [|lia].
  destruct (Z.ltb_spec (Z.of_nat m + 1)
              (Z.of_nat (List.length (x0 :: rest)))) as [_|Hge];
    [|simpl in Hge; lia].
  simpl. replace (Z.to_nat (Z.of_nat m + 1)) with (S m) by lia.
  simpl. rewrite Hm. reflexivity.
Qed.

Lemma add_values (a b : Torch.tensor) (s : list nat) :
  Torch.shape a = s -> Torch.shape b = s ->
  exists y,
    Torch.add a b = Ok y /\ Torch.shape y = s
    /\ forall idx, In idx (Torch.indices s) ->
         Torch.data y idx = (Torch.data a idx + Torch.data b idx)%R.
Proof.
  intros Ha Hb. unfold Torch.add, Torch.pointwise.
  rewrite Ha, Hb, broadcast_shapes_same. cbn [Py.bind].
  eexists. split; [reflexivity|]. split; [reflexivity|].
  intros idx Hin. cbn [Torch.data].
  rewrite (expand_index_in_range s idx Hin). reflexivity.
Qed.

Lemma mul_scalar_values (a b : Torch.tensor) (s : list nat) :
  Torch.shape a = s -> Torch.shape b = [] ->
  exists y,
    Torch.mul a b = Ok y /\ Torch.shape y = s
    /\ forall idx, In idx (Torch.indices s) ->
         Torch.data y idx = (Torch.data a idx * Torch.data b [])%R.
Proof.
  intros Ha Hb. unfold Torch.mul, Torch.pointwise.
  rewrite Ha, Hb, broadcast_shapes_scalar. cbn [Py.bind].
  eexists. split; [reflexivity|]. split; [reflexivity|].
  intros idx Hin. cbn [Torch.data].
  rewrite (expand_index_in_range s idx Hin). reflexivity.
Qed.

(** The gate [Sum] puts on an additional input: [2 * sigmoid(w)]. *)
Lemma select_gate (wt : Torch.tensor) (k m : nat) :
  Torch.shape wt = [k] -> (m < k)%nat ->
  exists g,
    Torch.select (Torch.scale (Torch.sigmoid wt) 2) (Z.of_nat m) = Ok g
    /\ Torch.shape g = []
    /\ Torch.data g [] = (1 / (1 + exp (- Torch.data wt [m])) * 2)%R.
Proof.
  intros Hs Hm. unfold Torch.select. cbn [Torch.scale Torch.sigmoid
    Torch.map_entries Torch.shape]. rewrite Hs.
  destruct (Z.ltb_spec (Z.of_nat m) 0) as [Hneg|_]; [lia|].
  destruct (Z.leb_spec 0 (Z.of_nat m)) as [_|Hneg]; [|lia].
  destruct (Z.ltb_spec (Z.of_nat m) (Z.of_nat k)) as [_|Hge]; [|lia].
  simpl. eexists. split; [reflexivity|]. split; [reflexivity|].
  cbn [Torch.data]. rewrite Nat2Z.id. reflexivity.
Qed.

Lemma Sum_plain_prefix (x0 : Torch.tensor) (rest : list Torch.tensor)
  (s : list nat) (m : nat) :
  Forall (fun x => Torch.shape x = s) (x0 :: rest) ->
  (m <= List.length rest)%nat ->
  exists y,
    fold_left
      (fun acc i =>
         let* y := acc in
         let* xi := getitem (x0 :: rest) (i + 1) in
         Torch.add y xi)
      (Plugin.range (Z.of_nat m)) (Ok x0) = Ok y
    /\ Torch.shape y = s
    /\ forall idx, In idx (Torch.indices s) ->
         Torch.data y idx
         = (Torch.data x0 idx
            + Torch.sum_list (map (fun x => Torch.data x idx)
                                  (firstn m rest)))%R.
Proof.
  intros Hall. inversion Hall as [|? ? Hx0 Hrest]; subst.
  induction m as [|m IH]; intros Hm.
  - exists x0. split; [reflexivity|]. split; [reflexivity|].
    intros idx _. simpl. lra.
  - destruct IH as [y [Hy [Hs Hv]]]; [lia|].
    destruct (nth_error rest m) as [xm|] eqn:Hnth;
      [|apply nth_error_None in Hnth; lia].
    assert (Hxm : Torch.shape xm = Torch.shape x0).
    { rewrite Forall_forall in Hrest. apply Hrest.
      eapply nth_error_In. exact Hnth. }
    destruct (add_values y xm (Torch.shape x0) Hs Hxm) as [y' [Hy' [Hs' Hv']]].
    exists y'. rewrite range_succ, fold_left_app, Hy. cbn [fold_left Py.bind].
    rewrite (getitem_tail x0 rest m xm Hnth). cbn [Py.bind].
    split; [exact Hy'|]. split; [exact Hs'|].
    intros idx Hin. rewrite (Hv' idx Hin), (Hv idx Hin).
    rewrite (firstn_snoc rest m xm Hnth), map_app.
    change (map (fun x => Torch.data x idx) [xm]) with [Torch.data xm idx].
    rewrite sum_list_snoc. lra.
Qed.

Lemma Sum_weighted_prefix (x0 wt : Torch.tensor) (rest : list Torch.tensor)
  (s : list nat) (k m : nat) :
  Forall (fun x => Torch.shape x = s) (x0 :: rest) ->
  Torch.shape wt = [k] ->
  (m <= List.length rest)%nat -> (m <= k)%nat ->
  exists y,
    fold_left
      (fun acc i =>
         let* y := acc in
         let* xi := getitem (x0 :: rest) (i + 1) in
         let* wi := Torch.select (Torch.scale (Torch.sigmoid wt) 2) i in
         let* t := Torch.mul xi wi in
         Torch.add y t)
      (Plugin.range (Z.of_nat m)) (Ok x0) = Ok y
    /\ Torch.shape y = s
    /\ forall idx, In idx (Torch.indices s) ->
         Torch.data y idx
         = (Torch.data x0 idx
            + Torch.sum_list
                (map (fun i =>
                        Torch.data (nth i rest x0) idx
                        * (1 / (1 + exp (- Torch.data wt [i])) * 2))
                     (seq 0 m)))%R.
Proof.
  intros Hall Hwt. inversion Hall as [|? ? Hx0 Hrest]; subst.
  induction m as [|m IH]; intros Hm Hk.
  - exists x0. split; [reflexivity|]. split; [reflexivity|].
    intros idx _. simpl. lra.
  - destruct IH as [y [Hy [Hs Hv]]]; [lia | lia |].
    destruct (nth_error rest m) as [xm|] eqn:Hnth;
      [|apply nth_error_None in Hnth; lia].
    assert (Hxm : Torch.shape xm = Torch.shape x0).
    { rewrite Forall_forall in Hrest. apply Hrest.
      eapply nth_error_In. exact Hnth. }
    destruct (select_gate wt k m Hwt) as [g [Hg [Hsg Hvg]]]; [lia|].
    destruct (mul_scalar_values xm g (Torch.shape x0) Hxm Hsg)
      as [t [Ht [Hst Hvt]]].
    destruct (add_values y t (Torch.shape x0) Hs Hst) as [y' [Hy' [Hs' Hv']]].
    exists y'. rewrite range_succ, fold_left_app, Hy. cbn [fold_left Py.bind].
    rewrite (getitem_tail x0 rest m xm Hnth). cbn [Py.bind].
    rewrite Hg. cbn [Py.bind]. rewrite Ht. cbn [Py.bind].
    split; [exact Hy'|]. split; [exact Hs'|].
    intros idx Hin. rewrite (Hv' idx Hin), (Hv idx Hin), (Hvt idx Hin), Hvg.
    rewrite seq_S, map_app. cbn [map Nat.add].
    rewrite sum_list_snoc, (nth_error_nth rest m x0 Hnth). lra.
Qed.




(** With fewer inputs than the [n] it was built for (and at least one),
    [Sum] adds up the inputs it has and then raises [IndexError] at the
    first missing one; with no input at all it raises at [x[0]]. *)
Theorem Sum_forward_too_few_inputs
  (self : Plugin.Sum) (xs : list Torch.tensor) (s : list nat) (n : Z) :
  Forall (fun x => Torch.shape x = s) xs ->
  Plugin.iter self = Plugin.range (n - 1) ->
  (Plugin.weight self = true ->
   exists wt, Plugin.w self = Some wt
              /\ Torch.shape wt = [Z.to_nat (n - 1)]) ->
  (xs = [] \/ Z.of_nat (List.length xs) < n) ->
  Plugin.Sum_forward self xs = Raise (IndexError "list index out of range").
Proof.
  intros Hall Hiter Hw Hfew. unfold Plugin.Sum_forward.
  destruct xs as [|x0 rest]; [reflexivity|].
  destruct Hfew as [Hnil|Hfew]; [discriminate|].
  simpl List.length in Hfew.
  change (getitem (x0 :: rest) 0) with (Ok x0). cbn [Py.bind].
  rewrite Hiter.
  rewrite (range_split (n - 1) (Z.of_nat (List.length rest))) by lia.
  destruct (Plugin.weight self) eqn:Hweight.
  - destruct (Hw eq_refl) as [wt [Hwt Hshape]]. rewrite Hwt. cbn [Py.bind].
    rewrite fold_left_app.
    destruct (Sum_weighted_prefix x0 wt rest s (Z.to_nat (n - 1))
                (List.length rest) Hall Hshape) as [y [Hy _]]; [lia | lia |].
    rewrite Hy. cbn [fold_left Py.bind].
    rewrite getitem_out_of_range by (simpl; lia). cbn [Py.bind].
    apply (fold_left_raise
             (fun y i =>
                let* xi := getitem (x0 :: rest) (i + 1) in
                let* wi := Torch.select
                             (Torch.scale (Torch.sigmoid wt) 2) i in
                let* t := Torch.mul xi wi in
                Torch.add y t)).
  - rewrite fold_left_app.
    destruct (Sum_plain_prefix x0 rest s (List.length rest) Hall)
      as [y [Hy _]]; [lia|].
    rewrite Hy. cbn [fold_left Py.bind].
    rewrite getitem_out_of_range by (simpl; lia). cbn [Py.bind].
    apply (fold_left_raise
             (fun y i =>
                let* xi := getitem (x0 :: rest) (i + 1) in
                Torch.add y xi)).
Qed.

Lemma Sum_forward_too_few_inputs_witness :
  Plugin.Sum_forward (Plugin.Sum_init 3 true)
    [Fixtures.feature_map 3; Fixtures.feature_map 3]
  = Raise (IndexError "list index out of range").
Proof.
  apply (Sum_forward_too_few_inputs (Plugin.Sum_init 3 true)
           [Fixtures.feature_map 3; Fixtures.feature_map 3]
           [2; 3; 4; 4]%nat 3).
  - repeat constructor.
  - reflexivity.
  - intros _. eexists. split; reflexivity.
  - right. simpl. lia.
Defined.


(** ** [Focus] *)

Lemma slice2_4d (r0 c0 : nat) (x : Torch.tensor) (b c h w : nat) :
  Torch.shape x = [b; c; h; w] ->
  exists y,
    Plugin.slice2 r0 c0 x = Ok y
    /\ Torch.shape y = [b; c; ((h - r0 + 1) / 2)%nat; ((w - c0 + 1) / 2)%nat]
    /\ forall n ch i j,
         Torch.data y [n; ch; i; j]
         = Torch.data x [n; ch; (r0 + 2 * i)%nat; (c0 + 2 * j)%nat].
Proof.
  intros Hs. unfold Plugin.slice2, Torch.ndim. rewrite Hs.
  eexists. split; [reflexivity|]. split; reflexivity.
Qed.

Lemma half_even (h : nat) :
  Nat.even h = true -> ((h - 0 + 1) / 2 = h / 2 /\ (h - 1 + 1) / 2 = h / 2)%nat.
Proof.
  intros He. apply Nat.even_spec in He. destruct He as [k ->].
  split.
  - replace (2 * k - 0 + 1)%nat with (1 + k * 2)%nat by lia.
    rewrite Nat.div_add by lia. replace (2 * k)%nat with (0 + k * 2)%nat by lia.
    rewrite Nat.div_add by lia. reflexivity.
  - destruct k as [|k]; [reflexivity|].
    replace (2 * S k - 1 + 1)%nat with (2 * S k)%nat by lia. reflexivity.
Qed.

Lemma half_odd (h : nat) :
  Nat.even h = false -> ((h - 0 + 1) / 2 <> (h - 1 + 1) / 2)%nat.
Proof.
  intros Ho.
  assert (Hodd : Nat.odd h = true)
    by (rewrite <- Nat.negb_even, Ho; reflexivity).
  apply Nat.odd_spec in Hodd. destruct Hodd as [k ->].
  replace (2 * k + 1 - 0 + 1)%nat with (0 + (k + 1) * 2)%nat by lia.
  replace (2 * k + 1 - 1 + 1)%nat with (1 + k * 2)%nat by lia.
  rewrite !Nat.div_add by lia. simpl. lia.
Qed.

(** On a batch of shape [(b, c, h, w)], the rearrangement of [Focus]
    succeeds exactly when [h] and [w] are even. It then gives shape
    [(b, 4c, h/2, w/2)], channel [k*c + ch] (k = 0..3) holding the pixels
    of channel [ch] at rows [2i + k mod 2] and columns [2j + k / 2]: every
    pixel is kept, once. With an odd [h] or [w] the four slices have
    different sizes and [torch.cat] raises. *)
Theorem Focus_rearrange_even_sizes
  (x : Torch.tensor) (b c h w : nat) :
  Torch.shape x = [b; c; h; w] ->
  (Nat.even h = true -> Nat.even w = true ->
   exists y,
     Plugin.Focus_rearrange x = Ok y
     /\ Torch.shape y = [b; (4 * c)%nat; (h / 2)%nat; (w / 2)%nat]
     /\ forall n k ch i j,
          (k < 4)%nat -> (ch < c)%nat ->
          Torch.data y [n; (k * c + ch)%nat; i; j]
          = Torch.data x [n; ch; (k mod 2 + 2 * i)%nat; (k / 2 + 2 * j)%nat])
  /\ (Nat.even h = false \/ Nat.even w = false ->
      Plugin.Focus_rearrange x
      = Raise (RuntimeError "Sizes of tensors must match except in dimension")).
Proof.
  intros Hs.
  destruct (slice2_4d 0 0 x b c h w Hs) as [ta [Ha [Hsa Hda]]].
  destruct (slice2_4d 1 0 x b c h w Hs) as [tb [Hb [Hsb Hdb]]].
  destruct (slice2_4d 0 1 x b c h w Hs) as [tc [Hc [Hsc Hdc]]].
  destruct (slice2_4d 1 1 x b c h w Hs) as [td [Hd [Hsd Hdd]]].
  unfold Plugin.Focus_rearrange. rewrite Ha, Hb, Hc, Hd. cbn [Py.bind].
  unfold Torch.cat, Torch.ndim. rewrite Hsa. cbn [List.length].
  change (Z.to_nat (if 1 <? 0 then 1 + Z.of_nat 4 else 1)) with 1%nat.
  change ((0 <=? (if 1 <? 0 then 1 + Z.of_nat 4 else 1))
          && ((if 1 <? 0 then 1 + Z.of_nat 4 else 1) <? Z.of_nat 4))
    with true.
  cbv iota. cbn [forallb map list_sum nth].
  rewrite Hsb, Hsc, Hsd. unfold Torch.same_except.
  split.
  - intros Hh Hw.
    destruct (half_even h Hh) as [Hh0 Hh1].
    destruct (half_even w Hw) as [Hw0 Hw1].
    rewrite Hh0, Hh1, Hw0, Hw1.
    rewrite !bool_decide_eq_true_2 by reflexivity. cbn [andb].
    eexists. split; [reflexivity|]. split.
    + cbn [Torch.shape]. rewrite Hsa. cbn [nth].
      change ([b; list_sum [c; c; c; c]; (h / 2)%nat; (w / 2)%nat]
              = [b; (4 * c)%nat; (h / 2)%nat; (w / 2)%nat]).
      replace (list_sum [c; c; c; c]) with (4 * c)%nat by (simpl; lia).
      reflexivity.
    + intros n k ch i j Hk Hch. cbn [Torch.data Torch.cat_data nth].
      rewrite Hsa, Hsb, Hsc, Hsd. cbn [nth].
      destruct k as [|[|[|[|k]]]]; try lia.
      * replace (0 * c + ch)%nat with ch by lia.
        destruct (Nat.ltb_spec ch c); [|lia]. apply Hda.
      * destruct (Nat.ltb_spec (1 * c + ch) c); [lia|].
        change (<[1%nat:=(1 * c + ch - c)%nat]> [n; (1 * c + ch)%nat; i; j])
          with [n; (1 * c + ch - c)%nat; i; j]. cbn [nth].
        replace (1 * c + ch - c)%nat with ch by lia.
        destruct (Nat.ltb_spec ch c); [|lia]. apply Hdb.
      * destruct (Nat.ltb_spec (2 * c + ch) c); [lia|].
        change (<[1%nat:=(2 * c + ch - c)%nat]> [n; (2 * c + ch)%nat; i; j])
          with [n; (2 * c + ch - c)%nat; i; j]. cbn [nth].
        destruct (Nat.ltb_spec (2 * c + ch - c) c); [lia|].
        change (<[1%nat:=(2 * c + ch - c - c)%nat]>
                  [n; (2 * c + ch - c)%nat; i; j])
          with [n; (2 * c + ch - c - c)%nat; i; j]. cbn [nth].
        replace (2 * c + ch - c - c)%nat with ch by lia.
        destruct (Nat.ltb_spec ch c); [|lia]. apply Hdc.
      * destruct (Nat.ltb_spec (3 * c + ch) c); [lia|].
        change (<[1%nat:=(3 * c + ch - c)%nat]> [n; (3 * c + ch)%nat; i; j])
          with [n; (3 * c + ch - c)%nat; i; j]. cbn [nth].
        destruct (Nat.ltb_spec (3 * c + ch - c) c); [lia|].
        change (<[1%nat:=(3 * c + ch - c - c)%nat]>
                  [n; (3 * c + ch - c)%nat; i; j])
          with [n; (3 * c + ch - c - c)%nat; i; j]. cbn [nth].
        destruct (Nat.ltb_spec (3 * c + ch - c - c) c); [lia|].
        change (<[1%nat:=(3 * c + ch - c - c - c)%nat]>
                  [n; (3 * c + ch - c - c)%nat; i; j])
          with [n; (3 * c + ch - c - c - c)%nat; i; j]. cbn [nth].
        replace (3 * c + ch - c - c - c)%nat with ch by lia.
        destruct (Nat.ltb_spec ch c); [|lia]. apply Hdd.
  - intros [Hh|Hw].
    + pose proof (half_odd h Hh) as Hne.
      rewrite (bool_decide_eq_false_2
                 (_ = <[1%nat:=0%nat]> [b; c; ((h - 1 + 1) / 2)%nat;
                                        ((w - 0 + 1) / 2)%nat]))
        by (intros Heq; apply Hne; injection Heq; auto).
      reflexivity.
    + pose proof (half_odd w Hw) as Hne.
      rewrite (bool_decide_eq_false_2
                 (_ = <[1%nat:=0%nat]> [b; c; ((h - 0 + 1) / 2)%nat;
                                        ((w - 1 + 1) / 2)%nat]))
        by (intros Heq; apply Hne; injection Heq; auto).
      destruct (bool_decide _); reflexivity.
Qed.


Lemma Focus_rearrange_even_sizes_witness :
  exists y,
    Plugin.Focus_rearrange (Fixtures.feature_map 3) = Ok y
    /\ Torch.shape y = [2; 12; 2; 2]%nat.
Proof.
  destruct (Focus_rearrange_even_sizes (Fixtures.feature_map 3)
              2%nat 3%nat 4%nat 4%nat eq_refl) as [Heven _].
  destruct (Heven eq_refl eq_refl) as [y [Hy [Hs _]]].
  exists y. split; [exact Hy | exact Hs].
Defined.

(** ** [ContextBlock.__init__] never returns *)

(** [ContextBlock] cannot be constructed: [__init__] ends with
    [self.reset_parameters()], a method that neither the class nor the
    instance defines, so unless [nn.Module] provides one, every call
    raises: the assertion, float and submodule errors apart, it is
    [AttributeError]. *)
Theorem ContextBlock_init_never_returns
  (nn : ContextBlockInit.torch_nn) (in_channels : Z) (ratio : Float64.float)
  (pooling_type : string) (fusion_types : Plugin.str_seq) :
  ~ In "reset_parameters" (ContextBlockInit.Module_attributes nn) ->
  Py.is_ok (ContextBlockInit.init nn in_channels ratio pooling_type
              fusion_types) = false
  /\ (forall planes conv_mask fusion,
        Plugin.ContextBlock_init_checks pooling_type fusion_types = Ok tt ->
        (let* x := Float64.mul_int ratio in_channels in Float64.trunc x)
        = Ok planes ->
        ContextBlockInit.new_Conv2d nn in_channels 1 = Ok conv_mask ->
        ContextBlockInit.new_fusion_conv nn in_channels planes = Ok fusion ->
        ContextBlockInit.init nn in_channels ratio pooling_type fusion_types
        = Raise (AttributeError
                   "'ContextBlock' object has no attribute 'reset_parameters'")).
Proof.
  intros Hbase. apply str_in_not_In in Hbase.
  assert (Hlast' : forall pool add_conv mul_conv,
            (exists p, pool = [("avg_pool", p)]) \/
            (exists c s, pool = [("conv_mask", c); ("softmax", s)]) ->
            ContextBlockInit.has_attribute nn
              (pool ++ [("channel_add_conv", add_conv);
                        ("channel_mul_conv", mul_conv)])
              "reset_parameters" = false).
  { intros pool add_conv mul_conv Hpool.
    unfold ContextBlockInit.has_attribute.
    rewrite Hbase, orb_false_r.
    destruct Hpool as [[p ->]|[c [s ->]]]; reflexivity. }
  split.
  - unfold ContextBlockInit.init.
    destruct (Plugin.ContextBlock_init_checks _ _); [|reflexivity].
    cbn [Py.bind].
    destruct (Float64.mul_int ratio in_channels) as [x|e]; [|reflexivity].
    cbn [Py.bind].
    destruct (Float64.trunc x) as [planes|e]; [|reflexivity]. cbn [Py.bind].
    destruct (String.eqb pooling_type "att").
    + destruct (ContextBlockInit.new_Conv2d nn in_channels 1) as [cm|e];
        [|reflexivity].
      cbn [Py.bind].
      destruct (ContextBlockInit.fusion_conv nn "channel_add" _ _ _)
        as [ac|e]; [|reflexivity].
      cbn [Py.bind].
      destruct (ContextBlockInit.fusion_conv nn "channel_mul" _ _ _)
        as [mc|e]; [|reflexivity].
      cbn [Py.bind]. rewrite Hlast' by (right; eauto). reflexivity.
    + cbn [Py.bind].
      destruct (ContextBlockInit.fusion_conv nn "channel_add" _ _ _)
        as [ac|e]; [|reflexivity].
      cbn [Py.bind].
      destruct (ContextBlockInit.fusion_conv nn "channel_mul" _ _ _)
        as [mc|e]; [|reflexivity].
      cbn [Py.bind]. rewrite Hlast' by (left; eauto). reflexivity.
  - intros planes conv_mask fusion Hchecks Hplanes Hconv Hfusion.
    unfold ContextBlockInit.init. rewrite Hchecks. cbn [Py.bind].
    destruct (Float64.mul_int ratio in_channels) as [x|e];
      [|discriminate].
    cbn [Py.bind] in Hplanes |- *. rewrite Hplanes. cbn [Py.bind].
    unfold ContextBlockInit.fusion_conv. rewrite Hconv, Hfusion.
    destruct (String.eqb pooling_type "att");
      destruct (Plugin.str_in "channel_add" _);
      destruct (Plugin.str_in "channel_mul" _);
      cbn [Py.bind];
      (rewrite Hlast' by (solve [left; eauto | right; eauto]));
      reflexivity.
Qed.


Lemma ContextBlock_init_never_returns_witness :
  ContextBlockInit.init Fixtures.plain_nn 16 Fixtures.quarter "att"
    (Plugin.PyTuple ["channel_add"])
  = Raise (AttributeError
             "'ContextBlock' object has no attribute 'reset_parameters'").
Proof.
  destruct (ContextBlock_init_never_returns Fixtures.plain_nn 16
              Fixtures.quarter "att" (Plugin.PyTuple ["channel_add"]))
    as [_ Hattr].
  - intros H. simpl in H.
    repeat (destruct H as [H|H]; [discriminate|]). exact H.
  - apply (Hattr 4 (fun t => Ok t) (fun t => Ok t)).
    + reflexivity.
    + vm_compute. reflexivity.
    + reflexivity.
    + reflexivity.
Defined.


(** ** [load_config]: conversion and failures *)

Section ValueInduction.

Variable P : Utils.value -> Prop.
Hypothesis HNone : P Utils.VNone.
Hypothesis HBool : forall b, P (Utils.VBool b).
Hypothesis HInt : forall z, P (Utils.VInt z).
Hypothesis HFloat : forall f, P (Utils.VFloat f).
Hypothesis HStr : forall s, P (Utils.VStr s).
Hypothesis HList : forall l, Forall P l -> P (Utils.VList l).
Hypothesis HTuple : forall l, Forall P l -> P (Utils.VTuple l).
Hypothesis HDict :
  forall items, Forall (fun kv => P (snd kv)) items -> P (Utils.VDict items).
Hypothesis HMunch :
  forall items, Forall (fun kv => P (snd kv)) items -> P (Utils.VMunch items).

Fixpoint value_nested_ind (v : Utils.value) : P v :=
  match v with
  | Utils.VNone => HNone
  | Utils.VBool b => HBool b
  | Utils.VInt z => HInt z
  | Utils.VFloat f => HFloat f
  | Utils.VStr s => HStr s
  | Utils.VList l =>
      HList l
        ((fix go (l : list Utils.value) : Forall P l :=
            match l with
            | [] => @Forall_nil _ P
            | x :: l' => @Forall_cons _ P x l' (value_nested_ind x) (go l')
            end) l)
  | Utils.VTuple l =>
      HTuple l
        ((fix go (l : list Utils.value) : Forall P l :=
            match l with
            | [] => @Forall_nil _ P
            | x :: l' => @Forall_cons _ P x l' (value_nested_ind x) (go l')
            end) l)
  | Utils.VDict items =>
      HDict items
        ((fix go (l : list (string * Utils.value))
            : Forall (fun kv => P (snd kv)) l :=
            match l with
            | [] => @Forall_nil _ (fun kv => P (snd kv))
            | kv :: l' =>
                @Forall_cons _ (fun kv => P (snd kv)) kv l'
                  (value_nested_ind (snd kv)) (go l')
            end) items)
  | Utils.VMunch items =>
      HMunch items
        ((fix go (l : list (string * Utils.value))
            : Forall (fun kv => P (snd kv)) l :=
            match l with
            | [] => @Forall_nil _ (fun kv => P (snd kv))
            | kv :: l' =>
                @Forall_cons _ (fun kv => P (snd kv)) kv l'
                  (value_nested_ind (snd kv)) (go l')
            end) items)
  end.

End ValueInduction.

Lemma fromDict_munchified (v : Utils.value) :
  Utils.munchified (Utils.fromDict v) = true.
Proof.
  induction v using value_nested_ind; try reflexivity; simpl;
    rewrite forallb_forall; intros x Hx; apply in_map_iff in Hx;
    destruct Hx as [y [<- Hy]]; rewrite Forall_forall in H; apply H; exact Hy.
Qed.

Lemma fromDict_fixes_munchified (v : Utils.value) :
  Utils.munchified v = true -> Utils.fromDict v = v.
Proof.
  induction v using value_nested_ind; try reflexivity; simpl; intros Hm;
    try discriminate; f_equal; rewrite forallb_forall in Hm;
    rewrite Forall_forall in H.
  - rewrite <- (map_id l) at 2. apply map_ext_in. intros x Hx. auto.
  - rewrite <- (map_id l) at 2. apply map_ext_in. intros x Hx. auto.
  - rewrite <- (map_id items) at 2. apply map_ext_in. intros [k x] Hx.
    simpl. f_equal. apply (H (k, x) Hx). apply (Hm (k, x) Hx).
Qed.

Lemma lookup_item_In (k : string) (items : list (string * Utils.value))
  (v : Utils.value) :
  Utils.lookup_item k items = Some v -> In (k, v) items.
Proof.
  induction items as [|[k' v'] items IH]; simpl; [discriminate|].
  destruct (String.eqb_spec k k') as [->|_].
  - intros H. injection H as ->. left. reflexivity.
  - intros H. right. apply IH. exact H.
Qed.

(** Whatever [load_config] returns has no plain [dict] left in it, at any
    depth, so every nested mapping can be read by attribute; and loading a
    returned namespace again gives it back unchanged. *)
Theorem load_config_result_is_munchified
  (load : Utils.loader) (config ns : Utils.value) :
  Utils.load_config load config = Ok ns ->
  Utils.munchified ns = true
  /\ (forall on_class k v,
        Utils.getattr on_class ns k = Ok (Utils.Field v) ->
        Utils.munchified v = true)
  /\ (forall items load',
        ns = Utils.VMunch items -> Utils.load_config load' ns = Ok ns).
Proof.
  intros Hload.
  assert (Hns : exists d, ns = Utils.fromDict d).
  { unfold Utils.load_config in Hload.
    apply bind_ok in Hload. destruct Hload as [d [_ Hrest]].
    apply bind_ok in Hrest. destruct Hrest as [_ [_ Hok]].
    injection Hok as <-. eauto. }
  destruct Hns as [d ->].
  pose proof (fromDict_munchified d) as Hm.
  split; [exact Hm|]. split.
  - intros on_class k v Hget. unfold Utils.getattr in Hget.
    destruct (on_class _ k); [discriminate|].
    destruct (Utils.fromDict d) as [| | | | | | | |items] eqn:Hd;
      try discriminate.
    destruct (Utils.lookup_item k items) as [v'|] eqn:Hk; [|discriminate].
    injection Hget as ->. apply lookup_item_In in Hk.
    simpl in Hm. rewrite forallb_forall in Hm. apply (Hm (k, v) Hk).
  - intros items load' Hitems. rewrite Hitems.
    unfold Utils.load_config. cbn [Py.bind Utils.is_not_None assert].
    rewrite <- Hitems, (fromDict_fixes_munchified _ Hm). reflexivity.
Qed.

Lemma load_config_result_is_munchified_witness :
  Utils.getattr (fun _ k => String.eqb k "keys")
    (Utils.VMunch [("augment", Utils.VMunch [("stride", Utils.VInt 32)])])
    "augment"
  = Ok (Utils.Field (Utils.VMunch [("stride", Utils.VInt 32)]))
  /\ Utils.munchified (Utils.VMunch [("stride", Utils.VInt 32)]) = true.
Proof.
  destruct (load_config_result_is_munchified
              (fun _ => Raise (ValueError ""))
              (Utils.VDict
                 [("augment", Utils.VDict [("stride", Utils.VInt 32)])])
              (Utils.VMunch
                 [("augment", Utils.VMunch [("stride", Utils.VInt 32)])]))
    as [_ [Hfields _]].
  - reflexivity.
  - split; [reflexivity|].
    apply (Hfields (fun _ k => String.eqb k "keys") "augment"). reflexivity.
Defined.

(** [load_config] fails in three ways only: [ValueError] for a config
    that is neither a string nor a dict, the loader's own exception, and
    [AssertionError] naming the path when the file loads as [None]. A file
    that holds anything else, a list or a number included, is returned
    (converted) without any check that it is a mapping. *)
Theorem load_config_failures
  (load : Utils.loader) (config : Utils.value) :
  (forall path v,
     config = Utils.VStr path -> load path = Ok v -> v <> Utils.VNone ->
     Utils.load_config load config = Ok (Utils.fromDict v))
  /\ (forall path,
        config = Utils.VStr path -> load path = Ok Utils.VNone ->
        Utils.load_config load config
        = Raise (AssertionError
                   ("No configuration is found at " ++ path ++ "!")))
  /\ (forall path e,
        config = Utils.VStr path -> load path = Raise e ->
        Utils.load_config load config = Raise e)
  /\ (forall e,
        Utils.load_config load config = Raise e ->
        (e = ValueError ""
         /\ match config with
            | Utils.VStr _ | Utils.VDict _ | Utils.VMunch _ => False
            | _ => True
            end)
        \/ exists path,
             config = Utils.VStr path
             /\ (load path = Raise e
                 \/ (load path = Ok Utils.VNone
                     /\ e = AssertionError
                              ("No configuration is found at "
                               ++ path ++ "!")))).
Proof.
  repeat split.
  - intros path v -> Hload Hv. unfold Utils.load_config. rewrite Hload.
    destruct v; try reflexivity. congruence.
  - intros path -> Hload. unfold Utils.load_config. rewrite Hload.
    reflexivity.
  - intros path e -> Hload. unfold Utils.load_config. rewrite Hload.
    reflexivity.
  - intros e Hraise. unfold Utils.load_config in Hraise.
    destruct config as [| b | z | f | path | l | l | items | items];
      simpl in Hraise; try discriminate;
      try (injection Hraise as <-; left; split; [reflexivity | exact I]).
    right. exists path. split; [reflexivity|].
    destruct (load path) as [v|e'] eqn:Hload; simpl in Hraise.
    + right. destruct v; simpl in Hraise; try discriminate.
      injection Hraise as <-. split; reflexivity.
    + left. congruence.
Qed.


Lemma load_config_failures_witness :
  Utils.load_config
    (fun _ => Ok (Utils.VList [Utils.VInt 1; Utils.VDict []]))
    (Utils.VStr "list.yaml")
  = Ok (Utils.VList [Utils.VInt 1; Utils.VMunch []]).
Proof.
  destruct (load_config_failures
              (fun _ => Ok (Utils.VList [Utils.VInt 1; Utils.VDict []]))
              (Utils.VStr "list.yaml")) as [Hany _].
  apply (Hany "list.yaml" (Utils.VList [Utils.VInt 1; Utils.VDict []]));
    [reflexivity | reflexivity | discriminate].
Defined.

(** ** [list_files]: what it keeps and when it adds nothing *)

Lemma list_all_config (w : CityscapesLoL.world) (self : CityscapesLoL.dataset)
  (ps : list string) :
  CityscapesLoL.root (CityscapesLoL.list_all w self ps)
  = CityscapesLoL.root self
  /\ CityscapesLoL.split (CityscapesLoL.list_all w self ps)
     = CityscapesLoL.split self
  /\ CityscapesLoL.fast_dev_run (CityscapesLoL.list_all w self ps)
     = CityscapesLoL.fast_dev_run self
  /\ CityscapesLoL.batch_size (CityscapesLoL.list_all w self ps)
     = CityscapesLoL.batch_size self.
Proof.
  revert self. induction ps as [|p ps IH]; intros self; [auto|].
  unfold CityscapesLoL.list_all in *. simpl.
  destruct (IH (CityscapesLoL.list_one w self p)) as [H1 [H2 [H3 H4]]].
  rewrite H1, H2, H3, H4. auto.
Qed.

Lemma list_files_ok_inv (w : CityscapesLoL.world) (r r' : rng)
  (self self' : CityscapesLoL.dataset) :
  CityscapesLoL.list_files w r self = Ok (self', r') ->
  exists ps,
    CityscapesLoL.select_images w r self = Ok (ps, r')
    /\ self' = CityscapesLoL.list_all w self ps.
Proof.
  unfold CityscapesLoL.list_files. intros H.
  destruct (CityscapesLoL.select_images w r self) as [[ps r1]|e];
    [|discriminate].
  cbn [Py.bind] in H.
  destruct (CityscapesLoL.check_counts _); [|discriminate].
  cbn [Py.bind] in H. injection H as <- <-. eauto.
Qed.

(** [list_files] keeps the three path lists paired: when sample [i]'s
    enhanced image and label paths are the ones derived from image [i]
    before the call, they are after it, for the samples it adds too; the
    root, split and fast-dev-run settings are left as they were. From
    paired lists the count assertion cannot fail, so without fast-dev-run
    the call returns, draws no random number and appends exactly the
    discovered paths, in the order [glob] gave them. *)
Theorem list_files_keeps_samples_paired
  (w : CityscapesLoL.world) (r : rng) (self : CityscapesLoL.dataset) :
  CityscapesLoL.aligned self ->
  (forall self' r',
     CityscapesLoL.list_files w r self = Ok (self', r') ->
     CityscapesLoL.aligned self'
     /\ List.length (CityscapesLoL.image_paths self')
        = List.length (CityscapesLoL.label_paths self')
     /\ CityscapesLoL.root self' = CityscapesLoL.root self
     /\ CityscapesLoL.split self' = CityscapesLoL.split self
     /\ CityscapesLoL.fast_dev_run self' = CityscapesLoL.fast_dev_run self
     /\ CityscapesLoL.batch_size self' = CityscapesLoL.batch_size self)
  /\ (CityscapesLoL.fast_dev_run self = false ->
      exists self',
        CityscapesLoL.list_files w r self = Ok (self', r)
        /\ CityscapesLoL.image_paths self'
           = (CityscapesLoL.image_paths self
              ++ CityscapesLoL.glob w (CityscapesLoL.image_pattern self))%list).
Proof.
  intros [He Hl]. split.
  - intros self' r' Hfiles.
    destruct (list_files_ok_inv w r r' self self' Hfiles) as [ps [_ ->]].
    destruct (list_all_paths w self ps) as [H1 [H2 H3]].
    destruct (list_all_config w self ps) as [Hr [Hs [Hf Hb]]].
    unfold CityscapesLoL.aligned.
    rewrite H1, H2, H3, He, Hl, !map_app, !length_app, !length_map.
    repeat split; assumption.
  - intros Hfast.
    pose proof (select_images_all w r self Hfast) as Hsel.
    destruct (list_files_returns w r r self _ Hsel) as [Hok _].
    eexists. split.
    + apply Hok. rewrite He, length_map. reflexivity.
    + apply (list_all_paths w self).
Qed.

Lemma list_files_keeps_samples_paired_witness :
  exists self',
    CityscapesLoL.list_files Fixtures.two_images_world Fixtures.zeros
      (Fixtures.fresh "/d" "train" false 4) = Ok (self', Fixtures.zeros)
    /\ CityscapesLoL.image_paths self'
       = ["/d/lol/train/low/a.png"; "/d/lol/train/low/b.png"].
Proof.
  destruct (list_files_keeps_samples_paired Fixtures.two_images_world
              Fixtures.zeros (Fixtures.fresh "/d" "train" false 4))
    as [_ Hall].
  - split; reflexivity.
  - apply Hall. reflexivity.
Defined.

(** With fast-dev-run on and a batch size that is zero or negative,
    [list_files] draws nothing and adds no sample, whatever the directory
    holds, an empty directory included: the dataset is left as it was. *)
Theorem fast_dev_run_without_batch_adds_nothing
  (w : CityscapesLoL.world) (r : rng) (self : CityscapesLoL.dataset) :
  CityscapesLoL.fast_dev_run self = true ->
  CityscapesLoL.batch_size self <= 0 ->
  CityscapesLoL.select_images w r self = Ok ([], r)
  /\ (List.length (CityscapesLoL.image_paths self)
      = List.length (CityscapesLoL.eimage_paths self) ->
      CityscapesLoL.list_files w r self = Ok (self, r)).
Proof.
  intros Hfast Hbatch.
  assert (Hsel : CityscapesLoL.select_images w r self = Ok ([], r)).
  { unfold CityscapesLoL.select_images. rewrite Hfast.
    replace (Z.to_nat (CityscapesLoL.batch_size self)) with O by lia.
    reflexivity. }
  split; [exact Hsel|].
  intros Hlen.
  destruct (list_files_returns w r r self [] Hsel) as [Hok _].
  apply Hok. exact Hlen.
Qed.

Lemma fast_dev_run_without_batch_adds_nothing_witness :
  CityscapesLoL.list_files Fixtures.empty_world Fixtures.zeros
    (Fixtures.fresh "/d" "train" true 0)
  = Ok (Fixtures.fresh "/d" "train" true 0, Fixtures.zeros).
Proof.
  apply (fast_dev_run_without_batch_adds_nothing Fixtures.empty_world
           Fixtures.zeros (Fixtures.fresh "/d" "train" true 0));
    [reflexivity | simpl; lia | reflexivity].
Defined.


(** ** [End2EndEnhancer.forward_features]: what the three kinds of index give *)

Lemma features_loop_passing (out : option End2EndEnhancer.Indexes)
  (ms : list End2EndEnhancer.layer) (idx : Z) (x : Torch.tensor)
  (y_hat : End2EndEnhancer.Tensors) :
  (forall i, idx <= i < idx + Z.of_nat (List.length ms) ->
             End2EndEnhancer.passes out i = true) ->
  End2EndEnhancer.features_loop out ms idx x y_hat
  = let* y := End2EndEnhancer.chain ms x in
    Ok (match ms with [] => y_hat | _ => End2EndEnhancer.One y end).
Proof.
  revert idx x y_hat. induction ms as [|m ms IH]; intros idx x y_hat Hpass.
  - reflexivity.
  - cbn [End2EndEnhancer.features_loop End2EndEnhancer.chain].
    destruct (m x) as [x1|e]; [|reflexivity]. cbn [Py.bind].
    assert (Hnext : End2EndEnhancer.features_loop out ms (idx + 1) x1
                      (End2EndEnhancer.One x1)
                    = let* y := End2EndEnhancer.chain ms x1 in
                      Ok (End2EndEnhancer.One y)).
    { rewrite IH.
      - destruct ms; reflexivity.
      - intros i Hi. apply Hpass. cbn [List.length]. lia. }
    assert (Hidx : End2EndEnhancer.passes out idx = true).
    { apply Hpass. cbn [List.length]. lia. }
    destruct out as [[k|l]|]; cbn [End2EndEnhancer.passes] in Hidx.
    + apply negb_true_iff in Hidx. rewrite Hidx. exact Hnext.
    + apply negb_true_iff in Hidx. rewrite Hidx. exact Hnext.
    + exact Hnext.
Qed.

Lemma features_loop_int_hit (ms : list End2EndEnhancer.layer) (idx k : Z)
  (x : Torch.tensor) (y_hat : End2EndEnhancer.Tensors) :
  idx <= k < idx + Z.of_nat (List.length ms) ->
  End2EndEnhancer.features_loop (Some (End2EndEnhancer.Int k)) ms idx x y_hat
  = let* y := End2EndEnhancer.chain (firstn (Z.to_nat (k - idx + 1)) ms) x in
    Ok (End2EndEnhancer.One y).
Proof.
  revert idx x y_hat. induction ms as [|m ms IH]; intros idx x y_hat Hk.
  - cbn [List.length] in Hk. lia.
  - replace (Z.to_nat (k - idx + 1)) with (S (Z.to_nat (k - idx))) by lia.
    cbn [firstn End2EndEnhancer.features_loop End2EndEnhancer.chain].
    destruct (m x) as [x1|e]; [|reflexivity]. cbn [Py.bind].
    destruct (idx =? k) eqn:Heq.
    + apply Z.eqb_eq in Heq. subst k.
      replace (idx - idx) with 0 by lia. reflexivity.
    + apply Z.eqb_neq in Heq. rewrite IH.
      * replace (k - (idx + 1) + 1) with (k - idx) by lia. reflexivity.
      * cbn [List.length] in Hk. lia.
Qed.

(** With an [int] index [k], [forward_features] runs the children up to
    child [k] and returns that child's output; the children after it are
    not run. For any other integer, [-1] included, no child matches: every
    child is run and the output of the last one is returned, and for a
    backbone without children the result is the empty list [y_hat]
    started as. *)
Theorem forward_features_int_index
  (self : End2EndEnhancer.model) (b : End2EndEnhancer.backbone_t)
  (x : Torch.tensor) (out : option End2EndEnhancer.Indexes) (k : Z) :
  End2EndEnhancer.backbone self = Some b ->
  End2EndEnhancer.effective_indexes self out = Some (End2EndEnhancer.Int k) ->
  let ms := End2EndEnhancer.children b in
  (0 <= k < Z.of_nat (List.length ms) ->
   End2EndEnhancer.forward_features self x out
   = let* y := End2EndEnhancer.chain (firstn (Z.to_nat k + 1) ms) x in
     Ok (End2EndEnhancer.One y))
  /\ (~ 0 <= k < Z.of_nat (List.length ms) ->
      End2EndEnhancer.forward_features self x out
      = let* y := End2EndEnhancer.chain ms x in
        Ok (match ms with
            | [] => End2EndEnhancer.Many []
            | _ => End2EndEnhancer.One y
            end)).
Proof.
  intros Hb Hout ms. unfold End2EndEnhancer.forward_features.
  rewrite Hb, Hout. fold ms. split; intros Hk.
  - rewrite features_loop_int_hit by lia.
    replace (Z.to_nat (k - 0 + 1)) with (Z.to_nat k + 1)%nat by lia.
    reflexivity.
  - apply features_loop_passing. intros i Hi.
    cbn [End2EndEnhancer.passes]. apply negb_true_iff, Z.eqb_neq. lia.
Qed.

Lemma forward_features_int_index_witness :
  End2EndEnhancer.forward_features
    (Fixtures.enhancer [Fixtures.doubling; Fixtures.failing; Fixtures.doubling]
       (Some (End2EndEnhancer.Int 0)))
    (Fixtures.ones [1; 3; 2; 2]%nat) None
  = Ok (End2EndEnhancer.One (Torch.scale (Fixtures.ones [1; 3; 2; 2]%nat) 2)).
Proof.
  destruct (forward_features_int_index
              (Fixtures.enhancer
                 [Fixtures.doubling; Fixtures.failing; Fixtures.doubling]
                 (Some (End2EndEnhancer.Int 0)))
              {| End2EndEnhancer.call :=
                   End2EndEnhancer.chain
                     [Fixtures.doubling; Fixtures.failing; Fixtures.doubling];
                 End2EndEnhancer.children :=
                   [Fixtures.doubling; Fixtures.failing; Fixtures.doubling] |}
              (Fixtures.ones [1; 3; 2; 2]%nat) None 0 eq_refl eq_refl)
    as [Hhit _].
  rewrite Hhit; [reflexivity | simpl; lia].
Defined.

Lemma features_loop_collects (l : list Z) (ms : list End2EndEnhancer.layer)
  (idx : Z) (x : Torch.tensor) (ys : list Torch.tensor) :
  (forall i, idx <= i < idx + Z.of_nat (List.length ms) ->
             End2EndEnhancer.contains i l = true) ->
  End2EndEnhancer.features_loop (Some (End2EndEnhancer.Seq l)) ms idx x
    (End2EndEnhancer.Many ys)
  = let* r := End2EndEnhancer.outputs ms x in
    Ok (End2EndEnhancer.Many (ys ++ r)).
Proof.
  revert idx x ys. induction ms as [|m ms IH]; intros idx x ys Hin.
  - cbn [End2EndEnhancer.features_loop End2EndEnhancer.outputs Py.bind].
    rewrite app_nil_r. reflexivity.
  - cbn [End2EndEnhancer.features_loop End2EndEnhancer.outputs].
    destruct (m x) as [x1|e]; [|reflexivity]. cbn [Py.bind].
    rewrite Hin by (cbn [List.length]; lia).
    rewrite IH by (intros i Hi; apply Hin; cbn [List.length]; lia).
    destruct (End2EndEnhancer.outputs ms x1) as [r|e]; [|reflexivity].
    cbn [Py.bind]. rewrite <- app_assoc. reflexivity.
Qed.

Lemma features_loop_drops (l : list Z) (ms : list End2EndEnhancer.layer)
  (idx j : Z) (x : Torch.tensor) (ys : list Torch.tensor) :
  idx <= j < idx + Z.of_nat (List.length ms) ->
  (forall i, idx <= i < j -> End2EndEnhancer.contains i l = true) ->
  (forall i, j <= i < idx + Z.of_nat (List.length ms) ->
             End2EndEnhancer.contains i l = false) ->
  End2EndEnhancer.features_loop (Some (End2EndEnhancer.Seq l)) ms idx x
    (End2EndEnhancer.Many ys)
  = let* y := End2EndEnhancer.chain ms x in Ok (End2EndEnhancer.One y).
Proof.
  revert idx x ys. induction ms as [|m ms IH]; intros idx x ys Hj Hin Hout.
  - cbn [List.length] in Hj. lia.
  - cbn [List.length] in Hj, Hout.
    cbn [End2EndEnhancer.features_loop End2EndEnhancer.chain].
    destruct (m x) as [x1|e]; [|reflexivity]. cbn [Py.bind].
    destruct (Z.eq_dec idx j) as [->|Hne].
    + rewrite Hout by lia.
      rewrite features_loop_passing.
      * destruct ms; reflexivity.
      * intros i Hi. cbn [End2EndEnhancer.passes].
        rewrite Hout by lia. reflexivity.
    + rewrite Hin by lia. apply IH.
      * lia.
      * intros i Hi. apply Hin. lia.
      * intros i Hi. apply Hout. lia.
Qed.

Lemma features_loop_append_on_tensor (l : list Z)
  (ms : list End2EndEnhancer.layer) (idx i : Z) (x x0 : Torch.tensor) :
  idx <= i < idx + Z.of_nat (List.length ms) ->
  End2EndEnhancer.contains i l = true ->
  Py.is_ok (End2EndEnhancer.chain (firstn (Z.to_nat (i - idx + 1)) ms) x)
  = true ->
  End2EndEnhancer.features_loop (Some (End2EndEnhancer.Seq l)) ms idx x
    (End2EndEnhancer.One x0)
  = Raise (AttributeError "'Tensor' object has no attribute 'append'").
Proof.
  revert idx x x0. induction ms as [|m ms IH]; intros idx x x0 Hi Hin Hrun.
  - cbn [List.length] in Hi. lia.
  - cbn [List.length] in Hi.
    replace (Z.to_nat (i - idx + 1)) with (S (Z.to_nat (i - idx))) in Hrun
      by lia.
    cbn [firstn End2EndEnhancer.features_loop End2EndEnhancer.chain] in Hrun |- *.
    destruct (m x) as [x1|e]; [|discriminate]. cbn [Py.bind] in Hrun |- *.
    destruct (End2EndEnhancer.contains idx l) eqn:Hidx; [reflexivity|].
    assert (idx <> i) by congruence.
    apply IH; [lia | exact Hin |].
    replace (i - (idx + 1) + 1) with (i - idx) by lia. exact Hrun.
Qed.

Lemma features_loop_gap (l : list Z) (ms : list End2EndEnhancer.layer)
  (idx j i : Z) (x : Torch.tensor) (ys : list Torch.tensor) :
  idx <= j -> j < i < idx + Z.of_nat (List.length ms) ->
  End2EndEnhancer.contains j l = false ->
  End2EndEnhancer.contains i l = true ->
  Py.is_ok (End2EndEnhancer.chain (firstn (Z.to_nat (i - idx + 1)) ms) x)
  = true ->
  End2EndEnhancer.features_loop (Some (End2EndEnhancer.Seq l)) ms idx x
    (End2EndEnhancer.Many ys)
  = Raise (AttributeError "'Tensor' object has no attribute 'append'").
Proof.
  revert idx x ys. induction ms as [|m ms IH]; intros idx x ys Hj Hi Hout Hin Hrun.
  - cbn [List.length] in Hi. lia.
  - cbn [List.length] in Hi.
    replace (Z.to_nat (i - idx + 1)) with (S (Z.to_nat (i - idx))) in Hrun
      by lia.
    cbn [firstn End2EndEnhancer.features_loop End2EndEnhancer.chain] in Hrun |- *.
    destruct (m x) as [x1|e]; [|discriminate]. cbn [Py.bind] in Hrun |- *.
    assert (Hrun' : Py.is_ok (End2EndEnhancer.chain
                       (firstn (Z.to_nat (i - (idx + 1) + 1)) ms) x1) = true).
    { replace (i - (idx + 1) + 1) with (i - idx) by lia. exact Hrun. }
    destruct (End2EndEnhancer.contains idx l) eqn:Hidx.
    + assert (idx <> j) by congruence.
      apply IH; [lia | lia | exact Hout | exact Hin | exact Hrun'].
    + apply features_loop_append_on_tensor with (i := i);
        [lia | exact Hin | exact Hrun'].
Qed.

(** With a [list] or [tuple] of indexes, [forward_features] returns the
    list of features only when every child's index is listed: it is then
    the list of all the children's outputs. When the listed children are
    the first [j] ones and at least one child follows, the features
    collected are dropped and the result is the last child's output, a
    tensor. When a listed child comes after one that is not listed, and
    the children up to it run, the call raises [AttributeError]: by then
    [y_hat] is a tensor and has no [append]. *)
Theorem forward_features_list_index
  (self : End2EndEnhancer.model) (b : End2EndEnhancer.backbone_t)
  (x : Torch.tensor) (out : option End2EndEnhancer.Indexes) (l : list Z) :
  End2EndEnhancer.backbone self = Some b ->
  End2EndEnhancer.effective_indexes self out = Some (End2EndEnhancer.Seq l) ->
  let ms := End2EndEnhancer.children b in
  let n := Z.of_nat (List.length ms) in
  ((forall i, 0 <= i < n -> End2EndEnhancer.contains i l = true) ->
   End2EndEnhancer.forward_features self x out
   = let* r := End2EndEnhancer.outputs ms x in Ok (End2EndEnhancer.Many r))
  /\ (forall j, 0 <= j < n ->
        (forall i, 0 <= i < j -> End2EndEnhancer.contains i l = true) ->
        (forall i, j <= i < n -> End2EndEnhancer.contains i l = false) ->
        End2EndEnhancer.forward_features self x out
        = let* y := End2EndEnhancer.chain ms x in Ok (End2EndEnhancer.One y))
  /\ (forall j i, 0 <= j -> j < i < n ->
        End2EndEnhancer.contains j l = false ->
        End2EndEnhancer.contains i l = true ->
        Py.is_ok (End2EndEnhancer.chain (firstn (Z.to_nat i + 1) ms) x)
        = true ->
        End2EndEnhancer.forward_features self x out
        = Raise (AttributeError "'Tensor' object has no attribute 'append'")).
Proof.
  intros Hb Hout ms n. unfold End2EndEnhancer.forward_features.
  rewrite Hb, Hout. fold ms. repeat split.
  - intros Hall. rewrite features_loop_collects by exact Hall. reflexivity.
  - intros j Hj Hin Hnot. apply features_loop_drops with (j := j); assumption.
  - intros j i Hj Hi Hnot Hin Hrun.
    apply features_loop_gap with (j := j) (i := i); try assumption.
    replace (Z.to_nat (i - 0 + 1)) with (Z.to_nat i + 1)%nat by lia.
    exact Hrun.
Qed.

Lemma forward_features_list_index_witness :
  End2EndEnhancer.forward_features
    (Fixtures.enhancer [Fixtures.doubling; Fixtures.doubling] None)
    (Fixtures.ones [1; 3; 2; 2]%nat) (Some (End2EndEnhancer.Seq [1]))
  = Raise (AttributeError "'Tensor' object has no attribute 'append'").
Proof.
  destruct (forward_features_list_index
              (Fixtures.enhancer [Fixtures.doubling; Fixtures.doubling] None)
              {| End2EndEnhancer.call :=
                   End2EndEnhancer.chain [Fixtures.doubling; Fixtures.doubling];
                 End2EndEnhancer.children :=
                   [Fixtures.doubling; Fixtures.doubling] |}
              (Fixtures.ones [1; 3; 2; 2]%nat)
              (Some (End2EndEnhancer.Seq [1])) [1] eq_refl eq_refl)
    as [_ [_ Hgap]].
  apply (Hgap 0 1); [lia | simpl; lia | reflexivity | reflexivity | reflexivity].
Defined.

(** ** [mse] and the [MSE] module *)

(** [MSE.forward] hands both arrays to [mse] by keyword. The dispatcher
    looks at positional arguments only and finds none, so every call of
    the module raises [NotImplementedError], whatever the inputs are. The
    function itself works when called positionally: on two tensors it
    runs the torch overload, on two numpy arrays the numpy one, and on one
    of each no overload is found. *)
Theorem MSE_forward_always_raises
  (self : Metric.MSE) (y_hat y : Metric.array) (a b : Torch.tensor) :
  Metric.MSE_forward self y_hat y
  = Raise (NotImplementedError "Could not find signature for mse: <>")
  /\ Metric.Dispatcher_call [Metric.Tensor a; Metric.Tensor b] []
     = Metric.mse a b
  /\ Metric.Dispatcher_call [Metric.NdArray a; Metric.NdArray b] []
     = Metric.mse_ndarray a b
  /\ Metric.Dispatcher_call [Metric.Tensor a; Metric.NdArray b] []
     = Raise (NotImplementedError
                "Could not find signature for mse: <Tensor, ndarray>")
  /\ Py.is_ok
       (Metric.Dispatcher_call [Metric.Tensor a; Metric.Tensor b]
          [("y", y)]) = false.
Proof.
  repeat split.
Qed.

(** On tensors without entries, a batch of no image for one, [mse] does
    not raise: the mean of no value is NaN. Shapes that do not broadcast
    make the subtraction raise. *)
Theorem mse_of_nothing_is_nan (a b : Torch.tensor) :
  (Torch.shape a = Torch.shape b ->
   Torch.indices (Torch.shape a) = [] ->
   Metric.mse a b = Ok Metric.NaN)
  /\ (forall e, Torch.broadcast_shapes (Torch.shape a) (Torch.shape b)
                = Raise e ->
      Metric.mse a b = Raise e).
Proof.
  split.
  - intros Hs Hnil. unfold Metric.mse, Torch.sub, Torch.pointwise.
    rewrite <- Hs, broadcast_shapes_same. cbn [Py.bind].
    unfold Metric.mean, Metric.square, Torch.map_entries.
    cbn [Torch.shape]. rewrite Hnil. reflexivity.
  - intros e He. unfold Metric.mse, Torch.sub, Torch.pointwise.
    rewrite He. reflexivity.
Qed.

Lemma mse_of_nothing_is_nan_witness :
  Metric.mse (Fixtures.ones [0; 3; 2; 2]%nat) (Fixtures.ones [0; 3; 2; 2]%nat)
  = Ok Metric.NaN.
Proof.
  destruct (mse_of_nothing_is_nan (Fixtures.ones [0; 3; 2; 2]%nat)
              (Fixtures.ones [0; 3; 2; 2]%nat)) as [Hnan _].
  apply Hnan; reflexivity.
Defined.
